(** * Meshtracking ingestion and reconciliation engine

    A shallow embedding of the bus collector ([mqtt_collector_pg.py]) and of
    the device manager ([device_manager.py]), and the properties of the
    engine that its specification states.

    Conventions of the embedding:
    - Python [int] is [Z]; Python [float] and SQL numeric values are exact
      rationals [Q] (rounding is not modelled); [None] / SQL [NULL] is
      [None : option _];
    - [bytes] is [list byte];
    - a SQL table keyed by a primary key is a [gmap]; an append-only table
      is a list, newest row last;
    - a Python [dict] whose iteration order matters is an association list;
    - code that can raise returns [option] (or [outcome]); what the outside
      world answers (the radio interface, the clock, the configuration file)
      is passed in as data. *)

From Stdlib Require Import ZArith NArith QArith Qabs Lqa Lia Bool List Ascii String.
From Stdlib.Strings Require Import Byte.
From stdpp Require Import base option list gmap strings pretty.
Import ListNotations.

Local Open Scope Z_scope.

(** ** Python and SQL helpers shared by both programs *)

Module Py.

(** Truthiness of an optional number: [None] and [0] are falsy. *)
Definition truthy_Z (o : option Z) : bool :=
  match o with Some z => negb (z =? 0) | None => false end.

Definition truthy_Q (o : option Q) : bool :=
  match o with Some q => negb (Qeq_bool q 0) | None => false end.

Definition Qltb (a b : Q) : bool := negb (Qle_bool b a).

(** [max(a, b)] returns its first argument unless the second is larger. *)
Definition max (a b : Q) : Q := if Qltb a b then b else a.

(** [x if x else None] *)
Definition nonzero_or_none (z : Z) : option Z :=
  if z =? 0 then None else Some z.

(** Lower-case hexadecimal digits of a non-negative number. *)
Definition hex_digit (d : Z) : ascii :=
  if d <? 10 then ascii_of_nat (Z.to_nat (48 + d))
  else ascii_of_nat (Z.to_nat (87 + d)).

Fixpoint hex_digits (fuel : nat) (n : Z) (acc : string) : string :=
  match fuel with
  | O => acc
  | S k =>
      let acc' := String (hex_digit (n mod 16)) acc in
      if n / 16 =? 0 then acc' else hex_digits k (n / 16) acc'
  end.

Definition hex (n : Z) : string :=
  hex_digits (S (Z.to_nat (Z.log2 n))) n EmptyString.

Fixpoint zeros (k : nat) : string :=
  match k with O => EmptyString | S k' => String "0"%char (zeros k') end.

(** [format(n, "08x")]: zero padded to a total width of eight, the sign
    counted in the width. *)
Definition format_08x (n : Z) : string :=
  if n <? 0 then
    let d := hex (- n) in
    String "-"%char (zeros (7 - String.length d) +:+ d)
  else
    let d := hex n in zeros (8 - String.length d) +:+ d.

(** [f"!{n:08x}"] *)
Definition node_id_of_num (n : Z) : string := String "!"%char (format_08x n).

End Py.

Module Sql.

(** [COALESCE(new, old)] *)
Definition coalesce {A} (new old : option A) : option A :=
  match new with Some _ => new | None => old end.

(** [GREATEST(a, b)]: NULL arguments are ignored. *)
Definition greatest (a b : option Q) : option Q :=
  match a, b with
  | Some x, Some y => Some (if Qle_bool x y then y else x)
  | Some x, None => Some x
  | None, _ => b
  end.

End Sql.

(** ** Payload decryption ([mqtt_collector_pg.py], lines 62-112) *)

Module Crypto.

Definition bytes := list byte.

Definition byte_of_N (n : N) : byte :=
  match Byte.of_N (n mod 256) with Some b => b | None => x00 end.

Definition byte_of_Z (z : Z) : byte := byte_of_N (Z.to_N (z mod 256)).

Definition Z_of_byte (b : byte) : Z := Z.of_N (Byte.to_N b).

Definition xor8 (a b : bool * (bool * (bool * (bool * (bool * (bool * (bool * bool)))))))
  : bool * (bool * (bool * (bool * (bool * (bool * (bool * bool)))))) :=
  let '(a0, (a1, (a2, (a3, (a4, (a5, (a6, a7))))))) := a in
  let '(b0, (b1, (b2, (b3, (b4, (b5, (b6, b7))))))) := b in
  (xorb a0 b0, (xorb a1 b1, (xorb a2 b2, (xorb a3 b3,
    (xorb a4 b4, (xorb a5 b5, (xorb a6 b6, xorb a7 b7))))))).

Definition byte_xor (a b : byte) : byte :=
  Byte.of_bits (xor8 (Byte.to_bits a) (Byte.to_bits b)).

(** XOR of a message with a key stream; the result is as long as the
    shorter of the two. *)
Fixpoint xor_bytes (data ks : bytes) : bytes :=
  match data, ks with
  | d :: data', k :: ks' => byte_xor d k :: xor_bytes data' ks'
  | _, _ => []
  end.

(** *** [struct.pack] / [struct.unpack], little endian *)

Fixpoint le_bytes (n : nat) (v : Z) : bytes :=
  match n with
  | O => []
  | S k => byte_of_Z v :: le_bytes k (v / 256)
  end.

Fixpoint le_value (bs : bytes) : Z :=
  match bs with
  | [] => 0
  | b :: bs' => Z_of_byte b + 256 * le_value bs'
  end.

(** [struct.pack('<Q', v)]; [struct.error] outside the 64-bit range. *)
Definition pack_Q (v : Z) : option bytes :=
  if (0 <=? v) && (v <? 2 ^ 64) then Some (le_bytes 8 v) else None.

(** [struct.pack('<I', v)]; [struct.error] outside the 32-bit range. *)
Definition pack_I (v : Z) : option bytes :=
  if (0 <=? v) && (v <? 2 ^ 32) then Some (le_bytes 4 v) else None.

(** [struct.unpack('<I', bs)[0]]; [struct.error] unless four bytes. *)
Definition unpack_I (bs : bytes) : option Z :=
  if (length bs =? 4)%nat then Some (le_value bs) else None.

(** [b[i:j]] *)
Definition slice (i j : nat) (b : bytes) : bytes := take (j - i) (drop i b).

(** [b[i:j] = v] on a bytearray *)
Definition set_slice (i j : nat) (v b : bytes) : bytes :=
  take i b ++ v ++ drop j b.

Definition DEFAULT_PSK : bytes :=
  [xd4; xf1; xbb; x3a; x20; x29; x07; x59;
   xf0; xbc; xff; xab; xcf; x4e; x69; x01].

Definition init_nonce (packet_id from_node : Z) : option bytes :=
  let nonce := replicate 16 x00 in
  q ← pack_Q packet_id;
  let nonce := set_slice 0 8 q nonce in
  i ← pack_I from_node;
  let nonce := set_slice 8 12 i nonce in
  Some nonce.

(** *** The AES block cipher (FIPS-197), as [Crypto.Cipher.AES] computes it *)

Definition word : Type := N * N * N * N.
Definition block : Type := word * word * word * word.

Definition xtime (a : N) : N :=
  let s := N.shiftl a 1 in
  N.land (if N.testbit a 7 then N.lxor s 27 else s) 255.

Fixpoint gmul_aux (fuel : nat) (a b acc : N) : N :=
  match fuel with
  | O => acc
  | S k =>
      gmul_aux k (xtime a) (N.shiftr b 1) (if N.odd b then N.lxor acc a else acc)
  end.

Definition gmul (a b : N) : N := gmul_aux 8 a b 0.

(** The multiplicative inverse in GF(2^8), as the 254th power. *)
Definition ginv (a : N) : N :=
  let a2 := gmul a a in
  let a4 := gmul a2 a2 in
  let a8 := gmul a4 a4 in
  let a16 := gmul a8 a8 in
  let a32 := gmul a16 a16 in
  let a64 := gmul a32 a32 in
  let a128 := gmul a64 a64 in
  gmul a128 (gmul a64 (gmul a32 (gmul a16 (gmul a8 (gmul a4 a2))))).

Definition rotl8 (x : N) (n : N) : N :=
  N.land (N.lor (N.shiftl x n) (N.shiftr x (8 - n))) 255.

Definition sbox_calc (x : N) : N :=
  let b := ginv x in
  N.lxor b (N.lxor (rotl8 b 1) (N.lxor (rotl8 b 2)
    (N.lxor (rotl8 b 3) (N.lxor (rotl8 b 4) 99)))).

Definition sbox_table : list N :=
  Eval vm_compute in map (fun i => sbox_calc (N.of_nat i)) (seq 0 256).

Definition SubByte (x : N) : N := nth (N.to_nat x) sbox_table 0%N.

Definition word_map (f : N -> N) (w : word) : word :=
  let '(a, b, c, d) := w in (f a, f b, f c, f d).

Definition word_xor (v w : word) : word :=
  let '(a, b, c, d) := v in
  let '(a', b', c', d') := w in
  (N.lxor a a', N.lxor b b', N.lxor c c', N.lxor d d').

Definition RotWord (w : word) : word :=
  let '(a, b, c, d) := w in (b, c, d, a).

Definition SubWord (w : word) : word := word_map SubByte w.

Definition Rcon (i : nat) : word :=
  (Nat.iter (i - 1) xtime 1%N, 0%N, 0%N, 0%N).

Definition zero_word : word := (0%N, 0%N, 0%N, 0%N).

Fixpoint expand_key (fuel Nk : nat) (w : list word) : list word :=
  match fuel with
  | O => w
  | S k =>
      let i := length w in
      let temp := nth (i - 1) w zero_word in
      let temp' :=
        if (i mod Nk =? 0)%nat then word_xor (SubWord (RotWord temp)) (Rcon (i / Nk))
        else if (6 <? Nk)%nat && (i mod Nk =? 4)%nat then SubWord temp
        else temp in
      expand_key k Nk (w ++ [word_xor (nth (i - Nk) w zero_word) temp'])
  end.

Definition word_at (l : list N) (i : nat) : word :=
  (nth i l 0%N, nth (i + 1) l 0%N, nth (i + 2) l 0%N, nth (i + 3) l 0%N).

Definition block_of (l : list N) : block :=
  (word_at l 0, word_at l 4, word_at l 8, word_at l 12).

(** The key schedule: [Nk] key words expanded to [4 * (Nk + 7)] words. *)
Definition KeyExpansion (key : list N) : list word :=
  let Nk := (length key / 4)%nat in
  expand_key (4 * (Nk + 7) - Nk) Nk (map (fun i => word_at key (4 * i)) (seq 0 Nk)).

Definition round_key (w : list word) (r : nat) : block :=
  (nth (4 * r) w zero_word, nth (4 * r + 1) w zero_word,
   nth (4 * r + 2) w zero_word, nth (4 * r + 3) w zero_word).

Definition block_map (f : word -> word) (s : block) : block :=
  let '(a, b, c, d) := s in (f a, f b, f c, f d).

Definition AddRoundKey (s k : block) : block :=
  let '(a, b, c, d) := s in
  let '(a', b', c', d') := k in
  (word_xor a a', word_xor b b', word_xor c c', word_xor d d').

Definition SubBytes (s : block) : block := block_map SubWord s.

Definition ShiftRows (s : block) : block :=
  let '((a0, a1, a2, a3), (b0, b1, b2, b3), (c0, c1, c2, c3), (d0, d1, d2, d3)) := s in
  ((a0, b1, c2, d3), (b0, c1, d2, a3), (c0, d1, a2, b3), (d0, a1, b2, c3)).

Definition MixColumn (w : word) : word :=
  let '(a0, a1, a2, a3) := w in
  let m2 := xtime in
  let m3 x := N.lxor (xtime x) x in
  (N.lxor (m2 a0) (N.lxor (m3 a1) (N.lxor a2 a3)),
   N.lxor a0 (N.lxor (m2 a1) (N.lxor (m3 a2) a3)),
   N.lxor a0 (N.lxor a1 (N.lxor (m2 a2) (m3 a3))),
   N.lxor (m3 a0) (N.lxor a1 (N.lxor a2 (m2 a3)))).

Definition MixColumns (s : block) : block := block_map MixColumn s.

Fixpoint cipher_rounds (w : list word) (r n : nat) (s : block) : block :=
  match n with
  | O => AddRoundKey (ShiftRows (SubBytes s)) (round_key w r)
  | S n' =>
      cipher_rounds w (S r) n'
        (AddRoundKey (MixColumns (ShiftRows (SubBytes s))) (round_key w r))
  end.

Definition bytes_of_block (s : block) : bytes :=
  let '((a0, a1, a2, a3), (b0, b1, b2, b3), (c0, c1, c2, c3), (d0, d1, d2, d3)) := s in
  map byte_of_N [a0; a1; a2; a3; b0; b1; b2; b3; c0; c1; c2; c3; d0; d1; d2; d3].

(** One block through the cipher: [Nr = Nk + 6] rounds. *)
Definition AES_encrypt_block (key : bytes) (input : bytes) : bytes :=
  let k := map Byte.to_N key in
  let w := KeyExpansion k in
  let Nr := (length k / 4 + 6)%nat in
  bytes_of_block
    (cipher_rounds w 1 (Nr - 1)
       (AddRoundKey (block_of (map Byte.to_N input)) (round_key w 0))).

(** *** Counter mode, as [Crypto.Util.Counter] and [AES.MODE_CTR] run it *)

Record counter := {
  counter_len : nat;
  counter_prefix : bytes;
  initial_value : Z;
  little_endian : bool
}.

(** [Counter.new(nbits, prefix=.., initial_value=.., little_endian=..)];
    [ValueError] unless [nbits] is a multiple of eight. *)
Definition Counter_new (nbits : nat) (prefix : bytes) (iv : Z) (le : bool)
  : option counter :=
  if (nbits mod 8 =? 0)%nat then
    Some {| counter_len := (nbits / 8)%nat; counter_prefix := prefix;
            initial_value := iv; little_endian := le |}
  else None.

Record ctr_cipher := { cipher_key : bytes; cipher_counter : counter }.

(** [AES.new(key, AES.MODE_CTR, counter=ctr)]; [ValueError] for a key that
    is not 16, 24 or 32 bytes long, or a counter block that is not 16. *)
Definition AES_new_CTR (key : bytes) (ctr : counter) : option ctr_cipher :=
  if ((length key =? 16) || (length key =? 24) || (length key =? 32))%nat
     && (length (counter_prefix ctr) + counter_len ctr =? 16)%nat
  then Some {| cipher_key := key; cipher_counter := ctr |}
  else None.

(** The counter field of block [i]: [counter_len] bytes, least significant
    byte first when [little_endian]. *)
Definition counter_bytes (ctr : counter) (i : Z) : bytes :=
  let le := le_bytes (counter_len ctr) (initial_value ctr + i) in
  if little_endian ctr then le else rev le.

Definition counter_block (ctr : counter) (i : Z) : bytes :=
  counter_prefix ctr ++ counter_bytes ctr i.

Definition keystream (c : ctr_cipher) (nblocks : nat) : bytes :=
  flat_map
    (fun i => AES_encrypt_block (cipher_key c)
                (counter_block (cipher_counter c) (Z.of_nat i)))
    (seq 0 nblocks).

(** [cipher.decrypt(data)]; [OverflowError] once the counter field has
    taken all its values. *)
Definition CTR_decrypt (c : ctr_cipher) (data : bytes) : option bytes :=
  let nblocks := ((length data + 15) / 16)%nat in
  if 2 ^ (8 * Z.of_nat (counter_len (cipher_counter c))) <? Z.of_nat nblocks
  then None
  else Some (xor_bytes data (keystream c nblocks)).

(** [decrypt_packet]: every exception is caught and becomes [None]. *)
Definition decrypt_packet (packet_id from_node : Z) (encrypted_bytes key : bytes)
  : option bytes :=
  nonce ← init_nonce packet_id from_node;
  iv ← unpack_I (slice 12 16 nonce);
  ctr ← Counter_new 32 (slice 0 12 nonce) iv true;
  cipher ← AES_new_CTR key ctr;
  CTR_decrypt cipher encrypted_bytes.

(** *** The sender's side, following the specification's words *)

(** The specification gives the byte order of the packet id and of the
    sender, and none for the block counter. *)
Inductive byte_order := LeastSignificantFirst | MostSignificantFirst.

(** Modelled from the spec: "32-bit block counter starting at 0 (bytes
    12-15)"; the order of its four bytes is the sender's choice. *)
Definition spec_counter (order : byte_order) (block_counter : Z) : bytes :=
  match order with
  | LeastSignificantFirst => le_bytes 4 block_counter
  | MostSignificantFirst => rev (le_bytes 4 block_counter)
  end.

(** Modelled from the spec: "little-endian 64-bit packet_id (bytes 0-7) |
    little-endian 32-bit sender node number (bytes 8-11) | 32-bit block
    counter starting at 0 (bytes 12-15)". *)
Definition spec_nonce (order : byte_order) (packet_id from_node block_counter : Z)
  : bytes :=
  le_bytes 8 packet_id ++ le_bytes 4 from_node ++ spec_counter order block_counter.



(** The key stream of [n] blocks from block [start] on, for a nonce that
    is a function of the number of the block. *)
Definition block_stream (key : bytes) (nonce_of : Z -> bytes) (start n : nat) : bytes :=
  flat_map (fun i => AES_encrypt_block key (nonce_of (Z.of_nat i))) (seq start n).

End Crypto.

(** ** The store: the tables both programs write *)

Module Store.

(** [hw_model] arrives as the enum's number on the bus and as the enum's
    name from a polled device. *)
Inductive hw_value := HwCode (code : Z) | HwName (name : string).

(** A row of [nodes]; the primary key [node_id] is the key of the map. *)
Record NodeRecord := {
  node_num : option Z;
  long_name : option string;
  short_name : option string;
  hw_model : option hw_value;
  role : option Z;
  latitude : option Q;
  longitude : option Q;
  altitude : option Z;
  battery_level : option Q;
  voltage : option Q;
  snr : option Q;
  hops_away : option Q;
  source : option string;
  source_interface : option string;
  region : option string;
  last_radio_contact : option Q;
  last_mqtt_contact : option Q;
  last_heard : option Q;
  last_updated : option Q;
  is_active : option bool;
  has_power_sensor : option bool;
  has_environment_sensor : option bool;
  has_air_quality_sensor : option bool
}.

(** A row of [positions]. *)
Record PositionRow := {
  pos_node_id : string;
  pos_timestamp : Q;
  pos_latitude : option Q;
  pos_longitude : option Q;
  pos_altitude : option Z;
  pos_position_source : string
}.

(** A row of [telemetry]: the metric columns named by the INSERT, in its
    order, with the value bound to each. *)
Record TelemetryRow := {
  tel_node_id : string;
  tel_timestamp : Q;
  tel_values : list (string * option Q);
  tel_has_power_metrics : bool;
  tel_has_environment_metrics : bool;
  tel_has_air_quality_metrics : bool
}.

(** A row of [messages]. *)
Record MessageRow := {
  msg_from_node : string;
  msg_to_node : option string;
  msg_channel : Z;
  msg_packet_id : Z;
  msg_timestamp : Q;
  msg_message_text : string;
  msg_portnum : string;
  msg_want_ack : bool
}.

Record t := {
  nodes : gmap string NodeRecord;
  positions : list PositionRow;
  telemetry : list TelemetryRow;
  messages : list MessageRow
}.

Definition empty : t :=
  {| nodes := ∅; positions := []; telemetry := []; messages := [] |}.

(** What a call sees of the database and of the clocks: whether the
    connection opens, Python's [datetime.now()] and SQL's [NOW()]. *)
Record env := { db_up : bool; py_now : Q; sql_now : Q }.

Definition set_nodes (st : t) (n : gmap string NodeRecord) : t :=
  {| nodes := n; positions := positions st;
     telemetry := telemetry st; messages := messages st |}.

(** Modelled from the spec: the unique constraints of [positions], whose
    schema is not part of the sources. The specification gives the table no
    natural key (it states duplicate suppression for messages only), so the
    [ON CONFLICT DO NOTHING] of [INSERT INTO positions] never skips a row. *)
Definition insert_position (row : PositionRow) (st : t) : t :=
  {| nodes := nodes st; positions := positions st ++ [row];
     telemetry := telemetry st; messages := messages st |}.

Definition insert_telemetry (row : TelemetryRow) (st : t) : t :=
  {| nodes := nodes st; positions := positions st;
     telemetry := telemetry st ++ [row]; messages := messages st |}.

Definition same_message_key (a b : MessageRow) : bool :=
  bool_decide (msg_from_node a = msg_from_node b)
  && bool_decide (msg_to_node a = msg_to_node b)
  && (msg_channel a =? msg_channel b)
  && (msg_packet_id a =? msg_packet_id b).

(** Modelled from the spec: the unique constraint of [messages], whose
    schema is not part of the sources. The specification keys a message by
    (from, to, channel, packet_id), and [INSERT INTO messages ... ON CONFLICT
    DO NOTHING] skips a row whose key is taken. *)
Definition insert_message (row : MessageRow) (st : t) : t :=
  if existsb (same_message_key row) (messages st) then st
  else {| nodes := nodes st; positions := positions st;
          telemetry := telemetry st; messages := messages st ++ [row] |}.

End Store.

(** ** Python dictionaries with string keys, in insertion order *)

Module Dict.

Definition t (V : Type) := list (string * V).

Fixpoint get {V} (k : string) (d : t V) : option V :=
  match d with
  | [] => None
  | (k', v) :: d' => if bool_decide (k = k') then Some v else get k d'
  end.

(** [d[k] = v] *)
Fixpoint set {V} (k : string) (v : V) (d : t V) : t V :=
  match d with
  | [] => [(k, v)]
  | (k', v') :: d' =>
      if bool_decide (k = k') then (k', v) :: d' else (k', v') :: set k v d'
  end.

(** [d.update(other)] *)
Definition update {V} (d other : t V) : t V :=
  fold_left (fun acc kv => set kv.1 kv.2 acc) other d.

(** [del d[k]] for a key that is present. *)
Definition del {V} (k : string) (d : t V) : t V :=
  filter (fun kv => kv.1 <> k) d.

Definition keys {V} (d : t V) : list string := map fst d.
Definition values {V} (d : t V) : list V := map snd d.

End Dict.

(** ** The bus collector ([mqtt_collector_pg.py]) *)

Module Collector.
Import Store.

(** *** Protobuf messages, as the generated classes expose them *)

Record Position := {
  latitude_i : Z;
  longitude_i : Z;
  position_altitude : Z;
  position_time : Z
}.

Record User := {
  user_id : string;
  user_long_name : string;
  user_short_name : string;
  user_hw_model : Z;
  user_role : Z
}.

(** A message of numeric fields; a field that is not set reads as 0. *)
Definition metrics_msg := Dict.t Q.

Definition field (m : metrics_msg) (name : string) : Q :=
  default 0%Q (Dict.get name m).

(** [HasField(..)] is [Some]. *)
Record Telemetry := {
  device_metrics : option metrics_msg;
  power_metrics : option metrics_msg;
  environment_metrics : option metrics_msg;
  air_quality_metrics : option metrics_msg
}.

Record Data := { portnum : Z; data_payload : Crypto.bytes }.

(** [pkt_from_field] is the attribute [from_field] of older bindings,
    [None] where the class has no such attribute. *)
Record MeshPacket := {
  pkt_from : Z;
  pkt_from_field : option Z;
  pkt_to : Z;
  pkt_id : Z;
  pkt_channel : Z;
  pkt_rx_snr : Q;
  pkt_hop_limit : Z;
  pkt_decoded : Data;
  pkt_encrypted : Crypto.bytes
}.

(** [env_packet] is [None] when [not envelope.packet] holds. *)
Record ServiceEnvelope := {
  env_packet : option MeshPacket;
  env_gateway_id : string;
  env_channel_id : string
}.

(** The protobuf runtime and the codec: [ParseFromString] of each message
    class ([None] when it raises), [PortNum.Name] ([None] for a number
    that is not a member of the enum, where it raises) and
    [bytes.decode('utf-8')]. *)
Class Wire := {
  parse_ServiceEnvelope : Crypto.bytes -> option ServiceEnvelope;
  parse_Data : Crypto.bytes -> option Data;
  parse_Position : Crypto.bytes -> option Position;
  parse_User : Crypto.bytes -> option User;
  parse_Telemetry : Crypto.bytes -> option Telemetry;
  PortNum_Name : Z -> option string;
  decode_utf8 : Crypto.bytes -> option string
}.

(** Members of [portnums_pb2.PortNum]. *)
Definition TEXT_MESSAGE_APP : Z := 1.
Definition POSITION_APP : Z := 3.
Definition NODEINFO_APP : Z := 4.
Definition TELEMETRY_APP : Z := 67.
Definition MAP_REPORT_APP : Z := 73.

(** *** The dictionary [parse_service_envelope] returns *)

Record PositionDict := {
  pd_latitude : Q;
  pd_longitude : Q;
  pd_altitude : option Z;
  pd_time : option Z
}.

Record UserDict := {
  ud_id : string;
  ud_long_name : string;
  ud_short_name : string;
  ud_hw_model : Z;
  ud_role : Z
}.

(** A value of [telemetry_data]: a number (or [None]) or a nested
    dictionary of such. *)
Inductive tvalue :=
| TNum (v : option Q)
| TDict (d : Dict.t (option Q)).

Definition TelemetryDict := Dict.t tvalue.

Record Parsed := {
  p_from : string;
  p_from_num : Z;
  p_to : option string;
  p_packet_id : Z;
  p_channel : Z;
  p_gateway_id : string;
  p_channel_id : string;
  p_rx_snr : option Q;
  p_hop_limit : option Z;
  p_position : option PositionDict;
  p_user : option UserDict;
  p_telemetry : option TelemetryDict;
  p_text_message : option string
}.

(** *** Which wire values count as a reading *)

Inductive sentinel := Positive | NonZero | NonNegative.

Definition reading (rule : sentinel) (v : Q) : option Q :=
  match rule with
  | Positive => if Py.Qltb 0 v then Some v else None
  | NonZero => if Qeq_bool v 0 then None else Some v
  | NonNegative => if Qle_bool 0 v then Some v else None
  end.

(** (key of the dictionary, field of the message, rule) *)
Definition power_rules : list (string * string * sentinel) :=
  [("ch1_voltage", "ch1_voltage", Positive); ("ch1_current", "ch1_current", Positive);
   ("ch2_voltage", "ch2_voltage", Positive); ("ch2_current", "ch2_current", Positive);
   ("ch3_voltage", "ch3_voltage", Positive); ("ch3_current", "ch3_current", Positive)].

Definition environment_rules : list (string * string * sentinel) :=
  [("temperature", "temperature", NonZero);
   ("relative_humidity", "relative_humidity", NonZero);
   ("barometric_pressure", "barometric_pressure", NonZero);
   ("gas_resistance", "gas_resistance", Positive);
   ("iaq", "iaq", Positive);
   ("distance", "distance", Positive);
   ("lux", "lux", NonNegative);
   ("white_lux", "white_lux", NonNegative);
   ("ir_lux", "ir_lux", NonNegative);
   ("uv_lux", "uv_lux", NonNegative);
   ("wind_direction", "wind_direction", NonNegative);
   ("wind_speed", "wind_speed", NonNegative);
   ("wind_gust", "wind_gust", NonNegative);
   ("wind_lull", "wind_lull", NonNegative);
   ("weight", "weight", Positive);
   ("radiation", "radiation", NonNegative);
   ("rainfall_1h", "rainfall_1h", NonNegative);
   ("rainfall_24h", "rainfall_24h", NonNegative);
   ("soil_moisture", "soil_moisture", NonNegative);
   ("soil_temperature", "soil_temperature", NonZero)].

(** A missing attribute ([hasattr] false) and an unset field both fail the
    test [> 0]. *)
Definition air_quality_rules : list (string * string * sentinel) :=
  [("pm10_standard", "pm10_standard", Positive);
   ("pm25_standard", "pm25_standard", Positive);
   ("pm100_standard", "pm100_standard", Positive);
   ("co2", "co2", Positive);
   ("voc_idx", "pm_voc_idx", Positive);
   ("nox_idx", "pm_nox_idx", Positive)].

Definition readings (rules : list (string * string * sentinel)) (m : metrics_msg)
  : Dict.t (option Q) :=
  map (fun r => (r.1.1, reading r.2 (field m r.1.2))) rules.

Definition device_entries (m : metrics_msg) : TelemetryDict :=
  map (fun k => (k, TNum (Some (field m k))))
    ["battery_level"; "voltage"; "channel_utilization"; "air_util_tx"; "uptime_seconds"].

Definition group_entry (key : string) (rules : list (string * string * sentinel))
    (m : option metrics_msg) : TelemetryDict :=
  match m with
  | Some m => [(key, TDict (readings rules m))]
  | None => []
  end.

Definition telemetry_data_of (telem : Telemetry) : TelemetryDict :=
  Dict.update
    (Dict.update
       (Dict.update
          (Dict.update [] (from_option device_entries [] (device_metrics telem)))
          (group_entry "power_metrics" power_rules (power_metrics telem)))
       (group_entry "environment_metrics" environment_rules (environment_metrics telem)))
    (group_entry "air_quality_metrics" air_quality_rules (air_quality_metrics telem)).

(** The position entry, from a decoded [Position]: none unless both
    integer coordinates are non-zero. *)
Definition position_of (pos : Position) : option PositionDict :=
  if negb (latitude_i pos =? 0) && negb (longitude_i pos =? 0) then
    Some {| pd_latitude := latitude_i pos # 10000000;
            pd_longitude := longitude_i pos # 10000000;
            pd_altitude := Py.nonzero_or_none (position_altitude pos);
            pd_time := Py.nonzero_or_none (position_time pos) |}
  else None.

Definition set_position (r : Parsed) (v : option PositionDict) : Parsed :=
  {| p_from := p_from r; p_from_num := p_from_num r; p_to := p_to r;
     p_packet_id := p_packet_id r; p_channel := p_channel r;
     p_gateway_id := p_gateway_id r; p_channel_id := p_channel_id r;
     p_rx_snr := p_rx_snr r; p_hop_limit := p_hop_limit r;
     p_position := v; p_user := p_user r; p_telemetry := p_telemetry r;
     p_text_message := p_text_message r |}.

Definition set_user (r : Parsed) (v : option UserDict) : Parsed :=
  {| p_from := p_from r; p_from_num := p_from_num r; p_to := p_to r;
     p_packet_id := p_packet_id r; p_channel := p_channel r;
     p_gateway_id := p_gateway_id r; p_channel_id := p_channel_id r;
     p_rx_snr := p_rx_snr r; p_hop_limit := p_hop_limit r;
     p_position := p_position r; p_user := v; p_telemetry := p_telemetry r;
     p_text_message := p_text_message r |}.

Definition set_telemetry (r : Parsed) (v : option TelemetryDict) : Parsed :=
  {| p_from := p_from r; p_from_num := p_from_num r; p_to := p_to r;
     p_packet_id := p_packet_id r; p_channel := p_channel r;
     p_gateway_id := p_gateway_id r; p_channel_id := p_channel_id r;
     p_rx_snr := p_rx_snr r; p_hop_limit := p_hop_limit r;
     p_position := p_position r; p_user := p_user r; p_telemetry := v;
     p_text_message := p_text_message r |}.

Definition set_text_message (r : Parsed) (v : option string) : Parsed :=
  {| p_from := p_from r; p_from_num := p_from_num r; p_to := p_to r;
     p_packet_id := p_packet_id r; p_channel := p_channel r;
     p_gateway_id := p_gateway_id r; p_channel_id := p_channel_id r;
     p_rx_snr := p_rx_snr r; p_hop_limit := p_hop_limit r;
     p_position := p_position r; p_user := p_user r;
     p_telemetry := p_telemetry r; p_text_message := v |}.

(** [a or b] for an integer attribute [a] and an optional one [b]. *)
Definition py_or (a : Z) (b : option Z) : option Z :=
  if a =? 0 then b else Some a.

Section Parse.
Context `{Wire}.

(** The part of [parse_service_envelope] after the port number and the
    payload are known. [None] is an exception that reaches the outer
    handler. *)
Definition classify (port : Z) (payload_bytes : Crypto.bytes) (result : Parsed)
  : option Parsed :=
  if port =? POSITION_APP then
    pos ← parse_Position payload_bytes;
    Some (match position_of pos with
          | Some pd => set_position result (Some pd)
          | None => result
          end)
  else if port =? NODEINFO_APP then
    user ← parse_User payload_bytes;
    Some (set_user result
            (Some {| ud_id := user_id user; ud_long_name := user_long_name user;
                     ud_short_name := user_short_name user;
                     ud_hw_model := user_hw_model user;
                     ud_role := user_role user |}))
  else if port =? TELEMETRY_APP then
    telem ← parse_Telemetry payload_bytes;
    let telemetry_data := telemetry_data_of telem in
    Some (match telemetry_data with
          | [] => result
          | _ => set_telemetry result (Some telemetry_data)
          end)
  else if port =? TEXT_MESSAGE_APP then
    Some (match decode_utf8 payload_bytes with
          | Some message_text => set_text_message result (Some message_text)
          | None => result
          end)
  else if port =? MAP_REPORT_APP then
    Some (match parse_Position payload_bytes with
          | Some pos =>
              match position_of pos with
              | Some pd => set_position result (Some pd)
              | None => result
              end
          | None => result
          end)
  else Some result.

(** The port number and the payload of a packet: read from [decoded]
    when it names a port, decrypted from [encrypted] otherwise. The log
    line of either branch calls [PortNum.Name]. *)
Definition payload_of (packet : MeshPacket) (from_num : Z)
  : option (Z * Crypto.bytes) :=
  if negb (portnum (pkt_decoded packet) =? 0) then
    _ ← PortNum_Name (portnum (pkt_decoded packet));
    Some (portnum (pkt_decoded packet), data_payload (pkt_decoded packet))
  else if (0 <? length (pkt_encrypted packet))%nat then
    decrypted ← Crypto.decrypt_packet (pkt_id packet) from_num
                  (pkt_encrypted packet) Crypto.DEFAULT_PSK;
    match decrypted with
    | [] => None
    | _ =>
        data ← parse_Data decrypted;
        _ ← PortNum_Name (portnum data);
        Some (portnum data, data_payload data)
    end
  else None.

Definition parse_service_envelope (payload : Crypto.bytes) (topic : string)
  : option Parsed :=
  envelope ← parse_ServiceEnvelope payload;
  packet ← env_packet envelope;
  let from_num := py_or (pkt_from packet) (pkt_from_field packet) in
  let to_num := pkt_to packet in
  let from_id :=
    if Py.truthy_Z from_num then Py.node_id_of_num <$> from_num else None in
  let to_id :=
    if negb (to_num =? 0) then Some (Py.node_id_of_num to_num) else None in
  from_id ← from_id;
  from_num ← from_num;
  let result :=
    {| p_from := from_id; p_from_num := from_num; p_to := to_id;
       p_packet_id := pkt_id packet; p_channel := pkt_channel packet;
       p_gateway_id := env_gateway_id envelope;
       p_channel_id := env_channel_id envelope;
       p_rx_snr := Some (pkt_rx_snr packet);
       p_hop_limit := Some (pkt_hop_limit packet);
       p_position := None; p_user := None; p_telemetry := None;
       p_text_message := None |} in
  pp ← payload_of packet from_num;
  classify pp.1 pp.2 result.

End Parse.

(** *** [update_node] *)

(** [telem.get(k)] for a key that holds a number; a nested dictionary in
    its place cannot be bound to a statement ([None]: the call raises). *)
Definition scalar (k : string) (telem : TelemetryDict) : option (option Q) :=
  match Dict.get k telem with
  | None => Some None
  | Some (TNum v) => Some v
  | Some (TDict _) => None
  end.

(** [telem[k]] for a key that holds a nested dictionary, when present. *)
Definition nested (k : string) (telem : TelemetryDict)
  : option (option (Dict.t (option Q))) :=
  match Dict.get k telem with
  | None => Some None
  | Some (TDict d) => Some (Some d)
  | Some (TNum _) => None
  end.

(** The row the INSERT proposes ([EXCLUDED]); the columns it does not name
    are NULL. *)
Definition excluded_row (e : env) (node_num : Z) (mqtt_topic : string)
    (user : option UserDict) (lat lon : option Q) (alt : option Z)
    (battery volt rx_snr : option Q) : NodeRecord :=
  {| node_num := Some node_num;
     long_name := ud_long_name <$> user;
     short_name := ud_short_name <$> user;
     hw_model := (fun u => HwCode (ud_hw_model u)) <$> user;
     role := ud_role <$> user;
     latitude := lat; longitude := lon; altitude := alt;
     battery_level := battery; voltage := volt; snr := rx_snr;
     hops_away := None;
     source := Some "mqtt"; source_interface := Some mqtt_topic;
     region := None;
     last_radio_contact := None;
     last_mqtt_contact := Some (sql_now e);
     last_heard := Some (py_now e);
     last_updated := Some (sql_now e);
     is_active := Some true;
     has_power_sensor := None; has_environment_sensor := None;
     has_air_quality_sensor := None |}.

(** [ON CONFLICT (node_id) DO UPDATE SET ...] of [update_node]. *)
Definition on_conflict (e : env) (excluded old : NodeRecord) : NodeRecord :=
  let was_radio := bool_decide (source old = Some "radio") in
  {| node_num := Sql.coalesce (node_num excluded) (node_num old);
     long_name := Sql.coalesce (long_name excluded) (long_name old);
     short_name := Sql.coalesce (short_name excluded) (short_name old);
     hw_model := Sql.coalesce (hw_model excluded) (hw_model old);
     role := Sql.coalesce (role excluded) (role old);
     latitude := match latitude excluded with
                 | Some _ => latitude excluded
                 | None => latitude old
                 end;
     longitude := match longitude excluded with
                  | Some _ => longitude excluded
                  | None => longitude old
                  end;
     altitude := Sql.coalesce (altitude excluded) (altitude old);
     battery_level := Sql.coalesce (battery_level excluded) (battery_level old);
     voltage := Sql.coalesce (voltage excluded) (voltage old);
     snr := Sql.coalesce (snr excluded) (snr old);
     hops_away := hops_away old;
     source := if was_radio then Some "radio" else Some "mqtt";
     source_interface :=
       if was_radio then source_interface old else source_interface excluded;
     region := region old;
     last_radio_contact := last_radio_contact old;
     last_mqtt_contact := last_mqtt_contact excluded;
     last_heard := Sql.greatest (last_heard excluded) (last_heard old);
     last_updated := Some (sql_now e);
     is_active := Some true;
     has_power_sensor := has_power_sensor old;
     has_environment_sensor := has_environment_sensor old;
     has_air_quality_sensor := has_air_quality_sensor old |}.

Definition upsert (e : env) (node_id : string) (excluded : NodeRecord) (st : Store.t)
  : Store.t :=
  set_nodes st
    (<[node_id :=
         match nodes st !! node_id with
         | Some old => on_conflict e excluded old
         | None => excluded
         end]> (nodes st)).

(** The keys of [telem_record] that start as [None]. *)
Definition sensor_columns : list string :=
  ["ch1_voltage"; "ch1_current"; "ch2_voltage"; "ch2_current";
   "ch3_voltage"; "ch3_current";
   "temperature"; "relative_humidity"; "barometric_pressure"; "gas_resistance";
   "iaq"; "distance"; "lux"; "white_lux"; "ir_lux"; "uv_lux";
   "wind_direction"; "wind_speed"; "wind_gust"; "wind_lull"; "weight";
   "radiation"; "rainfall_1h"; "rainfall_24h"; "soil_moisture"; "soil_temperature";
   "pm10_standard"; "pm25_standard"; "pm100_standard"; "co2"; "voc_idx"; "nox_idx"].

(** (column of [telemetry], key of [telem_record] bound to it) *)
Definition telemetry_columns : list (string * string) :=
  [("battery_level", "battery_level"); ("voltage", "voltage");
   ("channel_utilization", "channel_utilization"); ("air_util_tx", "air_util_tx");
   ("uptime_seconds", "uptime_seconds");
   ("ch1_voltage", "ch1_voltage"); ("ch1_current", "ch1_current");
   ("ch2_voltage", "ch2_voltage"); ("ch2_current", "ch2_current");
   ("ch3_voltage", "ch3_voltage"); ("ch3_current", "ch3_current");
   ("temperature", "temperature"); ("humidity", "relative_humidity");
   ("relative_humidity", "relative_humidity"); ("pressure", "barometric_pressure");
   ("barometric_pressure", "barometric_pressure");
   ("gas_resistance", "gas_resistance"); ("iaq", "iaq"); ("distance", "distance");
   ("lux", "lux"); ("white_lux", "white_lux"); ("ir_lux", "ir_lux");
   ("uv_lux", "uv_lux"); ("wind_direction", "wind_direction");
   ("wind_speed", "wind_speed"); ("wind_gust", "wind_gust");
   ("wind_lull", "wind_lull"); ("weight", "weight"); ("radiation", "radiation");
   ("rainfall_1h", "rainfall_1h"); ("rainfall_24h", "rainfall_24h");
   ("soil_moisture", "soil_moisture"); ("soil_temperature", "soil_temperature");
   ("pm10", "pm10_standard"); ("pm25", "pm25_standard"); ("pm100", "pm100_standard");
   ("pm10_standard", "pm10_standard"); ("pm25_standard", "pm25_standard");
   ("pm100_standard", "pm100_standard");
   ("co2", "co2"); ("voc_idx", "voc_idx"); ("nox_idx", "nox_idx")].

(** One sensor group: the flag, and [telem_record] after the group's
    entries are merged in, when the group has a reading. *)
Definition merge_group (key : string) (telem : TelemetryDict)
    (telem_record : Dict.t (option Q)) : option (bool * Dict.t (option Q)) :=
  g ← nested key telem;
  Some (match g with
        | Some d =>
            if existsb (fun v => bool_decide (is_Some v)) (Dict.values d)
            then (true, Dict.update telem_record d)
            else (false, telem_record)
        | None => (false, telem_record)
        end).

Definition set_sensor_flags (hp he ha : bool) (r : NodeRecord) : NodeRecord :=
  {| node_num := node_num r; long_name := long_name r; short_name := short_name r;
     hw_model := hw_model r; role := role r;
     latitude := latitude r; longitude := longitude r; altitude := altitude r;
     battery_level := battery_level r; voltage := voltage r; snr := snr r;
     hops_away := hops_away r;
     source := source r; source_interface := source_interface r;
     region := region r;
     last_radio_contact := last_radio_contact r;
     last_mqtt_contact := last_mqtt_contact r;
     last_heard := last_heard r; last_updated := last_updated r;
     is_active := is_active r;
     has_power_sensor := Sql.coalesce (Some hp) (has_power_sensor r);
     has_environment_sensor := Sql.coalesce (Some he) (has_environment_sensor r);
     has_air_quality_sensor := Sql.coalesce (Some ha) (has_air_quality_sensor r) |}.

(** The block "Store telemetry data" of [update_node]. *)
Definition store_telemetry (e : env) (node_id : string) (telem : TelemetryDict)
    (st : Store.t) : option Store.t :=
  b ← scalar "battery_level" telem;
  v ← scalar "voltage" telem;
  cu ← scalar "channel_utilization" telem;
  au ← scalar "air_util_tx" telem;
  up ← scalar "uptime_seconds" telem;
  let telem_record : Dict.t (option Q) :=
    [("battery_level", b); ("voltage", v); ("channel_utilization", cu);
     ("air_util_tx", au); ("uptime_seconds", up)]
    ++ map (fun k => (k, None)) sensor_columns in
  p ← merge_group "power_metrics" telem telem_record;
  en ← merge_group "environment_metrics" telem p.2;
  aq ← merge_group "air_quality_metrics" telem en.2;
  let has_power := p.1 in
  let has_environment := en.1 in
  let has_air_quality := aq.1 in
  let row :=
    {| tel_node_id := node_id; tel_timestamp := py_now e;
       tel_values :=
         map (fun ck => (ck.1, mjoin (Dict.get ck.2 aq.2))) telemetry_columns;
       tel_has_power_metrics := has_power;
       tel_has_environment_metrics := has_environment;
       tel_has_air_quality_metrics := has_air_quality |} in
  let st := insert_telemetry row st in
  Some (if has_power || has_environment || has_air_quality then
          set_nodes st
            (alter (set_sensor_flags has_power has_environment has_air_quality)
               node_id (nodes st))
        else st).

(** The block "Extract position": the coordinates and the altitude that
    go into [node_data]. *)
Definition node_position (data : Parsed) : option Q * option Q * option Z :=
  match p_position data with
  | Some pos =>
      if Py.truthy_Q (Some (pd_latitude pos)) && Py.truthy_Q (Some (pd_longitude pos))
      then (Some (pd_latitude pos), Some (pd_longitude pos), pd_altitude pos)
      else (None, None, None)
  | None => (None, None, None)
  end.

(** The block "Store position if we have coordinates". *)
Definition store_position (e : env) (node_id : string)
    (position : option Q * option Q * option Z) (st : Store.t) : Store.t :=
  if Py.truthy_Q position.1.1 && Py.truthy_Q position.1.2 then
    insert_position
      {| pos_node_id := node_id; pos_timestamp := py_now e;
         pos_latitude := position.1.1; pos_longitude := position.1.2;
         pos_altitude := position.2; pos_position_source := "mqtt" |} st
  else st.

(** The block "Store text message if present". *)
Definition store_text_message (e : env) (node_id : string) (data : Parsed)
    (st : Store.t) : Store.t :=
  match p_text_message data with
  | Some text =>
      insert_message
        {| msg_from_node := node_id; msg_to_node := p_to data;
           msg_channel := p_channel data; msg_packet_id := p_packet_id data;
           msg_timestamp := py_now e; msg_message_text := text;
           msg_portnum := "TEXT_MESSAGE_APP"; msg_want_ack := false |} st
  | None => st
  end.

(** [telem.get(k)] of the block "Extract telemetry". *)
Definition node_metric (k : string) (data : Parsed) : option (option Q) :=
  match p_telemetry data with
  | Some telem => scalar k telem
  | None => Some None
  end.

Definition store_telemetry_if_present (e : env) (node_id : string) (data : Parsed)
    (st : Store.t) : option Store.t :=
  match p_telemetry data with
  | Some telem => store_telemetry e node_id telem st
  | None => Some st
  end.

(** The transaction of [update_node]; [None] is an exception, answered by
    a rollback. *)
Definition update_node_tx (e : env) (node_id : string) (node_num : Z)
    (data : Parsed) (mqtt_topic : string) (st : Store.t) : option Store.t :=
  let position := node_position data in
  battery ← node_metric "battery_level" data;
  volt ← node_metric "voltage" data;
  let excluded :=
    excluded_row e node_num mqtt_topic (p_user data)
      position.1.1 position.1.2 position.2 battery volt (p_rx_snr data) in
  st ← store_telemetry_if_present e node_id data
         (store_position e node_id position (upsert e node_id excluded st));
  Some (store_text_message e node_id data st).

Definition update_node (e : env) (node_id : string) (node_num : Z)
    (data : Parsed) (mqtt_topic : string) (st : Store.t) : Store.t :=
  if db_up e then
    default st (update_node_tx e node_id node_num data mqtt_topic st)
  else st.

(** [on_message]: a frame that does not parse changes nothing. *)
Definition on_message `{Wire} (e : env) (payload : Crypto.bytes) (topic : string)
    (st : Store.t) : Store.t :=
  match parse_service_envelope payload topic with
  | Some data => update_node e (p_from data) (p_from_num data) data topic st
  | None => st
  end.

End Collector.

(** ** The device manager ([device_manager.py]) *)

Module DeviceManager.
Import Store.

Definition REGION_CODE_MAP : list (Z * string) :=
  [(0, "UNSET"); (1, "US"); (2, "EU_433"); (3, "EU_868"); (4, "CN"); (5, "JP");
   (6, "ANZ"); (7, "KR"); (8, "TW"); (9, "RU"); (10, "IN"); (11, "NZ_865");
   (12, "TH"); (13, "UA_433"); (14, "UA_868"); (15, "MY_433"); (16, "MY_919");
   (17, "SG_923"); (18, "LORA_24")].

(** *** [DeviceInfo] *)

Record DeviceInfo := {
  type : string;
  address : string;
  name : string;
  last_seen : Q;
  fail_count : Z;
  node_count : Z;
  last_success : option Q;
  is_primary : bool;
  priority_score : Q;
  standby_poll_counter : Z
}.

(** [DeviceInfo(device_type, address, name)] at time [now]; an absent or
    empty name is replaced by the address. *)
Definition new_device (now : Q) (device_type addr : string) (nm : option string)
  : DeviceInfo :=
  {| type := device_type; address := addr;
     name := match nm with
             | Some n => if bool_decide (n = "") then addr else n
             | None => addr
             end;
     last_seen := now; fail_count := 0; node_count := 0; last_success := None;
     is_primary := false; priority_score := 0; standby_poll_counter := 0 |}.

Definition mark_success (now : Q) (count : Z) (d : DeviceInfo) : DeviceInfo :=
  {| type := type d; address := address d; name := name d;
     last_seen := now; fail_count := 0; node_count := count;
     last_success := Some now;
     is_primary := is_primary d; priority_score := priority_score d;
     standby_poll_counter := standby_poll_counter d |}.

Definition mark_failure (now : Q) (d : DeviceInfo) : DeviceInfo :=
  {| type := type d; address := address d; name := name d;
     last_seen := now; fail_count := fail_count d + 1; node_count := node_count d;
     last_success := last_success d;
     is_primary := is_primary d; priority_score := priority_score d;
     standby_poll_counter := standby_poll_counter d |}.

Definition should_remove (d : DeviceInfo) (max_fails : Z) : bool :=
  max_fails <=? fail_count d.

Definition reliability (d : DeviceInfo) : Q :=
  Py.max (1 # 2) (1 - inject_Z (fail_count d) * (1 # 10)).

Definition recency_bonus (now : Q) (last : Q) : Q :=
  let age_seconds := (now - last)%Q in
  Py.max 1 ((11 # 10) - age_seconds / 3600).

(** [calculate_priority_score], with [time.time()] read as [now]: the exact
    value of the formula. The code evaluates it in binary64, so that its
    value can differ from this one in the last place. *)
Definition calculate_priority_score (now : Q) (d : DeviceInfo) : Q :=
  if node_count d =? 0 then 0%Q
  else
    let score := inject_Z (node_count d) in
    let score := (score * reliability d)%Q in
    if Py.truthy_Q (last_success d) then
      (score * recency_bonus now (default 0%Q (last_success d)))%Q
    else score.

Definition set_priority_score (s : Q) (d : DeviceInfo) : DeviceInfo :=
  {| type := type d; address := address d; name := name d;
     last_seen := last_seen d; fail_count := fail_count d;
     node_count := node_count d; last_success := last_success d;
     is_primary := is_primary d; priority_score := s;
     standby_poll_counter := standby_poll_counter d |}.

Definition set_is_primary (b : bool) (d : DeviceInfo) : DeviceInfo :=
  {| type := type d; address := address d; name := name d;
     last_seen := last_seen d; fail_count := fail_count d;
     node_count := node_count d; last_success := last_success d;
     is_primary := b; priority_score := priority_score d;
     standby_poll_counter := standby_poll_counter d |}.

Definition set_standby_poll_counter (c : Z) (d : DeviceInfo) : DeviceInfo :=
  {| type := type d; address := address d; name := name d;
     last_seen := last_seen d; fail_count := fail_count d;
     node_count := node_count d; last_success := last_success d;
     is_primary := is_primary d; priority_score := priority_score d;
     standby_poll_counter := c |}.

(** *** What a connected interface holds: [interface.nodes] *)

Record RawUser := {
  longName : option string;
  shortName : option string;
  hwModel : option string;
  user_role : option string
}.

Record RawPosition := {
  position_latitude : option Q;
  position_longitude : option Q;
  position_altitude : option Z;
  fixedPosition : bool
}.

(** An entry of the node table. A sub-dictionary that is missing reads as
    the empty one. *)
Record RawNode := {
  num : option Z;
  user : RawUser;
  position : RawPosition;
  deviceMetrics : Dict.t Q;
  environmentMetrics : Dict.t Q;
  airQualityMetrics : Dict.t Q;
  powerMetrics : Dict.t Q;
  node_snr : option Q;
  node_rssi : option Q;
  hopsAway : option Q;
  lastHeard : option Z
}.

Definition role_mapping : Dict.t Z :=
  [("CLIENT", 0); ("CLIENT_MUTE", 1); ("ROUTER", 2); ("ROUTER_CLIENT", 3);
   ("REPEATER", 4); ("TRACKER", 5); ("SENSOR", 6); ("TAK", 7);
   ("CLIENT_HIDDEN", 8); ("LOST_AND_FOUND", 9); ("TAK_TRACKER", 10)].

(** *** The dictionary [poll_device] builds for each entry *)

Record PollNode := {
  n_node_id : string;
  n_node_num : option Z;
  n_long_name : option string;
  n_short_name : option string;
  n_hw_model : option string;
  n_role : option Z;
  n_latitude : option Q;
  n_longitude : option Q;
  n_altitude : option Z;
  n_battery_level : option Q;
  n_voltage : option Q;
  n_sensors : Dict.t (option Q);
  n_snr : option Q;
  n_rssi : option Q;
  n_hops_away : option Q;
  n_region : option string;
  n_last_heard : option Z;
  n_source : string;
  n_has_fixed_position : bool;
  n_is_self_report : bool;
  n_has_power_sensor : bool;
  n_has_environment_sensor : bool;
  n_has_air_quality_sensor : bool
}.

Inductive group := Device | Environment | AirQuality | Power.

Definition group_of (node : RawNode) (g : group) : Dict.t Q :=
  match g with
  | Device => deviceMetrics node
  | Environment => environmentMetrics node
  | AirQuality => airQualityMetrics node
  | Power => powerMetrics node
  end.

(** The sensor keys of the dictionary besides [battery_level] and
    [voltage]: (key, sub-dictionary, key read from it). *)
Definition sensor_sources : list (string * group * string) :=
  [("channel_utilization", Device, "channelUtilization");
   ("air_util_tx", Device, "airUtilTx");
   ("uptime_seconds", Device, "uptimeSeconds");
   ("temperature", Environment, "temperature");
   ("relative_humidity", Environment, "relativeHumidity");
   ("barometric_pressure", Environment, "barometricPressure");
   ("gas_resistance", Environment, "gasResistance");
   ("iaq", Environment, "iaq");
   ("distance", Environment, "distance");
   ("lux", Environment, "lux");
   ("white_lux", Environment, "whiteLux");
   ("ir_lux", Environment, "irLux");
   ("uv_lux", Environment, "uvLux");
   ("wind_direction", Environment, "windDirection");
   ("wind_speed", Environment, "windSpeed");
   ("wind_gust", Environment, "windGust");
   ("wind_lull", Environment, "windLull");
   ("weight", Environment, "weight");
   ("pm10_standard", AirQuality, "pm10Standard");
   ("pm25_standard", AirQuality, "pm25Standard");
   ("pm100_standard", AirQuality, "pm100Standard");
   ("co2", AirQuality, "co2");
   ("voc_idx", AirQuality, "vocIdx");
   ("nox_idx", AirQuality, "noxIdx");
   ("ch1_voltage", Power, "ch1Voltage");
   ("ch1_current", Power, "ch1Current");
   ("ch2_voltage", Power, "ch2Voltage");
   ("ch2_current", Power, "ch2Current");
   ("ch3_voltage", Power, "ch3Voltage");
   ("ch3_current", Power, "ch3Current")].

Definition nonempty {A} (l : list A) : bool :=
  match l with [] => false | _ => true end.

(** The body of the loop over [interface.nodes.items()]. *)
Definition node_data_of (device : DeviceInfo) (my_node_id : option string)
    (device_region : option string) (node_id : string) (node : RawNode) : PollNode :=
  let role_text := user_role (user node) in
  {| n_node_id := node_id;
     n_node_num := num node;
     n_long_name := longName (user node);
     n_short_name := shortName (user node);
     n_hw_model := hwModel (user node);
     n_role := match role_text with
               | Some t => if bool_decide (t = "") then None else Dict.get t role_mapping
               | None => None
               end;
     n_latitude := position_latitude (position node);
     n_longitude := position_longitude (position node);
     n_altitude := position_altitude (position node);
     n_battery_level := Dict.get "batteryLevel" (deviceMetrics node);
     n_voltage := Dict.get "voltage" (deviceMetrics node);
     n_sensors :=
       map (fun s => (s.1.1, Dict.get s.2 (group_of node s.1.2))) sensor_sources;
     n_snr := node_snr node;
     n_rssi := node_rssi node;
     n_hops_away := hopsAway node;
     n_region := device_region;
     n_last_heard := lastHeard node;
     n_source := name device;
     n_has_fixed_position := fixedPosition (position node);
     n_is_self_report := bool_decide (Some node_id = my_node_id);
     n_has_power_sensor := nonempty (powerMetrics node);
     n_has_environment_sensor := nonempty (environmentMetrics node);
     n_has_air_quality_sensor := nonempty (airQualityMetrics node) |}.

(** *** [save_node_data] *)

(** [node.get(field)] *)
Definition node_get (field : string) (node : PollNode) : option Q :=
  if bool_decide (field = "battery_level") then n_battery_level node
  else if bool_decide (field = "voltage") then n_voltage node
  else if bool_decide (field = "snr") then n_snr node
  else if bool_decide (field = "rssi") then n_rssi node
  else if bool_decide (field = "hops_away") then n_hops_away node
  else mjoin (Dict.get field (n_sensors node)).

Definition telemetry_fields : list string :=
  ["battery_level"; "voltage"; "channel_utilization"; "air_util_tx"; "uptime_seconds";
   "temperature"; "relative_humidity"; "barometric_pressure"; "gas_resistance"; "iaq";
   "pm10_standard"; "pm25_standard"; "pm100_standard"; "co2"; "voc_idx"; "nox_idx";
   "lux"; "white_lux"; "ir_lux"; "uv_lux"; "wind_direction"; "wind_speed";
   "wind_gust"; "wind_lull"; "weight"; "distance";
   "ch1_voltage"; "ch1_current"; "ch2_voltage"; "ch2_current";
   "ch3_voltage"; "ch3_current";
   "snr"; "rssi"; "hops_away"].

(** [abs(float(a) - float(b)) < 0.0001] *)
Definition within_jitter (a b : Q) : bool :=
  Py.Qltb (Qabs (a - b)) (1 # 10000).

(** The block "Determine if we should update position": rule 1 (a node
    flagged as fixed, reported by someone else), then rule 2 (position
    unchanged); rule 3 does nothing. *)
Definition should_update_position (node : PollNode) (existing : option NodeRecord)
  : bool :=
  match existing with
  | Some old =>
      if n_has_fixed_position node && negb (n_is_self_report node) then false
      else if Py.truthy_Q (latitude old) && Py.truthy_Q (longitude old)
              && Py.truthy_Q (n_latitude node) && Py.truthy_Q (n_longitude node)
      then
        let lat_diff_small :=
          within_jitter (default 0%Q (latitude old)) (default 0%Q (n_latitude node)) in
        let lon_diff_small :=
          within_jitter (default 0%Q (longitude old)) (default 0%Q (n_longitude node)) in
        negb (lat_diff_small && lon_diff_small)
      else true
  | None => true
  end.

(** [datetime.fromtimestamp(t)]; it raises outside the years 1 to 9999,
    which the caller answers with [None]. *)
Definition fromtimestamp (t : Z) : option Q :=
  if (-62135596800 <=? t) && (t <=? 253402300799) then Some (inject_Z t) else None.

Definition last_heard_dt (node : PollNode) : option Q :=
  if Py.truthy_Z (n_last_heard node) then n_last_heard node ≫= fromtimestamp
  else None.

(** The row the INSERT proposes ([EXCLUDED]). *)
Definition excluded_row (e : env) (node : PollNode) (should : bool) : NodeRecord :=
  {| node_num := n_node_num node;
     long_name := n_long_name node;
     short_name := n_short_name node;
     hw_model := HwName <$> n_hw_model node;
     role := n_role node;
     latitude := if should then n_latitude node else None;
     longitude := if should then n_longitude node else None;
     altitude := if should then n_altitude node else None;
     battery_level := n_battery_level node;
     voltage := n_voltage node;
     snr := n_snr node;
     hops_away := n_hops_away node;
     source := Some "radio";
     source_interface := Some (n_source node);
     region := n_region node;
     last_radio_contact := Some (py_now e);
     last_mqtt_contact := None;
     last_heard := last_heard_dt node;
     last_updated := Some (sql_now e);
     is_active := None;
     has_power_sensor := None; has_environment_sensor := None;
     has_air_quality_sensor := None |}.

(** [ON CONFLICT (node_id) DO UPDATE SET ...] of [save_node_data]. *)
Definition on_conflict (e : env) (excluded old : NodeRecord) : NodeRecord :=
  {| node_num := Sql.coalesce (node_num excluded) (node_num old);
     long_name := Sql.coalesce (long_name excluded) (long_name old);
     short_name := Sql.coalesce (short_name excluded) (short_name old);
     hw_model := Sql.coalesce (hw_model excluded) (hw_model old);
     role := Sql.coalesce (role excluded) (role old);
     latitude := Sql.coalesce (latitude excluded) (latitude old);
     longitude := Sql.coalesce (longitude excluded) (longitude old);
     altitude := Sql.coalesce (altitude excluded) (altitude old);
     battery_level := Sql.coalesce (battery_level excluded) (battery_level old);
     voltage := Sql.coalesce (voltage excluded) (voltage old);
     snr := Sql.coalesce (snr excluded) (snr old);
     hops_away := Sql.coalesce (hops_away excluded) (hops_away old);
     source := Sql.coalesce (source excluded) (source old);
     source_interface := Sql.coalesce (source_interface excluded) (source_interface old);
     region := Sql.coalesce (region excluded) (region old);
     last_radio_contact := last_radio_contact excluded;
     last_mqtt_contact := last_mqtt_contact old;
     last_heard := Sql.coalesce (last_heard excluded) (last_heard old);
     last_updated := Some (sql_now e);
     is_active := is_active old;
     has_power_sensor := has_power_sensor old;
     has_environment_sensor := has_environment_sensor old;
     has_air_quality_sensor := has_air_quality_sensor old |}.

Definition upsert (e : env) (node_id : string) (excluded : NodeRecord) (st : Store.t)
  : Store.t :=
  set_nodes st
    (<[node_id :=
         match nodes st !! node_id with
         | Some old => on_conflict e excluded old
         | None => excluded
         end]> (nodes st)).

Definition telemetry_row (e : env) (node : PollNode) : TelemetryRow :=
  {| tel_node_id := n_node_id node; tel_timestamp := sql_now e;
     tel_values := map (fun f => (f, node_get f node)) telemetry_fields;
     tel_has_power_metrics := n_has_power_sensor node;
     tel_has_environment_metrics := n_has_environment_sensor node;
     tel_has_air_quality_metrics := n_has_air_quality_sensor node |}.

Definition has_telemetry (node : PollNode) : bool :=
  existsb (fun f => bool_decide (is_Some (node_get f node))) telemetry_fields.

(** The body of the loop over [nodes_data]. *)
Definition save_node (e : env) (node : PollNode) (st : Store.t) : Store.t :=
  let node_id := n_node_id node in
  let existing := nodes st !! node_id in
  let should := should_update_position node existing in
  let new_lat := if should then n_latitude node else None in
  let new_lon := if should then n_longitude node else None in
  let altitude' := if should then n_altitude node else None in
  let st := upsert e node_id (excluded_row e node should) st in
  let st := if has_telemetry node then insert_telemetry (telemetry_row e node) st
            else st in
  if should && Py.truthy_Q new_lat && Py.truthy_Q new_lon then
    insert_position
      {| pos_node_id := node_id; pos_timestamp := sql_now e;
         pos_latitude := new_lat; pos_longitude := new_lon;
         pos_altitude := altitude'; pos_position_source := "gps" |} st
  else st.

(** [save_node_data]: one transaction over the batch; nothing is written
    when the connection fails. *)
Definition save_node_data (e : env) (nodes_data : list PollNode) (st : Store.t)
  : Store.t :=
  match nodes_data with
  | [] => st
  | _ => if db_up e then fold_left (fun st node => save_node e node st) nodes_data st
         else st
  end.

(** *** [poll_device] *)

(** What a call on the radio interface does. *)
Inductive outcome (A : Type) :=
| Returns (a : A)
| Raises.
Arguments Returns {A} a.
Arguments Raises {A}.

(** What one poll meets: whether the interface connects;
    [getMyNodeInfo()] ([None], or the dictionary's ['num']); the region
    code of the local configuration ([None] when an attribute is
    missing); the entries the loop over [interface.nodes] receives, each
    a dictionary of the expected shape or a value on which the body of the
    loop raises (an entry, a ['user'] or a ['position'] that is not a
    dictionary), and whether the iteration raises after them; whether
    [close()] returns;
    [time.time()] when the device is marked; the database and the clocks
    that [save_node_data] sees. *)
Record PollIO := {
  io_connect : bool;
  io_my_node_info : outcome (option (option Z));
  io_region : outcome (option Z);
  io_nodes : list (string * outcome RawNode);
  io_nodes_raise : bool;
  io_close : bool;
  io_time : Q;
  io_db : Store.env
}.

Fixpoint count_char (c : ascii) (s : string) : nat :=
  match s with
  | EmptyString => O
  | String a s' => ((if Ascii.eqb a c then 1 else 0) + count_char c s')%nat
  end.

(** [ip, port = device.address.split(':')] needs exactly two parts. *)
Definition address_unpacks (d : DeviceInfo) : bool :=
  if bool_decide (type d = "serial") then true
  else (count_char ":" (address d) <=? 1)%nat.

Definition region_name (code : Z) : string :=
  match List.find (fun kv => kv.1 =? code) REGION_CODE_MAP with
  | Some kv => kv.2
  | None => "UNKNOWN_" +:+ pretty code
  end.

(** The entries of the table on which the body of the loop does not raise:
    the handler inside the loop logs the others and goes on. *)
Definition readable_entries (io : PollIO) : list (string * RawNode) :=
  omap (fun kv : string * outcome RawNode =>
          match kv.2 with
          | Returns node => Some (kv.1, node)
          | Raises => None
          end)
    (io_nodes io).

(** The [try] block of [poll_device] up to [interface.close()]: the
    dictionaries built from the node table, or [None] when anything
    outside the body of the loop raised. *)
Definition read_nodes (device : DeviceInfo) (io : PollIO) : option (list PollNode) :=
  if negb (address_unpacks device) then None
  else if negb (io_connect io) then None
  else
    match io_my_node_info io with
    | Raises => None
    | Returns my_node_info =>
        let my_node_id :=
          (fun n => Py.node_id_of_num (default 0 n)) <$> my_node_info in
        let device_region :=
          match io_region io with
          | Returns (Some code) => Some (region_name code)
          | _ => None
          end in
        if io_nodes_raise io then None
        else
          let nodes_data :=
            map (fun kv => node_data_of device my_node_id device_region kv.1 kv.2)
              (readable_entries io) in
          if negb (io_close io) then None else Some nodes_data
    end.

(** A connection or read failure: the address does not unpack, the
    interface does not connect, or one of the calls on it raises. *)
Definition connection_or_read_failure (device : DeviceInfo) (io : PollIO) : Prop :=
  address_unpacks device = false
  \/ io_connect io = false
  \/ io_my_node_info io = Raises
  \/ io_nodes_raise io = true
  \/ io_close io = false.

Definition poll_device (device : DeviceInfo) (io : PollIO) (st : Store.t)
  : DeviceInfo * Store.t * option (list PollNode) :=
  match read_nodes device io with
  | Some [] => (mark_failure (io_time io) device, st, None)
  | Some nodes_data =>
      (mark_success (io_time io) (Z.of_nat (length nodes_data)) device,
       save_node_data (io_db io) nodes_data st,
       Some nodes_data)
  | None => (mark_failure (io_time io) device, st, None)
  end.

(** *** The registry and the scheduler *)

(** [self.devices]: address to device, in insertion order. A device is
    an object; inside one polling cycle it is named by its place in the
    registry. *)
Definition registry := Dict.t DeviceInfo.

Record config := {
  max_fail_count : Z;
  primary_failover_threshold : Z;
  standby_poll_divisor : Z
}.

(** [sorted(.., key=priority_score, reverse=True)]: descending, devices
    of equal score in their original order. *)
Fixpoint insert_by_score (x : nat * DeviceInfo) (l : list (nat * DeviceInfo))
  : list (nat * DeviceInfo) :=
  match l with
  | [] => [x]
  | y :: l' =>
      if Py.Qltb (priority_score x.2) (priority_score y.2)
      then y :: insert_by_score x l'
      else x :: y :: l'
  end.

Definition sorted_by_score (l : list (nat * DeviceInfo)) : list (nat * DeviceInfo) :=
  foldr insert_by_score [] l.

(** [select_primary_device]: the registry after the scores and the roles
    are rewritten, and the place of the device it returns. *)
Definition select_primary_device (now : Q) (reg : registry) : registry * option nat :=
  match reg with
  | [] => (reg, None)
  | _ =>
      let scored :=
        map (fun ad =>
               (ad.1, set_priority_score (calculate_priority_score now ad.2) ad.2))
          reg in
      let sorted_devices := sorted_by_score (imap (fun i ad => (i, ad.2)) scored) in
      let new_primary := fst <$> head sorted_devices in
      (imap (fun i ad => (ad.1, set_is_primary (bool_decide (Some i = new_primary)) ad.2))
         scored,
       new_primary)
  end.

(** [select_primary_device] with the value that [calculate_priority_score()]
    returns for each device as a parameter. The code computes that value in
    binary64, [calculate_priority_score] above is the exact value of the
    same formula, and the two can differ in the last place; the election
    itself only stores the values and compares them, and a finite binary64
    value is a rational. With [calculate_priority_score now] as [score] this
    is [select_primary_device now]. *)
Definition select_primary_device_scored (score : DeviceInfo -> Q) (reg : registry)
  : registry * option nat :=
  match reg with
  | [] => (reg, None)
  | _ =>
      let scored := map (fun ad => (ad.1, set_priority_score (score ad.2) ad.2)) reg in
      let sorted_devices := sorted_by_score (imap (fun i ad => (i, ad.2)) scored) in
      let new_primary := fst <$> head sorted_devices in
      (imap (fun i ad => (ad.1, set_is_primary (bool_decide (Some i = new_primary)) ad.2))
         scored,
       new_primary)
  end.

Definition cleanup_dead_devices (cfg : config) (reg : registry) : registry :=
  let to_remove :=
    map fst (List.filter (fun ad => should_remove ad.2 (max_fail_count cfg)) reg) in
  fold_left (fun r addr => Dict.del addr r) to_remove reg.

(** What one polling cycle meets: the entries of the configuration file
    (address, ['type'], ['name']; [None] when the file is missing or
    unreadable), the clock at the start of the cycle and at the failover
    check, and what each polled address answers. *)
Record CycleIO := {
  cy_config_file : option (list (string * option string * option string));
  cy_time : Q;
  cy_time_failover : Q;
  cy_poll : string -> PollIO
}.

(** [load_manual_devices]: entries whose address is not registered yet;
    an entry without ['type'] raises, which ends the loading. *)
Fixpoint load_entries (now : Q) (reg : registry)
    (entries : list (string * option string * option string)) (acc : registry)
  : registry :=
  match entries with
  | [] => acc
  | (addr, ty, nm) :: rest =>
      if bool_decide (addr ∈ Dict.keys reg) then load_entries now reg rest acc
      else
        match ty with
        | Some t =>
            load_entries now reg rest
              (Dict.set addr (new_device now t addr (Some (default addr nm))) acc)
        | None => acc
        end
  end.

Definition load_manual_devices (io : CycleIO) (reg : registry) : registry :=
  match cy_config_file io with
  | Some entries => load_entries (cy_time io) reg entries []
  | None => []
  end.

(** The loop "Determine which devices to poll this cycle". *)
Definition schedule (cfg : config) (reg : registry) : registry * list nat :=
  let stepped :=
    imap (fun i ad =>
            if is_primary ad.2 then (ad, Some i)
            else
              let c := standby_poll_counter ad.2 + 1 in
              if standby_poll_divisor cfg <=? c
              then ((ad.1, set_standby_poll_counter 0 ad.2), Some i)
              else ((ad.1, set_standby_poll_counter c ad.2), None))
      reg in
  (map fst stepped, omap snd stepped).

Definition is_primary_at (reg : registry) (i : nat) : bool :=
  from_option (fun ad => is_primary ad.2) false (reg !! i).

(** [sorted(devices_to_poll, key=lambda d: not d.is_primary)] *)
Definition primary_first (reg : registry) (to_poll : list nat) : list nat :=
  List.filter (is_primary_at reg) to_poll
  ++ List.filter (fun i => negb (is_primary_at reg i)) to_poll.

Definition poll_at (io : CycleIO) (rs : registry * Store.t) (i : nat)
  : registry * Store.t :=
  match rs.1 !! i with
  | Some ad =>
      let r := poll_device ad.2 (cy_poll io (address ad.2)) rs.2 in
      (<[i := (ad.1, r.1.1)]> rs.1, r.1.2)
  | None => rs
  end.

(** The body of [polling_loop]. *)
Definition polling_cycle (cfg : config) (io : CycleIO) (rs : registry * Store.t)
  : registry * Store.t :=
  let reg := Dict.update rs.1 (load_manual_devices io rs.1) in
  match reg with
  | [] => (reg, rs.2)
  | _ =>
      let sel := select_primary_device (cy_time io) reg in
      let primary_device := sel.2 in
      let sch := schedule cfg sel.1 in
      let devices_to_poll := sch.2 in
      let polled :=
        match devices_to_poll with
        | [] => (sch.1, rs.2)
        | _ =>
            let after :=
              fold_left (poll_at io) (primary_first sch.1 devices_to_poll)
                (sch.1, rs.2) in
            let failing :=
              match primary_device ≫= (fun i => after.1 !! i) with
              | Some ad => primary_failover_threshold cfg <=? fail_count ad.2
              | None => false
              end in
            if failing
            then ((select_primary_device (cy_time_failover io) after.1).1, after.2)
            else after
        end in
      (cleanup_dead_devices cfg polled.1, polled.2)
  end.

End DeviceManager.

(** ** Discovery of serial devices ([device_manager.py], lines 237-250) *)

Module Discovery.
Import DeviceManager.

(** [port.split('/')[-1]]: the part of the string after its last slash. *)
Fixpoint last_segment (s : string) : string :=
  match s with
  | EmptyString => EmptyString
  | String c s' =>
      if (0 <? count_char "/" s')%nat then last_segment s'
      else if Ascii.eqb c "/" then s' else s
  end.

(** The body of the loop over the ports: a port that is not registered is
    registered as a serial device; [clock] is [time.time()] when the device
    of that port is made. *)
Definition register_port (clock : string -> Q) (reg : registry) (port : string)
  : registry :=
  if bool_decide (port ∈ Dict.keys reg) then reg
  else
    Dict.set port
      (new_device (clock port) "serial" port (Some ("USB-" +:+ last_segment port)))
      reg.

(** [discover_usb_devices]: the registry afterwards and the set it
    returns; [findPorts()] returns the ports or raises. *)
Definition discover_usb_devices (findPorts : outcome (list string))
    (clock : string -> Q) (reg : registry) : registry * gset string :=
  match findPorts with
  | Returns ports => (fold_left (register_port clock) ports reg, list_to_set ports)
  | Raises => (reg, ∅)
  end.

End Discovery.

(** ** Concrete data for the examples *)

Module Examples.
Import Store.

(** A stand-in for the protobuf runtime, one byte per field: an envelope
    is [from; to; port; payload...], a position is [latitude_i;
    longitude_i], every port number has a name, and text is not decoded. *)
Definition nth_byte (i : nat) (bs : Crypto.bytes) : Z :=
  Crypto.Z_of_byte (nth i bs x00).

#[global] Instance toy_wire : Collector.Wire := {|
  Collector.parse_ServiceEnvelope bs :=
    Some {| Collector.env_packet :=
              Some {| Collector.pkt_from := nth_byte 0 bs;
                      Collector.pkt_from_field := None;
                      Collector.pkt_to := nth_byte 1 bs;
                      Collector.pkt_id := 7;
                      Collector.pkt_channel := 0;
                      Collector.pkt_rx_snr := 0;
                      Collector.pkt_hop_limit := 3;
                      Collector.pkt_decoded :=
                        {| Collector.portnum := nth_byte 2 bs;
                           Collector.data_payload := drop 3 bs |};
                      Collector.pkt_encrypted := [] |};
            Collector.env_gateway_id := "!0000aaaa";
            Collector.env_channel_id := "LongFast" |};
  Collector.parse_Data _ := None;
  Collector.parse_Position bs :=
    Some {| Collector.latitude_i := nth_byte 0 bs;
            Collector.longitude_i := nth_byte 1 bs;
            Collector.position_altitude := 0;
            Collector.position_time := 0 |};
  Collector.parse_User _ := None;
  Collector.parse_Telemetry _ := None;
  Collector.PortNum_Name _ := Some "PORT";
  Collector.decode_utf8 _ := None
|}.

Definition clock : Store.env := {| db_up := true; py_now := 1000; sql_now := 1000 |}.
Definition later : Store.env := {| db_up := true; py_now := 2000; sql_now := 2000 |}.

(** A polled entry of node [!0000002a] that carries a position and a
    [lastHeard] time, as device [USB-ttyUSB0] reports it. *)
Definition polled (lat lon : option Q) (alt : option Z) (heard : option Z)
    (fixed self : bool) : DeviceManager.PollNode :=
  {| DeviceManager.n_node_id := "!0000002a";
     DeviceManager.n_node_num := Some 42;
     DeviceManager.n_long_name := Some "Base station";
     DeviceManager.n_short_name := Some "BASE";
     DeviceManager.n_hw_model := Some "HELTEC_V3";
     DeviceManager.n_role := Some 0;
     DeviceManager.n_latitude := lat;
     DeviceManager.n_longitude := lon;
     DeviceManager.n_altitude := alt;
     DeviceManager.n_battery_level := Some 87%Q;
     DeviceManager.n_voltage := None;
     DeviceManager.n_sensors := [];
     DeviceManager.n_snr := None;
     DeviceManager.n_rssi := None;
     DeviceManager.n_hops_away := None;
     DeviceManager.n_region := Some "EU_868";
     DeviceManager.n_last_heard := heard;
     DeviceManager.n_source := "USB-ttyUSB0";
     DeviceManager.n_has_fixed_position := fixed;
     DeviceManager.n_is_self_report := self;
     DeviceManager.n_has_power_sensor := false;
     DeviceManager.n_has_environment_sensor := false;
     DeviceManager.n_has_air_quality_sensor := false |}.

(** A position packet from node [!0000002a] as [parse_service_envelope]
    returns it. *)
Definition heard_on_bus (lat lon : Q) : Collector.Parsed :=
  {| Collector.p_from := "!0000002a"; Collector.p_from_num := 42;
     Collector.p_to := None; Collector.p_packet_id := 7; Collector.p_channel := 0;
     Collector.p_gateway_id := "!0000aaaa"; Collector.p_channel_id := "LongFast";
     Collector.p_rx_snr := Some 0%Q; Collector.p_hop_limit := Some 3;
     Collector.p_position :=
       Some {| Collector.pd_latitude := lat; Collector.pd_longitude := lon;
               Collector.pd_altitude := None; Collector.pd_time := None |};
     Collector.p_user := None; Collector.p_telemetry := None;
     Collector.p_text_message := None |}.

(** A telemetry packet from node [!0000002a] as [parse_service_envelope]
    returns it. *)
Definition measured_on_bus (telem : Collector.TelemetryDict) : Collector.Parsed :=
  {| Collector.p_from := "!0000002a"; Collector.p_from_num := 42;
     Collector.p_to := None; Collector.p_packet_id := 8; Collector.p_channel := 0;
     Collector.p_gateway_id := "!0000aaaa"; Collector.p_channel_id := "LongFast";
     Collector.p_rx_snr := Some 0%Q; Collector.p_hop_limit := Some 3;
     Collector.p_position := None;
     Collector.p_user := None; Collector.p_telemetry := Some telem;
     Collector.p_text_message := None |}.

(** Node [!0000002a] has reported a bus voltage, so its power flag is set. *)
Definition power_reported : Store.t :=
  Collector.update_node clock "!0000002a" 42
    (measured_on_bus
       [("power_metrics", Collector.TDict [("ch1_voltage", Some (5 # 1))])])
    "msh/EU_868/2/e/LongFast" Store.empty.

(** The coordinates and the altitude stored for node [!0000002a]. *)
Definition stored_position (st : Store.t) : option (option Q * option Q * option Z) :=
  (fun r => (latitude r, longitude r, altitude r)) <$> nodes st !! "!0000002a".

Definition stored_last_heard (st : Store.t) : option (option Q) :=
  last_heard <$> nodes st !! "!0000002a".

(** The node reports itself, with a fixed position, to the device that
    polls it. *)
Definition fixed_self_report : Store.t :=
  DeviceManager.save_node_data clock
    [polled (Some (60 # 1)) (Some (10 # 1)) (Some 100) (Some 500) true true]
    Store.empty.

(** A device on a serial port, and what a poll of it meets: one node in
    its table, the device's own. *)
Definition usb0 : DeviceManager.DeviceInfo :=
  DeviceManager.new_device 900 "serial" "/dev/ttyUSB0" (Some "USB-ttyUSB0").

Definition base_station : DeviceManager.RawNode :=
  {| DeviceManager.num := Some 42;
     DeviceManager.user :=
       {| DeviceManager.longName := Some "Base station";
          DeviceManager.shortName := Some "BASE";
          DeviceManager.hwModel := Some "HELTEC_V3";
          DeviceManager.user_role := Some "ROUTER" |};
     DeviceManager.position :=
       {| DeviceManager.position_latitude := Some (60 # 1);
          DeviceManager.position_longitude := Some (10 # 1);
          DeviceManager.position_altitude := Some 100;
          DeviceManager.fixedPosition := true |};
     DeviceManager.deviceMetrics := [("batteryLevel", 87%Q)];
     DeviceManager.environmentMetrics := [];
     DeviceManager.airQualityMetrics := [];
     DeviceManager.powerMetrics := [];
     DeviceManager.node_snr := None;
     DeviceManager.node_rssi := None;
     DeviceManager.hopsAway := None;
     DeviceManager.lastHeard := Some 500 |}.

Definition answers (closes : bool) : DeviceManager.PollIO :=
  {| DeviceManager.io_connect := true;
     DeviceManager.io_my_node_info := DeviceManager.Returns (Some (Some 42));
     DeviceManager.io_region := DeviceManager.Returns (Some 3);
     DeviceManager.io_nodes := [("!0000002a", DeviceManager.Returns base_station)];
     DeviceManager.io_nodes_raise := false;
     DeviceManager.io_close := closes;
     DeviceManager.io_time := 1000;
     DeviceManager.io_db := clock |}.

(** A table of three entries; the body of the loop raises on the second. *)
Definition one_entry_unreadable : DeviceManager.PollIO :=
  {| DeviceManager.io_connect := true;
     DeviceManager.io_my_node_info := DeviceManager.Returns (Some (Some 42));
     DeviceManager.io_region := DeviceManager.Returns (Some 3);
     DeviceManager.io_nodes :=
       [("!0000002a", DeviceManager.Returns base_station);
        ("!0000002b", DeviceManager.Raises);
        ("!0000002c", DeviceManager.Returns base_station)];
     DeviceManager.io_nodes_raise := false;
     DeviceManager.io_close := true;
     DeviceManager.io_time := 1000;
     DeviceManager.io_db := clock |}.

(** The scores that binary64 arithmetic gives a device with three nodes and
    four failures, [3.0 * (1.0 - 4 * 0.1) = 1.7999999999999998], and one
    with two nodes and one failure, [2.0 * (1.0 - 1 * 0.1) = 1.8], neither
    with a success on record; as exact rationals both are 9/5. *)
Definition binary64_score (d : DeviceManager.DeviceInfo) : Q :=
  if DeviceManager.node_count d =? 3
  then 8106479329266892 # 4503599627370496
  else 8106479329266893 # 4503599627370496.

Definition three_nodes_four_failures : DeviceManager.DeviceInfo :=
  {| DeviceManager.type := "serial"; DeviceManager.address := "/dev/ttyUSB0";
     DeviceManager.name := "USB-ttyUSB0"; DeviceManager.last_seen := 1000;
     DeviceManager.fail_count := 4; DeviceManager.node_count := 3;
     DeviceManager.last_success := None; DeviceManager.is_primary := true;
     DeviceManager.priority_score := 0; DeviceManager.standby_poll_counter := 0 |}.

Definition two_nodes_one_failure : DeviceManager.DeviceInfo :=
  {| DeviceManager.type := "serial"; DeviceManager.address := "/dev/ttyUSB1";
     DeviceManager.name := "USB-ttyUSB1"; DeviceManager.last_seen := 1000;
     DeviceManager.fail_count := 1; DeviceManager.node_count := 2;
     DeviceManager.last_success := None; DeviceManager.is_primary := false;
     DeviceManager.priority_score := 0; DeviceManager.standby_poll_counter := 0 |}.

(** Two devices that each returned ten nodes; the second has failed
    twice since. *)
Definition healthy : DeviceManager.DeviceInfo :=
  DeviceManager.mark_success 1000 10 usb0.

Definition failing : DeviceManager.DeviceInfo :=
  DeviceManager.mark_failure 1300
    (DeviceManager.mark_failure 1200
       (DeviceManager.mark_success 1100 10
          (DeviceManager.new_device 900 "tcp" "192.168.1.20:4403"
             (Some "WiFi-192.168.1.20")))).



End Examples.

(** ** Reading back what the code writes *)

Module Reading.

(** The value of a hexadecimal digit, and the number that a string of them
    spells; the way a reader of a node id gets the node number back. *)
Definition digit_value (c : ascii) : Z :=
  let k := Z.of_nat (nat_of_ascii c) in
  if k <? 58 then k - 48 else k - 87.

Fixpoint hex_value_from (v : Z) (s : string) : Z :=
  match s with
  | EmptyString => v
  | String c s' => hex_value_from (16 * v + digit_value c) s'
  end.

(** The number in a node id: the digits after the leading ["!"]. *)
Definition node_num_of_id (node_id : string) : Z :=
  match node_id with
  | EmptyString => 0
  | String _ digits => hex_value_from 0 digits
  end.

(** A decoded record carries at most one kind of payload. *)
Definition one_kind (r : Collector.Parsed) : Prop :=
  (Collector.p_user r = None /\ Collector.p_telemetry r = None
   /\ Collector.p_text_message r = None)
  \/ (Collector.p_position r = None /\ Collector.p_telemetry r = None
      /\ Collector.p_text_message r = None)
  \/ (Collector.p_position r = None /\ Collector.p_user r = None
      /\ Collector.p_text_message r = None)
  \/ (Collector.p_position r = None /\ Collector.p_user r = None
      /\ Collector.p_telemetry r = None).

(** One store extends another: the history tables only grow at the end, no
    node is dropped, and the nodes outside [touched] are as they were. *)
Definition extends (touched : list string) (st st' : Store.t) : Prop :=
  Store.positions st `prefix_of` Store.positions st'
  /\ Store.telemetry st `prefix_of` Store.telemetry st'
  /\ Store.messages st `prefix_of` Store.messages st'
  /\ (forall target,
        is_Some (Store.nodes st !! target) -> is_Some (Store.nodes st' !! target))
  /\ (forall target,
        target ∉ touched -> Store.nodes st' !! target = Store.nodes st !! target).

(** A record that is [radio] is still [radio] in the other store. *)
Definition keeps_radio (st st' : Store.t) : Prop :=
  forall target r,
    Store.nodes st !! target = Some r -> Store.source r = Some "radio" ->
    exists r', Store.nodes st' !! target = Some r' /\ Store.source r' = Some "radio".

(** One step of ingestion, from either channel: a call of [update_node] or a
    call of [save_node_data]. *)
Inductive ingest :=
| FromBus (e : Store.env) (node_id : string) (node_num : Z)
    (data : Collector.Parsed) (mqtt_topic : string)
| FromPoll (e : Store.env) (nodes_data : list DeviceManager.PollNode).

Definition ingest_step (st : Store.t) (op : ingest) : Store.t :=
  match op with
  | FromBus e node_id node_num data mqtt_topic =>
      Collector.update_node e node_id node_num data mqtt_topic st
  | FromPoll e nodes_data => DeviceManager.save_node_data e nodes_data st
  end.

(** Which columns of a node record hold a value, in the order of the
    record. *)
Definition filled {A} (o : option A) : bool :=
  match o with Some _ => true | None => false end.

Definition known (r : Store.NodeRecord) : list bool :=
  [filled (Store.node_num r); filled (Store.long_name r); filled (Store.short_name r);
   filled (Store.hw_model r); filled (Store.role r); filled (Store.latitude r);
   filled (Store.longitude r); filled (Store.altitude r);
   filled (Store.battery_level r); filled (Store.voltage r); filled (Store.snr r);
   filled (Store.hops_away r); filled (Store.source r);
   filled (Store.source_interface r); filled (Store.region r);
   filled (Store.last_radio_contact r); filled (Store.last_mqtt_contact r);
   filled (Store.last_heard r); filled (Store.last_updated r);
   filled (Store.is_active r); filled (Store.has_power_sensor r);
   filled (Store.has_environment_sensor r); filled (Store.has_air_quality_sensor r)].

(** Every column that holds a value in [r] holds one in [r']. *)
Definition remembers (r r' : Store.NodeRecord) : Prop :=
  Forall2 (fun before after => before = true -> after = true) (known r) (known r').

(** Every record of the one store is in the other, no column emptied. *)
Definition forgets_nothing (st st' : Store.t) : Prop :=
  forall target r,
    Store.nodes st !! target = Some r ->
    exists r', Store.nodes st' !! target = Some r' /\ remembers r r'.

(** The poll path only adds to the store: the history tables grow at the
    end, the messages are left alone and no node is dropped. *)
Definition grows (st st' : Store.t) : Prop :=
  Store.positions st `prefix_of` Store.positions st'
  /\ Store.telemetry st `prefix_of` Store.telemetry st'
  /\ Store.messages st' = Store.messages st
  /\ (forall target,
        is_Some (Store.nodes st !! target) -> is_Some (Store.nodes st' !! target)).




(** The devices of the registry that hold the primary role. *)
Definition primaries (reg : DeviceManager.registry) : DeviceManager.registry :=
  filter (fun ad => DeviceManager.is_primary ad.2 = true) reg.

(** The roles of the registry, in order. *)
Definition roles (reg : DeviceManager.registry) : list bool :=
  (fun ad => DeviceManager.is_primary ad.2) <$> reg.

(** The registry after [k] passes of the loop "Determine which devices to
    poll this cycle", when nothing else touches it in between. *)
Definition schedule_passes (cfg : DeviceManager.config) (k : nat)
    (reg : DeviceManager.registry) : DeviceManager.registry :=
  Nat.iter k (fun r => (DeviceManager.schedule cfg r).1) reg.

End Reading.

(** * Properties *)

(** ** Payload decryption *)

Section CryptoFacts.
Import Crypto.

(** The cipher on the example vectors of FIPS-197, appendix C. *)
Example AES_128_vector :
  AES_encrypt_block
    [x00; x01; x02; x03; x04; x05; x06; x07; x08; x09; x0a; x0b; x0c; x0d; x0e; x0f]
    [x00; x11; x22; x33; x44; x55; x66; x77; x88; x99; xaa; xbb; xcc; xdd; xee; xff]
  = [x69; xc4; xe0; xd8; x6a; x7b; x04; x30; xd8; xcd; xb7; x80; x70; xb4; xc5; x5a].
Proof. vm_compute. reflexivity. Qed.

Example AES_192_vector :
  AES_encrypt_block
    [x00; x01; x02; x03; x04; x05; x06; x07; x08; x09; x0a; x0b; x0c; x0d; x0e; x0f;
     x10; x11; x12; x13; x14; x15; x16; x17]
    [x00; x11; x22; x33; x44; x55; x66; x77; x88; x99; xaa; xbb; xcc; xdd; xee; xff]
  = [xdd; xa9; x7c; xa4; x86; x4c; xdf; xe0; x6e; xaf; x70; xa0; xec; x0d; x71; x91].
Proof. vm_compute. reflexivity. Qed.

Example AES_256_vector :
  AES_encrypt_block
    [x00; x01; x02; x03; x04; x05; x06; x07; x08; x09; x0a; x0b; x0c; x0d; x0e; x0f;
     x10; x11; x12; x13; x14; x15; x16; x17; x18; x19; x1a; x1b; x1c; x1d; x1e; x1f]
    [x00; x11; x22; x33; x44; x55; x66; x77; x88; x99; xaa; xbb; xcc; xdd; xee; xff]
  = [x8e; xa2; xb7; xca; x51; x67; x45; xbf; xea; xfc; x49; x90; x4b; x49; x60; x89].
Proof. vm_compute. reflexivity. Qed.

Example init_nonce_example :
  init_nonce 258 3
  = Some [x02; x01; x00; x00; x00; x00; x00; x00; x03; x00; x00; x00;
          x00; x00; x00; x00].
Proof. reflexivity. Qed.

Example node_id_of_num_examples :
  Py.node_id_of_num 42 = "!0000002a"
  /\ Py.node_id_of_num 3735928559 = "!deadbeef"
  /\ Py.node_id_of_num 0 = "!00000000".
Proof. repeat split; vm_compute; reflexivity. Qed.

Lemma xorb_cancel a k : xorb (xorb a k) k = a.
Proof. by destruct a, k. Qed.

Lemma byte_xor_involutive a k : byte_xor (byte_xor a k) k = a.
Proof.
  unfold byte_xor. rewrite Byte.to_bits_of_bits.
  rewrite <- (Byte.of_bits_to_bits a) at 2. f_equal.
  destruct (Byte.to_bits a) as (a0 & a1 & a2 & a3 & a4 & a5 & a6 & a7).
  destruct (Byte.to_bits k) as (k0 & k1 & k2 & k3 & k4 & k5 & k6 & k7).
  cbn. by rewrite !xorb_cancel.
Qed.

Lemma xor_bytes_length d ks :
  (length d <= length ks)%nat -> length (xor_bytes d ks) = length d.
Proof.
  revert ks. induction d as [|x d IH]; intros [|k ks] H; cbn in *; try lia.
  rewrite IH; lia.
Qed.

Lemma xor_bytes_involutive d ks :
  (length d <= length ks)%nat -> xor_bytes (xor_bytes d ks) ks = d.
Proof.
  revert ks. induction d as [|x d IH]; intros [|k ks] H; cbn in *; try lia; try done.
  rewrite byte_xor_involutive, IH; [done | lia].
Qed.


Lemma AES_encrypt_block_length key input :
  length (AES_encrypt_block key input) = 16%nat.
Proof.
  unfold AES_encrypt_block, bytes_of_block.
  match goal with |- context [cipher_rounds ?w ?r ?n ?s] =>
    destruct (cipher_rounds w r n s) as [[[[[[a0 a1] a2] a3] [[[b0 b1] b2] b3]]
      [[[c0 c1] c2] c3]] [[[d0 d1] d2] d3]] end.
  reflexivity.
Qed.


Lemma le_bytes_length n v : length (le_bytes n v) = n.
Proof. revert v. induction n as [|n IH]; intros v; cbn; [done | by rewrite IH]. Qed.

Lemma block_stream_length key nonce_of start n :
  length (block_stream key nonce_of start n) = (16 * n)%nat.
Proof.
  unfold block_stream. revert start.
  induction n as [|n IH]; intros start; cbn [seq flat_map]; [done |].
  rewrite length_app, AES_encrypt_block_length, IH. lia.
Qed.


Lemma init_nonce_layout pid from :
  0 <= pid < 2 ^ 64 -> 0 <= from < 2 ^ 32 ->
  init_nonce pid from = Some (le_bytes 8 pid ++ le_bytes 4 from ++ replicate 4 x00).
Proof.
  intros Hp Hf. unfold init_nonce, pack_Q, pack_I.
  replace ((0 <=? pid) && (pid <? 2 ^ 64)) with true by (symmetry; apply andb_true_iff; lia).
  replace ((0 <=? from) && (from <? 2 ^ 32)) with true by (symmetry; apply andb_true_iff; lia).
  cbn [mbind option_bind]. unfold set_slice. cbn [le_bytes].
  reflexivity.
Qed.



(** From the second block on, the byte order of the counter field decides
    the counter block: [decrypt_packet] asks for the least significant
    byte first. *)
Remark counter_byte_order prefix :
  counter_block {| counter_len := 4; counter_prefix := prefix;
                   initial_value := 0; little_endian := true |} 1
  <> counter_block {| counter_len := 4; counter_prefix := prefix;
                      initial_value := 0; little_endian := false |} 1.
Proof.
  unfold counter_block. intros Heq. apply app_inv_head in Heq.
  vm_compute in Heq. discriminate.
Qed.

End CryptoFacts.

(** ** The bus collector *)

Section CollectorFacts.
Import Store Collector.

Lemma nodes_insert_message row st : nodes (insert_message row st) = nodes st.
Proof. unfold insert_message. by destruct (existsb _ _). Qed.

Lemma positions_insert_message row st :
  positions (insert_message row st) = positions st.
Proof. unfold insert_message. by destruct (existsb _ _). Qed.

(** The telemetry block appends one row and touches the node's sensor
    flags only. *)
Lemma store_telemetry_effect e node_id telem st st' :
  store_telemetry e node_id telem st = Some st' ->
  positions st' = positions st
  /\ (nodes st' = nodes st
      \/ exists hp he ha,
           nodes st' = alter (set_sensor_flags hp he ha) node_id (nodes st)).
Proof.
  unfold store_telemetry. intros Hst.
  repeat match type of Hst with
         | (?m ≫= _) = Some _ =>
             destruct m eqn:?; cbn [mbind option_bind] in Hst; [| discriminate]
         end.
  injection Hst as <-.
  destruct (_ || _); cbn; eauto 10.
Qed.

(** Where the transaction of [update_node] leaves the table of nodes: the
    upserted row, with at most the sensor flags rewritten. *)
Lemma nodes_store_position e node_id position st :
  nodes (store_position e node_id position st) = nodes st.
Proof. unfold store_position. by destruct (_ && _). Qed.

Lemma nodes_store_text_message e node_id data st :
  nodes (store_text_message e node_id data st) = nodes st.
Proof.
  unfold store_text_message.
  destruct (p_text_message data); [apply nodes_insert_message | done].
Qed.

Lemma update_node_tx_nodes e node_id node_num data topic st st' :
  update_node_tx e node_id node_num data topic st = Some st' ->
  exists battery volt,
    let position := node_position data in
    let excluded :=
      excluded_row e node_num topic (p_user data)
        position.1.1 position.1.2 position.2 battery volt (p_rx_snr data) in
    let upserted :=
      <[node_id := match nodes st !! node_id with
                   | Some old => on_conflict e excluded old
                   | None => excluded
                   end]> (nodes st) in
    nodes st' = upserted
    \/ exists hp he ha,
         nodes st' = alter (set_sensor_flags hp he ha) node_id upserted.
Proof.
  unfold update_node_tx. intros Htx.
  destruct (node_metric "battery_level" data) as [battery|];
    cbn [mbind option_bind] in Htx; [| discriminate].
  destruct (node_metric "voltage" data) as [volt|];
    cbn [mbind option_bind] in Htx; [| discriminate].
  exists battery, volt. cbn zeta.
  destruct (store_telemetry_if_present _ _ _ _) as [st3|] eqn:Htel;
    cbn [mbind option_bind] in Htx; [| discriminate].
  injection Htx as <-. rewrite nodes_store_text_message.
  unfold store_telemetry_if_present in Htel.
  destruct (p_telemetry data) as [telem|].
  - apply store_telemetry_effect in Htel as [_ Hn3].
    by rewrite nodes_store_position in Hn3.
  - injection Htel as <-. left. by rewrite nodes_store_position.
Qed.

(** The rows of [positions] after the transaction: one more when the
    packet carries coordinates, none otherwise. *)
Lemma update_node_tx_positions e node_id node_num data topic st st' :
  update_node_tx e node_id node_num data topic st = Some st' ->
  positions st' = positions (store_position e node_id (node_position data) st).
Proof.
  unfold update_node_tx. intros Htx.
  destruct (node_metric "battery_level" data) as [battery|];
    cbn [mbind option_bind] in Htx; [| discriminate].
  destruct (node_metric "voltage" data) as [volt|];
    cbn [mbind option_bind] in Htx; [| discriminate].
  destruct (store_telemetry_if_present _ _ _ _) as [st3|] eqn:Htel;
    cbn [mbind option_bind] in Htx; [| discriminate].
  injection Htx as <-.
  assert (Hp3 : positions st3
                = positions (store_position e node_id (node_position data) st)).
  { unfold store_telemetry_if_present in Htel.
    destruct (p_telemetry data) as [telem|].
    - apply store_telemetry_effect in Htel as [-> _].
      unfold store_position. by destruct (_ && _).
    - injection Htel as <-. unfold store_position. by destruct (_ && _). }
  unfold store_text_message.
  destruct (p_text_message data); [by rewrite positions_insert_message | done].
Qed.

Lemma on_conflict_radio e excluded old :
  source old = Some "radio" ->
  source (on_conflict e excluded old) = Some "radio"
  /\ source_interface (on_conflict e excluded old) = source_interface old.
Proof. intros Hs. unfold on_conflict. cbn. by rewrite !bool_decide_eq_true_2. Qed.

Lemma on_conflict_last_heard e excluded old :
  last_heard (on_conflict e excluded old)
  = Sql.greatest (last_heard excluded) (last_heard old).
Proof. reflexivity. Qed.

(** On the bus the stored [last_heard] never moves back: after
    [update_node] it is the later of the stored value and the arrival
    time of the update. *)
Lemma bus_last_heard_is_greatest e node_id node_num data topic st st' old :
  nodes st !! node_id = Some old ->
  update_node_tx e node_id node_num data topic st = Some st' ->
  exists r',
    nodes st' !! node_id = Some r'
    /\ last_heard r' = Sql.greatest (Some (py_now e)) (last_heard old).
Proof.
  intros Hold Htx.
  apply update_node_tx_nodes in Htx as (battery & volt & Hn). cbn zeta in Hn.
  rewrite Hold in Hn.
  destruct Hn as [-> | (hp & he & ha & ->)].
  - rewrite lookup_insert_eq. eauto.
  - rewrite lookup_alter_eq, lookup_insert_eq. cbn. eauto.
Qed.

(** A decoded position whose two integer coordinates are zero gives no
    position entry. *)
Lemma position_of_zero pos :
  latitude_i pos = 0 -> longitude_i pos = 0 -> position_of pos = None.
Proof. intros Hlat Hlon. unfold position_of. by rewrite Hlat. Qed.

(** A position packet, or a map report, whose decoded position has both
    integer coordinates zero comes out of the classifier without a position
    entry. *)
Lemma classify_zero_position `{Wire} port payload_bytes result pos :
  port = POSITION_APP \/ port = MAP_REPORT_APP ->
  parse_Position payload_bytes = Some pos ->
  latitude_i pos = 0 -> longitude_i pos = 0 ->
  classify port payload_bytes result = Some result.
Proof.
  intros Hport Hparse Hlat Hlon. unfold classify.
  destruct Hport as [-> | ->]; cbn; rewrite Hparse; cbn;
    by rewrite (position_of_zero pos Hlat Hlon).
Qed.

(** A packet without a position entry leaves the stored coordinates and
    the table of positions as they are. *)
Lemma bus_no_position_entry e node_id node_num data topic st st' old :
  p_position data = None ->
  nodes st !! node_id = Some old ->
  update_node_tx e node_id node_num data topic st = Some st' ->
  positions st' = positions st
  /\ exists r',
       nodes st' !! node_id = Some r'
       /\ latitude r' = latitude old
       /\ longitude r' = longitude old
       /\ altitude r' = altitude old.
Proof.
  intros Hpos Hold Htx. split.
  - rewrite (update_node_tx_positions _ _ _ _ _ _ _ Htx).
    unfold node_position, store_position. by rewrite Hpos.
  - apply update_node_tx_nodes in Htx as (battery & volt & Hn). cbn zeta in Hn.
    rewrite Hold in Hn. unfold node_position in Hn. rewrite Hpos in Hn.
    destruct Hn as [-> | (hp & he & ha & ->)].
    + rewrite lookup_insert_eq. eexists. split; [reflexivity |]. by cbn.
    + rewrite lookup_alter_eq, lookup_insert_eq. eexists.
      split; [reflexivity |]. by cbn.
Qed.

End CollectorFacts.

(** ** The reconciliation of polled nodes *)

Section SaveNodeFacts.
Import Store DeviceManager.

Lemma save_node_nodes e node st :
  nodes (save_node e node st)
  = <[n_node_id node :=
        let excluded :=
          excluded_row e node (should_update_position node (nodes st !! n_node_id node)) in
        match nodes st !! n_node_id node with
        | Some old => on_conflict e excluded old
        | None => excluded
        end]> (nodes st).
Proof.
  unfold save_node.
  destruct (_ && _ && _); destruct (has_telemetry node); reflexivity.
Qed.

Lemma save_node_positions e node st :
  positions (save_node e node st)
  = let should := should_update_position node (nodes st !! n_node_id node) in
    if should && Py.truthy_Q (n_latitude node) && Py.truthy_Q (n_longitude node)
    then positions st
         ++ [{| pos_node_id := n_node_id node; pos_timestamp := sql_now e;
                pos_latitude := n_latitude node; pos_longitude := n_longitude node;
                pos_altitude := n_altitude node; pos_position_source := "gps" |}]
    else positions st.
Proof.
  unfold save_node. cbn zeta.
  destruct (should_update_position node (nodes st !! n_node_id node));
    cbn [andb]; [| by destruct (has_telemetry node)].
  destruct (Py.truthy_Q (n_latitude node) && Py.truthy_Q (n_longitude node));
    by destruct (has_telemetry node).
Qed.

Lemma save_node_telemetry e node st :
  telemetry (save_node e node st)
  = if has_telemetry node then telemetry st ++ [telemetry_row e node]
    else telemetry st.
Proof.
  unfold save_node.
  destruct (_ && _ && _); destruct (has_telemetry node); reflexivity.
Qed.

(** The comparison of rule 2, read back as an inequality. *)
Lemma within_jitter_spec a b :
  within_jitter a b = true <-> (Qabs (a - b) < 1 # 10000)%Q.
Proof.
  unfold within_jitter, Py.Qltb. rewrite negb_true_iff.
  split.
  - intros Hle. apply Qnot_le_lt. intros Hc.
    apply Qle_bool_iff in Hc. congruence.
  - intros Hlt. destruct (Qle_bool (1 # 10000) (Qabs (a - b))) eqn:Hle; [| done].
    apply Qle_bool_iff in Hle. exfalso. by apply (Qlt_not_le _ _ Hlt).
Qed.

Lemma truthy_Q_spec q : Py.truthy_Q (Some q) = true <-> ~ (q == 0)%Q.
Proof.
  cbn. rewrite negb_true_iff. split.
  - intros Hb Heq. apply Qeq_bool_iff in Heq. congruence.
  - intros Hne. destruct (Qeq_bool q 0) eqn:Hb; [| done].
    exfalso. apply Hne. by apply Qeq_bool_iff.
Qed.

(** A polled entry whose latitude or longitude is zero or missing appends
    no position row. *)
Lemma poll_zero_position_no_sample e node st :
  Py.truthy_Q (n_latitude node) && Py.truthy_Q (n_longitude node) = false ->
  positions (save_node e node st) = positions st.
Proof.
  intros Hz. rewrite save_node_positions. cbn zeta.
  by rewrite <- andb_assoc, Hz, andb_false_r.
Qed.

End SaveNodeFacts.

(** ** The device manager *)

Section PollFacts.
Import Store DeviceManager.

Lemma read_nodes_failure device io :
  connection_or_read_failure device io -> read_nodes device io = None.
Proof.
  unfold read_nodes. intros [H | [H | [H | [H | H]]]]; rewrite H; cbn [negb].
  - done.
  - by destruct (negb (address_unpacks device)).
  - by destruct (negb (address_unpacks device)), (negb (io_connect io)).
  - destruct (negb (address_unpacks device)), (negb (io_connect io)); try done.
    by destruct (io_my_node_info io).
  - destruct (negb (address_unpacks device)), (negb (io_connect io)); try done.
    destruct (io_my_node_info io); [| done]. by destruct (io_nodes_raise io).
Qed.

Lemma read_nodes_success device io nodes_data :
  read_nodes device io = Some nodes_data ->
  ~ connection_or_read_failure device io
  /\ map n_node_id nodes_data = map fst (readable_entries io).
Proof.
  intros Hread. split.
  - intros Hfail. apply read_nodes_failure in Hfail. congruence.
  - unfold read_nodes in Hread.
    destruct (negb (address_unpacks device)); [discriminate |].
    destruct (negb (io_connect io)); [discriminate |].
    destruct (io_my_node_info io) as [my|]; [| discriminate].
    destruct (io_nodes_raise io); [discriminate |].
    destruct (negb (io_close io)); [discriminate |].
    injection Hread as <-. rewrite map_map. by apply map_ext.
Qed.

(** Without a connection or read failure the table is read: one dictionary
    for every entry on which the body of the loop does not raise. *)
Lemma read_nodes_readable device io :
  ~ connection_or_read_failure device io ->
  exists nodes_data,
    read_nodes device io = Some nodes_data
    /\ map n_node_id nodes_data = map fst (readable_entries io)
    /\ length nodes_data = length (readable_entries io).
Proof.
  intros Hok. unfold connection_or_read_failure in Hok. unfold read_nodes.
  destruct (address_unpacks device); [| tauto].
  destruct (io_connect io); [| tauto].
  destruct (io_my_node_info io) as [my |]; [| tauto].
  destruct (io_nodes_raise io); [tauto |].
  destruct (io_close io); [| tauto].
  cbn [negb]. eexists. split; [reflexivity |]. split.
  - rewrite map_map. by apply map_ext.
  - apply length_map.
Qed.

Lemma py_max_bounds a b :
  (a <= Py.max a b)%Q /\ (b <= Py.max a b)%Q
  /\ (Py.max a b == a \/ Py.max a b == b)%Q.
Proof.
  unfold Py.max, Py.Qltb.
  destruct (Qle_bool b a) eqn:Hle; cbn [negb].
  - apply Qle_bool_iff in Hle. repeat split; [lra | lra | by left].
  - assert (~ (b <= a)%Q) by (intros Hc; apply Qle_bool_iff in Hc; congruence).
    repeat split; [lra | lra | by right].
Qed.

(** The recency bonus of a device whose last success is not in the future
    lies between 1 and 1.1. *)
Lemma recency_bonus_bounds now last :
  (last <= now)%Q ->
  (1 <= recency_bonus now last)%Q /\ (recency_bonus now last <= 11 # 10)%Q.
Proof.
  intros Hage. unfold recency_bonus.
  destruct (py_max_bounds 1 ((11 # 10) - (now - last) / 3600)) as (H1 & H2 & [H | H]).
  - split; lra.
  - split; [lra |]. rewrite H.
    assert (0 <= (now - last) / 3600)%Q; [| lra].
    apply Qle_shift_div_l; lra.
Qed.

(** The score of a device with ten nodes: ten times its reliability,
    times a bonus between 1 and 1.1. *)
Lemma score_of_ten now d :
  node_count d = 10 ->
  (forall t, last_success d = Some t -> (t <= now)%Q) ->
  exists bonus,
    (1 <= bonus)%Q /\ (bonus <= 11 # 10)%Q
    /\ (calculate_priority_score now d == 10 * reliability d * bonus)%Q.
Proof.
  intros Hn Hage. unfold calculate_priority_score. rewrite Hn. cbn [Z.eqb].
  destruct (Py.truthy_Q (last_success d)) eqn:Ht.
  - destruct (last_success d) as [t|]; [| discriminate].
    destruct (recency_bonus_bounds now t (Hage t eq_refl)) as [Hlo Hhi].
    exists (recency_bonus now t). by repeat split.
  - exists 1%Q. repeat split; [lra | lra |]. change (inject_Z 10) with 10%Q. lra.
Qed.

End PollFacts.

Section RegistryFacts.
Import DeviceManager.

(** What is left after a series of [del]: the entries whose key is not
    among the deleted ones. *)
Lemma elem_of_deleted (l : list string) (reg : registry) (kv : string * DeviceInfo) :
  kv ∈ fold_left (fun r addr => Dict.del addr r) l reg <-> kv ∈ reg /\ kv.1 ∉ l.
Proof.
  revert reg. induction l as [|a l IH]; intros reg; cbn [fold_left].
  - split; [intros H; split; [done | apply not_elem_of_nil] | by intros [H _]].
  - rewrite IH. unfold Dict.del. rewrite list_elem_of_filter, not_elem_of_cons.
    tauto.
Qed.

Lemma elem_of_to_remove (max_fails : Z) (reg : registry) (addr : string) :
  addr ∈ map fst (List.filter (fun ad => should_remove ad.2 max_fails) reg)
  <-> exists d, (addr, d) ∈ reg /\ max_fails <= fail_count d.
Proof.
  rewrite list_elem_of_In, in_map_iff. split.
  - intros ([a d] & <- & Hin). apply filter_In in Hin as [Hin Hdead].
    exists d. split; [by apply list_elem_of_In |].
    unfold should_remove in Hdead. cbn in Hdead. lia.
  - intros (d & Hin & Hdead). exists (addr, d). split; [done |].
    apply filter_In. split; [by apply list_elem_of_In |].
    unfold should_remove. cbn. lia.
Qed.

Lemma dict_get_absent (reg : registry) (addr : string) :
  (forall d, (addr, d) ∉ reg) -> Dict.get addr reg = None.
Proof.
  induction reg as [|[a d] reg IH]; intros Habs; cbn; [done |].
  case_bool_decide as Heq.
  - subst. exfalso. apply (Habs d). apply elem_of_cons. by left.
  - apply IH. intros d' Hin. apply (Habs d'). apply elem_of_cons. by right.
Qed.



End RegistryFacts.

(** ** The configuration file *)

Section ManualFacts.
Import DeviceManager.

Lemma dict_set_app {V} (k : string) (v : V) (d l : Dict.t V) :
  k ∉ Dict.keys d -> Dict.set k v (d ++ l) = d ++ Dict.set k v l.
Proof.
  unfold Dict.keys. induction d as [| [k' v'] d IH]; cbn [app Dict.set map fst];
    intros Hk; [done |].
  apply not_elem_of_cons in Hk as [Hne Hk].
  rewrite bool_decide_eq_false_2 by done. by rewrite IH.
Qed.

Lemma dict_update_app {V} (d l other : Dict.t V) :
  (forall kv, kv ∈ other -> kv.1 ∉ Dict.keys d) ->
  Dict.update (d ++ l) other = d ++ Dict.update l other.
Proof.
  unfold Dict.update. revert l.
  induction other as [| [k v] other IH]; intros l Hk; cbn [fold_left]; [done |].
  cbn [fst snd]. rewrite dict_set_app.
  - apply IH. intros kv Hin. apply Hk. by right.
  - apply (Hk (k, v)). by left.
Qed.

Lemma dict_set_elem {V} (k : string) (v : V) (d : Dict.t V) (x : string * V) :
  x ∈ Dict.set k v d -> x = (k, v) \/ x ∈ d.
Proof.
  induction d as [| [k' v'] d IH]; cbn [Dict.set].
  - intros Hx. apply list_elem_of_singleton in Hx. by left.
  - case_bool_decide as Hk.
    + intros Hx. apply elem_of_cons in Hx as [-> | Hx]; [left; by subst | right; by right].
    + intros Hx. apply elem_of_cons in Hx as [-> | Hx]; [right; by left |].
      destruct (IH Hx) as [-> | Hin]; [by left | right; by right].
Qed.

Lemma dict_set_keys {V} (k : string) (v : V) (d : Dict.t V) :
  Dict.keys (Dict.set k v d)
  = if bool_decide (k ∈ Dict.keys d) then Dict.keys d else Dict.keys d ++ [k].
Proof.
  unfold Dict.keys. induction d as [| [k' v'] d IH]; cbn [Dict.set map fst app].
  - rewrite bool_decide_eq_false_2; [done | apply not_elem_of_nil].
  - destruct (decide (k = k')) as [<- | Hk].
    + rewrite (bool_decide_eq_true_2 (k = k)) by done.
      rewrite bool_decide_eq_true_2; [done | by left].
    + rewrite (bool_decide_eq_false_2 (k = k')) by done.
      cbn [map fst]. rewrite IH.
      destruct (decide (k ∈ map fst d)) as [Hin | Hin].
      * rewrite !bool_decide_eq_true_2; [done | by right | done].
      * rewrite !bool_decide_eq_false_2; [done | | done].
        intros Hc. apply elem_of_cons in Hc as [| ]; done.
Qed.

Lemma dict_set_nodup {V} (k : string) (v : V) (d : Dict.t V) :
  NoDup (Dict.keys d) -> NoDup (Dict.keys (Dict.set k v d)).
Proof.
  intros Hnd. rewrite dict_set_keys. case_bool_decide as Hin; [done |].
  apply NoDup_app. split; [done |]. split; [| apply NoDup_singleton].
  intros x Hx Hx'. apply list_elem_of_singleton in Hx'. by subst.
Qed.

Lemma dict_update_elem {V} (d other : Dict.t V) (x : string * V) :
  x ∈ Dict.update d other -> x ∈ d \/ x ∈ other.
Proof.
  unfold Dict.update. revert d.
  induction other as [| [k v] other IH]; intros d; cbn [fold_left]; [by left |].
  intros Hx. destruct (IH _ Hx) as [Hin | Hin]; [| right; by right].
  cbn [fst snd] in Hin. apply dict_set_elem in Hin as [-> | Hin]; [right; by left | by left].
Qed.

Lemma dict_update_nodup {V} (d other : Dict.t V) :
  NoDup (Dict.keys d) -> NoDup (Dict.keys (Dict.update d other)).
Proof.
  unfold Dict.update. revert d.
  induction other as [| [k v] other IH]; intros d Hnd; cbn [fold_left]; [done |].
  apply IH. by apply dict_set_nodup.
Qed.

(** Every device that [load_manual_devices] returns is new: its address is
    not registered, and it is the fresh device of an entry of the file. *)
Lemma load_entries_fresh now reg entries acc x :
  x ∈ load_entries now reg entries acc ->
  x ∈ acc
  \/ ((x.1 ∉ Dict.keys reg)
      /\ exists ty nm,
           (x.1, Some ty, nm) ∈ entries
           /\ x.2 = new_device now ty x.1 (Some (default x.1 nm))).
Proof.
  revert acc. induction entries as [| [[addr ty] nm] entries IH]; intros acc;
    cbn [load_entries]; [by left |].
  assert (Hlater : forall acc', x ∈ load_entries now reg entries acc' ->
            x ∈ acc'
            \/ ((x.1 ∉ Dict.keys reg)
                /\ exists ty0 nm0,
                     (x.1, Some ty0, nm0) ∈ (addr, ty, nm) :: entries
                     /\ x.2 = new_device now ty0 x.1 (Some (default x.1 nm0)))).
  { intros acc' Hx. destruct (IH _ Hx) as [Hin | (Hk & ty0 & nm0 & Hin & Hd)];
      [by left | right]. split; [done |]. exists ty0, nm0. split; [by right | done]. }
  case_bool_decide as Hreg; [apply Hlater |].
  destruct ty as [t |]; [| by left].
  intros Hx. destruct (Hlater _ Hx) as [Hin | Hnew]; [| by right].
  apply dict_set_elem in Hin as [-> | Hin]; [| by left].
  right. split; [done |]. exists t, nm. split; [by left | done].
Qed.

End ManualFacts.

(** ** The schedule *)

Section ScheduleFacts.
Import DeviceManager.

(** What one pass does to the device in place [i], and when it puts the
    place on the list. *)
Lemma schedule_at (cfg : config) (reg : registry) (i : nat) (ad : string * DeviceInfo) :
  reg !! i = Some ad ->
  (schedule cfg reg).1 !! i
  = Some (if is_primary ad.2 then ad
          else (ad.1,
                set_standby_poll_counter
                  (if standby_poll_divisor cfg <=? standby_poll_counter ad.2 + 1
                   then 0 else standby_poll_counter ad.2 + 1) ad.2))
  /\ (i ∈ (schedule cfg reg).2
      <-> is_primary ad.2 = true
          \/ standby_poll_divisor cfg <= standby_poll_counter ad.2 + 1).
Proof.
  intros Hi. unfold schedule. cbn [fst snd]. split.
  - etrans; [apply list_lookup_fmap |].
    etrans; [apply (f_equal (fmap fst)), list_lookup_imap |].
    unfold registry, Dict.t in Hi. rewrite Hi. cbn.
    destruct (is_primary ad.2); [done |]. by destruct (_ <=? _).
  - rewrite list_elem_of_omap. split.
    + intros (x & Hx & Hsnd). apply elem_of_lookup_imap in Hx as (j & bd & -> & Hj).
      destruct (is_primary bd.2) eqn:Hp.
      * cbn in Hsnd. injection Hsnd as ->.
        unfold registry, Dict.t in Hi. rewrite Hi in Hj. injection Hj as ->. by left.
      * destruct (_ <=? _) eqn:Hle; cbn in Hsnd; [| discriminate].
        injection Hsnd as ->.
        unfold registry, Dict.t in Hi. rewrite Hi in Hj. injection Hj as ->.
        right. by apply Z.leb_le.
    + intros Hor. eexists. split.
      * apply elem_of_lookup_imap. exists i, ad. split; [reflexivity | exact Hi].
      * destruct (is_primary ad.2) eqn:Hp; [done |].
        destruct Hor as [| Hle]; [done |].
        apply Z.leb_le in Hle. by rewrite Hle.
Qed.

Lemma set_standby_poll_counter_same (d : DeviceInfo) :
  set_standby_poll_counter (standby_poll_counter d) d = d.
Proof. by destruct d. Qed.

Lemma counter_wraps (n m : Z) :
  0 <= m < n ->
  (if n <=? m + 1 then 0 else m + 1) = (m + 1) mod n
  /\ (n <= m + 1 <-> (m + 1) mod n = 0).
Proof.
  intros Hm. destruct (Z.leb_spec n (m + 1)) as [Hle | Hlt].
  - assert (m + 1 = n) as -> by lia. rewrite Z.mod_same by lia. split; [done | lia].
  - rewrite Z.mod_small by lia. split; [done | lia].
Qed.

End ScheduleFacts.

(** ** The registry through a polling cycle *)

Section CycleRegistryFacts.
Import DeviceManager Reading.





















End CycleRegistryFacts.

(** * The claims of the specification *)

(** C1 as stated fails. A node reports itself with a fixed position
    (60, 10, altitude 100). A later entry for the same node, read from
    another device's table without the fixed flag and with other
    coordinates, replaces the stored position on the direct-poll path; a
    position packet heard on the bus replaces the stored coordinates too. *)
Lemma fixed_position_is_overwritten :
  Examples.stored_position Examples.fixed_self_report = Some (Some (60 # 1), Some (10 # 1), Some 100)
  /\ Examples.stored_position
       (DeviceManager.save_node_data Examples.later
          [Examples.polled (Some (61 # 1)) (Some (11 # 1)) (Some 50) (Some 600) false false]
          Examples.fixed_self_report)
     = Some (Some (61 # 1), Some (11 # 1), Some 50)
  /\ Examples.stored_position
       (Collector.update_node Examples.later "!0000002a" 42 (Examples.heard_on_bus (61 # 1) (11 # 1))
          "msh/EU_868/2/e/LongFast/!0000aaaa" Examples.fixed_self_report)
     = Some (Some (61 # 1), Some (11 # 1), Some 100).
Proof. repeat split; vm_compute; reflexivity. Qed.

(** C1, amended. On the direct-poll path, an entry that carries the
    fixed-position flag and is not the polling device's own entry leaves the
    latitude, longitude and altitude of an existing record as they are and
    appends no position row, while the identity and telemetry columns take
    the entry's values where it has them and the telemetry row is appended
    when the entry has a reading. *)
Theorem fixed_flag_shields_position (e : Store.env) (node : DeviceManager.PollNode)
    (st : Store.t) (old : Store.NodeRecord) :
  Store.nodes st !! DeviceManager.n_node_id node = Some old ->
  DeviceManager.n_has_fixed_position node = true ->
  DeviceManager.n_is_self_report node = false ->
  let st' := DeviceManager.save_node e node st in
  (exists r',
      Store.nodes st' !! DeviceManager.n_node_id node = Some r'
      /\ Store.latitude r' = Store.latitude old
      /\ Store.longitude r' = Store.longitude old
      /\ Store.altitude r' = Store.altitude old
      /\ Store.long_name r'
         = Sql.coalesce (DeviceManager.n_long_name node) (Store.long_name old)
      /\ Store.short_name r'
         = Sql.coalesce (DeviceManager.n_short_name node) (Store.short_name old)
      /\ Store.hw_model r'
         = Sql.coalesce (Store.HwName <$> DeviceManager.n_hw_model node)
             (Store.hw_model old)
      /\ Store.role r' = Sql.coalesce (DeviceManager.n_role node) (Store.role old)
      /\ Store.battery_level r'
         = Sql.coalesce (DeviceManager.n_battery_level node) (Store.battery_level old)
      /\ Store.voltage r'
         = Sql.coalesce (DeviceManager.n_voltage node) (Store.voltage old)
      /\ Store.snr r' = Sql.coalesce (DeviceManager.n_snr node) (Store.snr old)
      /\ Store.hops_away r'
         = Sql.coalesce (DeviceManager.n_hops_away node) (Store.hops_away old))
  /\ Store.positions st' = Store.positions st
  /\ Store.telemetry st'
     = if DeviceManager.has_telemetry node
       then Store.telemetry st ++ [DeviceManager.telemetry_row e node]
       else Store.telemetry st.
Proof.
  intros Hold Hfixed Hself st'. subst st'.
  assert (Hshould : DeviceManager.should_update_position node
                      (Store.nodes st !! DeviceManager.n_node_id node) = false).
  { rewrite Hold. unfold DeviceManager.should_update_position.
    by rewrite Hfixed, Hself. }
  split; [| split].
  - rewrite save_node_nodes, lookup_insert_eq. cbn zeta. rewrite Hshould, Hold.
    eexists. split; [reflexivity |]. cbn. by repeat split.
  - rewrite save_node_positions. cbn zeta. by rewrite Hshould.
  - apply save_node_telemetry.
Qed.

Lemma fixed_flag_shields_position_witness :
  Store.positions
    (DeviceManager.save_node Examples.later
       (Examples.polled (Some (61 # 1)) (Some (11 # 1)) (Some 50) (Some 600) true false)
       Examples.fixed_self_report)
  = Store.positions Examples.fixed_self_report.
Proof.
  refine (proj1 (proj2 (fixed_flag_shields_position Examples.later
            (Examples.polled (Some (61 # 1)) (Some (11 # 1)) (Some 50) (Some 600) true false)
            Examples.fixed_self_report
            {| Store.node_num := Some 42; Store.long_name := Some "Base station";
               Store.short_name := Some "BASE";
               Store.hw_model := Some (Store.HwName "HELTEC_V3");
               Store.role := Some 0;
               Store.latitude := Some (60 # 1); Store.longitude := Some (10 # 1);
               Store.altitude := Some 100;
               Store.battery_level := Some 87%Q; Store.voltage := None;
               Store.snr := None; Store.hops_away := None;
               Store.source := Some "radio";
               Store.source_interface := Some "USB-ttyUSB0";
               Store.region := Some "EU_868";
               Store.last_radio_contact := Some 1000%Q;
               Store.last_mqtt_contact := None;
               Store.last_heard := Some 500%Q;
               Store.last_updated := Some 1000%Q;
               Store.is_active := None;
               Store.has_power_sensor := None;
               Store.has_environment_sensor := None;
               Store.has_air_quality_sensor := None |} _ _ _)));
    vm_compute; reflexivity.
Defined.

(** C2 fails on the direct-poll path. The record of the node holds
    [last_heard] = 500 from an earlier poll; an entry whose [lastHeard] is
    the older 400 is applied after it, and the stored value becomes 400, not
    500: [save_node_data] merges the column with COALESCE where
    [update_node] uses GREATEST. *)
Lemma older_poll_moves_last_heard_back :
  Examples.stored_last_heard Examples.fixed_self_report = Some (Some 500%Q)
  /\ Examples.stored_last_heard
       (DeviceManager.save_node_data Examples.later
          [Examples.polled (Some (60 # 1)) (Some (10 # 1)) (Some 100) (Some 400) true true]
          Examples.fixed_self_report)
     = Some (Some 400%Q).
Proof. split; vm_compute; reflexivity. Qed.

(** C3 fails on the direct-poll path. The record of the node holds the
    position (60, 10, altitude 100); an entry that reports the coordinates
    (0, 0) is applied, and the record now holds (0, 0) with the entry's
    altitude: [save_node_data] keeps the pair out of the table of
    positions, but binds it to the upsert of the node. *)
Lemma zero_position_overwrites_polled_record :
  Examples.stored_position Examples.fixed_self_report
  = Some (Some (60 # 1), Some (10 # 1), Some 100)
  /\ Examples.stored_position
       (DeviceManager.save_node_data Examples.later
          [Examples.polled (Some 0%Q) (Some 0%Q) (Some 50) (Some 600) false false]
          Examples.fixed_self_report)
     = Some (Some 0%Q, Some 0%Q, Some 50)
  /\ Store.positions
       (DeviceManager.save_node_data Examples.later
          [Examples.polled (Some 0%Q) (Some 0%Q) (Some 50) (Some 600) false false]
          Examples.fixed_self_report)
     = Store.positions Examples.fixed_self_report.
Proof. repeat split; vm_compute; reflexivity. Qed.

(** C4 as stated fails. On the bus, a position packet that is a hundred
    thousandth of a degree away from the stored position (60, 10) appends a
    row to [positions]. On the direct-poll path, a record whose stored
    latitude is exactly 0 does not take part in the comparison: an entry
    0.00005 degrees away from it appends a row as well. *)
Lemma jitter_appends_a_sample :
  Store.positions
    (Collector.update_node Examples.later "!0000002a" 42
       (Examples.heard_on_bus (6000001 # 100000) (1000001 # 100000))
       "msh/EU_868/2/e/LongFast/!0000aaaa" Examples.fixed_self_report)
  = Store.positions Examples.fixed_self_report
    ++ [{| Store.pos_node_id := "!0000002a"; Store.pos_timestamp := 2000;
           Store.pos_latitude := Some (6000001 # 100000);
           Store.pos_longitude := Some (1000001 # 100000);
           Store.pos_altitude := None; Store.pos_position_source := "mqtt" |}]
  /\ let on_equator :=
       DeviceManager.save_node_data Examples.clock
         [Examples.polled (Some 0%Q) (Some (10 # 1)) None None false false]
         Store.empty in
     Examples.stored_position on_equator = Some (Some 0%Q, Some (10 # 1), None)
     /\ Store.positions on_equator = []
     /\ Store.positions
          (DeviceManager.save_node_data Examples.later
             [Examples.polled (Some (5 # 100000)) (Some (10 # 1)) None None false false]
             on_equator)
        = [{| Store.pos_node_id := "!0000002a"; Store.pos_timestamp := 2000;
              Store.pos_latitude := Some (5 # 100000);
              Store.pos_longitude := Some (10 # 1);
              Store.pos_altitude := None; Store.pos_position_source := "gps" |}].
Proof. repeat split; vm_compute; reflexivity. Qed.

(** C4, amended. On the direct-poll path, when the record holds a position
    (both stored coordinates non-zero) and the entry's coordinates are less
    than 0.0001 degrees away from it on both axes, no position row is
    appended, while the identity and telemetry columns take the entry's
    values where it has them and the telemetry row is appended when the
    entry has a reading. *)
Theorem jitter_appends_no_sample (e : Store.env) (node : DeviceManager.PollNode)
    (st : Store.t) (old : Store.NodeRecord) (old_lat old_lon new_lat new_lon : Q) :
  Store.nodes st !! DeviceManager.n_node_id node = Some old ->
  Store.latitude old = Some old_lat ->
  Store.longitude old = Some old_lon ->
  ~ (old_lat == 0)%Q ->
  ~ (old_lon == 0)%Q ->
  DeviceManager.n_latitude node = Some new_lat ->
  DeviceManager.n_longitude node = Some new_lon ->
  (Qabs (old_lat - new_lat) < 1 # 10000)%Q ->
  (Qabs (old_lon - new_lon) < 1 # 10000)%Q ->
  let st' := DeviceManager.save_node e node st in
  Store.positions st' = Store.positions st
  /\ (exists r',
        Store.nodes st' !! DeviceManager.n_node_id node = Some r'
        /\ Store.long_name r'
           = Sql.coalesce (DeviceManager.n_long_name node) (Store.long_name old)
        /\ Store.short_name r'
           = Sql.coalesce (DeviceManager.n_short_name node) (Store.short_name old)
        /\ Store.hw_model r'
           = Sql.coalesce (Store.HwName <$> DeviceManager.n_hw_model node)
               (Store.hw_model old)
        /\ Store.role r' = Sql.coalesce (DeviceManager.n_role node) (Store.role old)
        /\ Store.battery_level r'
           = Sql.coalesce (DeviceManager.n_battery_level node) (Store.battery_level old)
        /\ Store.voltage r'
           = Sql.coalesce (DeviceManager.n_voltage node) (Store.voltage old)
        /\ Store.snr r' = Sql.coalesce (DeviceManager.n_snr node) (Store.snr old)
        /\ Store.hops_away r'
           = Sql.coalesce (DeviceManager.n_hops_away node) (Store.hops_away old))
  /\ Store.telemetry st'
     = if DeviceManager.has_telemetry node
       then Store.telemetry st ++ [DeviceManager.telemetry_row e node]
       else Store.telemetry st.
Proof.
  intros Hold Hlat Hlon Hlat0 Hlon0 Hnlat Hnlon Hdlat Hdlon st'. subst st'.
  split; [| split].
  - rewrite save_node_positions. cbn zeta.
    destruct (Py.truthy_Q (DeviceManager.n_latitude node)
              && Py.truthy_Q (DeviceManager.n_longitude node)) eqn:Hnew;
      [| by rewrite <- andb_assoc, Hnew, andb_false_r].
    rewrite <- andb_assoc, Hnew, andb_true_r.
    rewrite Hold. unfold DeviceManager.should_update_position.
    destruct (_ && negb _); [done |].
    rewrite Hlat, Hlon.
    rewrite (proj2 (truthy_Q_spec old_lat) Hlat0).
    rewrite (proj2 (truthy_Q_spec old_lon) Hlon0).
    cbn [andb]. rewrite Hnew. rewrite Hnlat, Hnlon. cbn [default from_option id].
    rewrite (proj2 (within_jitter_spec old_lat new_lat) Hdlat).
    by rewrite (proj2 (within_jitter_spec old_lon new_lon) Hdlon).
  - rewrite save_node_nodes, lookup_insert_eq. cbn zeta. rewrite Hold.
    eexists. split; [reflexivity |]. cbn. by repeat split.
  - apply save_node_telemetry.
Qed.

Lemma jitter_appends_no_sample_witness :
  Store.positions
    (DeviceManager.save_node Examples.later
       (Examples.polled (Some (6000001 # 100000)) (Some (1000001 # 100000)) (Some 50)
          (Some 600) false false)
       Examples.fixed_self_report)
  = Store.positions Examples.fixed_self_report.
Proof.
  refine (proj1 (jitter_appends_no_sample Examples.later
            (Examples.polled (Some (6000001 # 100000)) (Some (1000001 # 100000))
               (Some 50) (Some 600) false false)
            Examples.fixed_self_report
            {| Store.node_num := Some 42; Store.long_name := Some "Base station";
               Store.short_name := Some "BASE";
               Store.hw_model := Some (Store.HwName "HELTEC_V3");
               Store.role := Some 0;
               Store.latitude := Some (60 # 1); Store.longitude := Some (10 # 1);
               Store.altitude := Some 100;
               Store.battery_level := Some 87%Q; Store.voltage := None;
               Store.snr := None; Store.hops_away := None;
               Store.source := Some "radio";
               Store.source_interface := Some "USB-ttyUSB0";
               Store.region := Some "EU_868";
               Store.last_radio_contact := Some 1000%Q;
               Store.last_mqtt_contact := None;
               Store.last_heard := Some 500%Q;
               Store.last_updated := Some 1000%Q;
               Store.is_active := None;
               Store.has_power_sensor := None;
               Store.has_environment_sensor := None;
               Store.has_air_quality_sensor := None |}
            (60 # 1) (10 # 1) (6000001 # 100000) (1000001 # 100000)
            _ _ _ _ _ _ _ _ _));
    vm_compute; (reflexivity || discriminate).
Defined.

(** C5. A node whose [source] is [radio] keeps that source, and keeps its
    [source_interface], through any update that arrives on the bus:
    whichever node, packet contents and topic [update_node] is called
    with. *)
Theorem radio_source_is_sticky (e : Store.env) (node_id : string) (node_num : Z)
    (data : Collector.Parsed) (mqtt_topic : string) (st : Store.t)
    (target : string) (r : Store.NodeRecord) :
  Store.nodes st !! target = Some r ->
  Store.source r = Some "radio" ->
  exists r',
    Store.nodes (Collector.update_node e node_id node_num data mqtt_topic st) !! target
    = Some r'
    /\ Store.source r' = Some "radio"
    /\ Store.source_interface r' = Store.source_interface r.
Proof.
  intros Hr Hs. unfold Collector.update_node.
  destruct (Store.db_up e); [| by exists r].
  destruct (Collector.update_node_tx e node_id node_num data mqtt_topic st)
    as [st'|] eqn:Htx; [| by exists r].
  cbn [default from_option id].
  apply update_node_tx_nodes in Htx as (battery & volt & Hn). cbn zeta in Hn.
  destruct (decide (node_id = target)) as [->|Hne].
  - rewrite Hr in Hn.
    match type of Hn with
    | context [Collector.on_conflict e ?ex r] =>
        destruct (on_conflict_radio e ex r Hs) as [Hs' Hi']
    end.
    destruct Hn as [-> | (hp & he & ha & ->)].
    + rewrite lookup_insert_eq. eauto.
    + rewrite lookup_alter_eq, lookup_insert_eq. cbn. eauto.
  - destruct Hn as [-> | (hp & he & ha & ->)].
    + rewrite lookup_insert_ne by done. eauto.
    + rewrite lookup_alter_ne, lookup_insert_ne by done. eauto.
Qed.


Lemma radio_source_is_sticky_witness :
  exists r',
    Store.nodes
      (Collector.update_node Examples.later "!0000002a" 42
         (Examples.heard_on_bus (61 # 1) (11 # 1))
         "msh/EU_868/2/e/LongFast/!0000aaaa" Examples.fixed_self_report)
    !! "!0000002a" = Some r'
    /\ Store.source r' = Some "radio"
    /\ Store.source_interface r' = Some "USB-ttyUSB0".
Proof.
  refine (radio_source_is_sticky Examples.later "!0000002a" 42
            (Examples.heard_on_bus (61 # 1) (11 # 1))
            "msh/EU_868/2/e/LongFast/!0000aaaa" Examples.fixed_self_report "!0000002a"
            {| Store.node_num := Some 42; Store.long_name := Some "Base station";
               Store.short_name := Some "BASE";
               Store.hw_model := Some (Store.HwName "HELTEC_V3");
               Store.role := Some 0;
               Store.latitude := Some (60 # 1); Store.longitude := Some (10 # 1);
               Store.altitude := Some 100;
               Store.battery_level := Some 87%Q; Store.voltage := None;
               Store.snr := None; Store.hops_away := None;
               Store.source := Some "radio";
               Store.source_interface := Some "USB-ttyUSB0";
               Store.region := Some "EU_868";
               Store.last_radio_contact := Some 1000%Q;
               Store.last_mqtt_contact := None;
               Store.last_heard := Some 500%Q;
               Store.last_updated := Some 1000%Q;
               Store.is_active := None;
               Store.has_power_sensor := None;
               Store.has_environment_sensor := None;
               Store.has_air_quality_sensor := None |} _ _);
    vm_compute; reflexivity.
Defined.




(** C7. Of two devices with ten nodes each, one with no failure and one with
    two, the one with no failure has the strictly higher priority score,
    whatever the ages of their last successes, and [select_primary_device]
    elects it, and it alone, whichever of the two comes first in the
    registry. *)
Theorem reliable_device_is_elected (now : Q) (d0 d2 : DeviceManager.DeviceInfo)
    (a0 a2 : string) :
  DeviceManager.node_count d0 = 10 ->
  DeviceManager.node_count d2 = 10 ->
  DeviceManager.fail_count d0 = 0 ->
  DeviceManager.fail_count d2 = 2 ->
  (forall t, DeviceManager.last_success d0 = Some t -> (t <= now)%Q) ->
  (forall t, DeviceManager.last_success d2 = Some t -> (t <= now)%Q) ->
  (DeviceManager.calculate_priority_score now d2
   < DeviceManager.calculate_priority_score now d0)%Q
  /\ (let elected := DeviceManager.select_primary_device now [(a0, d0); (a2, d2)] in
      elected.2 = Some 0%nat
      /\ map (fun ad => DeviceManager.is_primary ad.2) elected.1 = [true; false])
  /\ (let elected := DeviceManager.select_primary_device now [(a2, d2); (a0, d0)] in
      elected.2 = Some 1%nat
      /\ map (fun ad => DeviceManager.is_primary ad.2) elected.1 = [false; true]).
Proof.
  intros Hn0 Hn2 Hf0 Hf2 Ha0 Ha2.
  assert (Hlt : (DeviceManager.calculate_priority_score now d2
                 < DeviceManager.calculate_priority_score now d0)%Q).
  { destruct (score_of_ten now d0 Hn0 Ha0) as (b0 & Hb0 & Hb0' & ->).
    destruct (score_of_ten now d2 Hn2 Ha2) as (b2 & Hb2 & Hb2' & ->).
    unfold DeviceManager.reliability. rewrite Hf0, Hf2.
    change (Py.max (1 # 2) (1 - inject_Z 0 * (1 # 10))) with (1 - 0 * (1 # 10))%Q.
    change (Py.max (1 # 2) (1 - inject_Z 2 * (1 # 10))) with (1 - 2 * (1 # 10))%Q.
    lra. }
  split; [exact Hlt |].
  assert (Hb : Py.Qltb (DeviceManager.calculate_priority_score now d2)
                 (DeviceManager.calculate_priority_score now d0) = true).
  { unfold Py.Qltb. apply negb_true_iff.
    destruct (Qle_bool _ _) eqn:Hle; [| done].
    apply Qle_bool_iff in Hle. lra. }
  assert (Hb' : Py.Qltb (DeviceManager.calculate_priority_score now d0)
                  (DeviceManager.calculate_priority_score now d2) = false).
  { unfold Py.Qltb. apply negb_false_iff. apply Qle_bool_iff. lra. }
  split; cbn; [rewrite Hb' | rewrite Hb]; by cbn.
Qed.

Lemma reliable_device_is_elected_witness :
  (DeviceManager.calculate_priority_score 2000 Examples.failing
   < DeviceManager.calculate_priority_score 2000 Examples.healthy)%Q.
Proof.
  refine (proj1 (reliable_device_is_elected 2000 Examples.healthy Examples.failing
                   "/dev/ttyUSB0" "192.168.1.20:4403" _ _ _ _ _ _));
    try reflexivity.
  - intros t Ht. injection Ht as <-. by vm_compute.
  - intros t Ht. injection Ht as <-. by vm_compute.
Defined.







(** C10. A frame whose sender number is 0 or missing is discarded as a
    whole: [parse_service_envelope] returns nothing, whatever else the frame
    holds, and [on_message] leaves the store as it is. *)
Theorem zero_sender_frame_is_discarded `{W : Collector.Wire} (e : Store.env)
    (payload : Crypto.bytes) (topic : string) (st : Store.t)
    (envelope : Collector.ServiceEnvelope) (packet : Collector.MeshPacket) :
  Collector.parse_ServiceEnvelope payload = Some envelope ->
  Collector.env_packet envelope = Some packet ->
  Collector.pkt_from packet = 0 ->
  Collector.pkt_from_field packet = None \/ Collector.pkt_from_field packet = Some 0 ->
  Collector.parse_service_envelope payload topic = None
  /\ Collector.on_message e payload topic st = st.
Proof.
  intros Henv Hpkt Hfrom Hfield.
  assert (Hnone : Collector.parse_service_envelope payload topic = None).
  { unfold Collector.parse_service_envelope.
    rewrite Henv. cbn [mbind option_bind]. rewrite Hpkt. cbn [mbind option_bind].
    unfold Collector.py_or. rewrite Hfrom. cbn [Z.eqb].
    by destruct Hfield as [-> | ->]. }
  split; [done |]. unfold Collector.on_message. by rewrite Hnone.
Qed.

Lemma zero_sender_frame_is_discarded_witness :
  Collector.parse_service_envelope [x00; x01; x03; x05; x06] "msh/EU_868/2/e/LongFast"
  = None
  /\ Collector.on_message Examples.later [x00; x01; x03; x05; x06]
       "msh/EU_868/2/e/LongFast" Examples.fixed_self_report
     = Examples.fixed_self_report.
Proof.
  refine (zero_sender_frame_is_discarded Examples.later [x00; x01; x03; x05; x06]
            "msh/EU_868/2/e/LongFast" Examples.fixed_self_report _ _ _ _ _ _);
    [reflexivity | reflexivity | reflexivity | by left].
Defined.

(** * Further properties of the code *)

(** ** Nonce and decryption *)

Section MoreCryptoFacts.
Import Crypto.

Lemma to_N_byte_of_N n : Byte.to_N (byte_of_N n) = (n mod 256)%N.
Proof.
  unfold byte_of_N. destruct (Byte.of_N (n mod 256)) as [b|] eqn:Hb.
  - by apply Byte.to_of_N.
  - apply Byte.of_N_None_iff in Hb.
    pose proof (N.mod_upper_bound n 256). lia.
Qed.

Lemma Z_of_byte_of_Z z : Z_of_byte (byte_of_Z z) = z mod 256.
Proof.
  unfold Z_of_byte, byte_of_Z. rewrite to_N_byte_of_N.
  pose proof (Z.mod_pos_bound z 256).
  rewrite N2Z.inj_mod, Z2N.id by lia.
  change (Z.of_N 256) with 256. rewrite Z.mod_mod; lia.
Qed.

(** [struct.unpack] reads back what [struct.pack] wrote. *)
Lemma le_value_le_bytes n v : le_value (le_bytes n v) = v mod 256 ^ Z.of_nat n.
Proof.
  revert v. induction n as [|n IH]; intros v.
  - cbn. by rewrite Z.mod_1_r.
  - cbn [le_bytes le_value]. rewrite IH, Z_of_byte_of_Z.
    rewrite Nat2Z.inj_succ, Z.pow_succ_r by lia.
    rewrite (Z.rem_mul_r v 256 (256 ^ Z.of_nat n)) by lia. lia.
Qed.

Lemma init_nonce_None pid from :
  ~ (0 <= pid < 2 ^ 64 /\ 0 <= from < 2 ^ 32) -> init_nonce pid from = None.
Proof.
  intros Hbad. unfold init_nonce, pack_Q, pack_I.
  destruct ((0 <=? pid) && (pid <? 2 ^ 64)) eqn:Hp; [| done].
  destruct ((0 <=? from) && (from <? 2 ^ 32)) eqn:Hf; [| done].
  exfalso. apply Hbad.
  apply andb_true_iff in Hp as [?%Z.leb_le ?%Z.ltb_lt].
  apply andb_true_iff in Hf as [?%Z.leb_le ?%Z.ltb_lt]. lia.
Qed.

(** [decrypt_packet] on numbers that pack: the checks of the key and of the
    length, then the XOR with the key stream. *)
Lemma decrypt_packet_in_range pid from ct key :
  0 <= pid < 2 ^ 64 -> 0 <= from < 2 ^ 32 ->
  decrypt_packet pid from ct key
  = if ((length key =? 16) || (length key =? 24) || (length key =? 32))%nat then
      if 4294967296 <? Z.of_nat ((length ct + 15) / 16) then None
      else Some (xor_bytes ct
                   (block_stream key (spec_nonce LeastSignificantFirst pid from) 0
                      ((length ct + 15) / 16)))
    else None.
Proof.
  intros Hp Hf. unfold decrypt_packet.
  rewrite (init_nonce_layout _ _ Hp Hf). cbn [mbind option_bind].
  replace (slice 12 16 (le_bytes 8 pid ++ le_bytes 4 from ++ replicate 4 x00))
    with (replicate 4 x00) by (cbn [le_bytes]; reflexivity).
  replace (slice 0 12 (le_bytes 8 pid ++ le_bytes 4 from ++ replicate 4 x00))
    with (le_bytes 8 pid ++ le_bytes 4 from) by (cbn [le_bytes]; reflexivity).
  change (unpack_I (replicate 4 x00)) with (Some 0).
  cbn [mbind option_bind].
  change (Counter_new 32 (le_bytes 8 pid ++ le_bytes 4 from) 0 true)
    with (Some {| counter_len := 4; counter_prefix := le_bytes 8 pid ++ le_bytes 4 from;
                  initial_value := 0; little_endian := true |}).
  cbn [mbind option_bind]. unfold AES_new_CTR.
  cbn [counter_prefix counter_len].
  rewrite length_app, !le_bytes_length. cbn [Nat.add Nat.eqb].
  rewrite andb_true_r.
  destruct ((length key =? 16) || (length key =? 24) || (length key =? 32))%nat;
    [| done].
  cbn [mbind option_bind]. unfold CTR_decrypt.
  cbn [cipher_counter counter_len cipher_key].
  change (2 ^ (8 * Z.of_nat 4)) with 4294967296.
  destruct (4294967296 <? Z.of_nat ((length ct + 15) / 16)); [done |].
  reflexivity.
Qed.

Lemma blocks_fit (n : nat) :
  (4294967296 <? Z.of_nat ((n + 15) / 16)) = false <-> Z.of_nat n <= 2 ^ 36.
Proof.
  change (2 ^ 36) with 68719476736. rewrite Z.ltb_ge.
  pose proof (Nat.div_mod_eq (n + 15) 16).
  pose proof (Nat.mod_upper_bound (n + 15) 16). lia.
Qed.

End MoreCryptoFacts.

(** X1. [init_nonce] answers exactly for a packet id of 64 bits and a sender
    of 32 bits. The nonce is 16 bytes; its first eight bytes read back as the
    packet id, the next four as the sender, and the last four are zero, so
    that two packets share a nonce only if they share both numbers. *)
Theorem init_nonce_reads_back (packet_id from_node : Z) :
  (is_Some (Crypto.init_nonce packet_id from_node)
   <-> 0 <= packet_id < 2 ^ 64 /\ 0 <= from_node < 2 ^ 32)
  /\ (forall nonce,
        Crypto.init_nonce packet_id from_node = Some nonce ->
        length nonce = 16%nat
        /\ Crypto.le_value (Crypto.slice 0 8 nonce) = packet_id
        /\ Crypto.le_value (Crypto.slice 8 12 nonce) = from_node
        /\ Crypto.slice 12 16 nonce = replicate 4 x00)
  /\ (forall packet_id' from_node' nonce,
        Crypto.init_nonce packet_id from_node = Some nonce ->
        Crypto.init_nonce packet_id' from_node' = Some nonce ->
        packet_id' = packet_id /\ from_node' = from_node).
Proof.
  assert (Hrange : forall p f, is_Some (Crypto.init_nonce p f)
                     -> 0 <= p < 2 ^ 64 /\ 0 <= f < 2 ^ 32).
  { intros p f [n Hn].
    destruct (decide (0 <= p < 2 ^ 64 /\ 0 <= f < 2 ^ 32)) as [|Hbad]; [done |].
    rewrite (init_nonce_None _ _ Hbad) in Hn. discriminate. }
  assert (Hread : forall p f nonce,
             Crypto.init_nonce p f = Some nonce ->
             length nonce = 16%nat
             /\ Crypto.le_value (Crypto.slice 0 8 nonce) = p
             /\ Crypto.le_value (Crypto.slice 8 12 nonce) = f
             /\ Crypto.slice 12 16 nonce = replicate 4 x00).
  { intros p f nonce Hn.
    destruct (Hrange p f (ex_intro _ nonce Hn)) as [Hp Hf].
    rewrite (init_nonce_layout _ _ Hp Hf) in Hn.
    assert (Hl : nonce = Crypto.le_bytes 8 p ++ Crypto.le_bytes 4 f ++ replicate 4 x00)
      by congruence.
    rewrite Hl. clear Hl Hn.
    replace (Crypto.slice 0 8 (Crypto.le_bytes 8 p ++ Crypto.le_bytes 4 f ++ replicate 4 x00))
      with (Crypto.le_bytes 8 p) by (cbn [Crypto.le_bytes]; reflexivity).
    replace (Crypto.slice 8 12 (Crypto.le_bytes 8 p ++ Crypto.le_bytes 4 f ++ replicate 4 x00))
      with (Crypto.le_bytes 4 f) by (cbn [Crypto.le_bytes]; reflexivity).
    rewrite !le_value_le_bytes.
    repeat split.
    - apply Z.mod_small. change (256 ^ Z.of_nat 8) with (2 ^ 64). lia.
    - apply Z.mod_small. change (256 ^ Z.of_nat 4) with (2 ^ 32). lia. }
  split; [| split].
  - split; [apply Hrange |]. intros [Hp Hf]. rewrite (init_nonce_layout _ _ Hp Hf). eauto.
  - apply Hread.
  - intros p' f' nonce Hn Hn'.
    destruct (Hread _ _ _ Hn) as (_ & <- & <- & _).
    by destruct (Hread _ _ _ Hn') as (_ & <- & <- & _).
Qed.

Lemma init_nonce_reads_back_witness :
  length [x02; x01; x00; x00; x00; x00; x00; x00; x03; x00; x00; x00;
          x00; x00; x00; x00] = 16%nat
  /\ Crypto.le_value
       (Crypto.slice 0 8
          [x02; x01; x00; x00; x00; x00; x00; x00; x03; x00; x00; x00;
           x00; x00; x00; x00]) = 258
  /\ Crypto.le_value
       (Crypto.slice 8 12
          [x02; x01; x00; x00; x00; x00; x00; x00; x03; x00; x00; x00;
           x00; x00; x00; x00]) = 3
  /\ Crypto.slice 12 16
       [x02; x01; x00; x00; x00; x00; x00; x00; x03; x00; x00; x00;
        x00; x00; x00; x00] = replicate 4 x00.
Proof.
  refine (proj1 (proj2 (init_nonce_reads_back 258 3)) _ _). reflexivity.
Defined.

(** X2. [decrypt_packet] answers exactly when the packet id fits 64 bits, the
    sender fits 32 bits, the key is 16, 24 or 32 bytes long and the payload
    is at most 2^36 bytes; every other call is answered by [None]. An answer
    is as long as the payload, and decrypting it again under the same packet
    id, sender and key gives the payload back: in counter mode the cipher is
    its own inverse. *)
Theorem decrypt_packet_outcome (packet_id from_node : Z)
    (encrypted_bytes key : Crypto.bytes) :
  (is_Some (Crypto.decrypt_packet packet_id from_node encrypted_bytes key)
   <-> 0 <= packet_id < 2 ^ 64
       /\ 0 <= from_node < 2 ^ 32
       /\ (length key = 16 \/ length key = 24 \/ length key = 32)%nat
       /\ Z.of_nat (length encrypted_bytes) <= 2 ^ 36)
  /\ (forall decrypted,
        Crypto.decrypt_packet packet_id from_node encrypted_bytes key = Some decrypted ->
        length decrypted = length encrypted_bytes
        /\ Crypto.decrypt_packet packet_id from_node decrypted key
           = Some encrypted_bytes).
Proof.
  assert (Hkeyb : forall k : Crypto.bytes,
             ((length k =? 16) || (length k =? 24) || (length k =? 32))%nat = true
             <-> (length k = 16 \/ length k = 24 \/ length k = 32)%nat).
  { intros k. rewrite !orb_true_iff, !Nat.eqb_eq. tauto. }
  destruct (decide (0 <= packet_id < 2 ^ 64 /\ 0 <= from_node < 2 ^ 32))
    as [[Hp Hf] | Hbad].
  2: { assert (Hnone : Crypto.decrypt_packet packet_id from_node encrypted_bytes key
                       = None).
       { unfold Crypto.decrypt_packet. by rewrite (init_nonce_None _ _ Hbad). }
       rewrite Hnone. split.
       - split; [by intros [? ?] | intros (? & ? & _); tauto].
       - intros ? ?. discriminate. }
  rewrite (decrypt_packet_in_range _ _ encrypted_bytes key Hp Hf).
  destruct ((length key =? 16) || (length key =? 24) || (length key =? 32))%nat
    eqn:Hk.
  2: { split.
       - split; [by intros [? ?] |]. intros (_ & _ & Hk' & _).
         apply Hkeyb in Hk'. congruence.
       - intros ? ?. discriminate. }
  destruct (4294967296 <? Z.of_nat ((length encrypted_bytes + 15) / 16)) eqn:Hfit.
  { split.
    - split; [by intros [? ?] |]. intros (_ & _ & _ & Hlen).
      apply blocks_fit in Hlen. congruence.
    - intros ? ?. discriminate. }
  pose proof (proj1 (blocks_fit _) Hfit) as Hlen.
  split.
  - split; [| eauto]. intros _.
    split; [done |]. split; [done |]. split; [by apply Hkeyb | done].
  - intros out Hout.
    assert (Hcover : (length encrypted_bytes
                      <= length (Crypto.block_stream key
                                   (Crypto.spec_nonce Crypto.LeastSignificantFirst packet_id
                                      from_node) 0
                                   ((length encrypted_bytes + 15) / 16)))%nat).
    { rewrite block_stream_length.
      pose proof (Nat.div_mod_eq (length encrypted_bytes + 15) 16).
      pose proof (Nat.mod_upper_bound (length encrypted_bytes + 15) 16). lia. }
    assert (Hout' : out = Crypto.xor_bytes encrypted_bytes
                            (Crypto.block_stream key
                               (Crypto.spec_nonce Crypto.LeastSignificantFirst packet_id
                                      from_node) 0
                               ((length encrypted_bytes + 15) / 16)))
      by congruence.
    assert (Hlen' : length out = length encrypted_bytes)
      by (rewrite Hout'; by apply xor_bytes_length).
    split; [done |].
    rewrite (decrypt_packet_in_range _ _ out key Hp Hf), Hk, Hlen', Hfit, Hout'.
    f_equal. by apply xor_bytes_involutive.
Qed.

Lemma decrypt_packet_outcome_witness :
  is_Some (Crypto.decrypt_packet 305419896 2882400001
             [x08; x03; x12; x14; x0d; x00; x40; x50; x23; x15; x00; x00; x10; x06;
              x18; x0a; x25] Crypto.DEFAULT_PSK).
Proof.
  refine (proj2 (proj1 (decrypt_packet_outcome 305419896 2882400001
                          [x08; x03; x12; x14; x0d; x00; x40; x50; x23; x15; x00;
                           x00; x10; x06; x18; x0a; x25] Crypto.DEFAULT_PSK)) _).
  repeat split; try (vm_compute; congruence). by left.
Defined.

(** ** Node identifiers *)

Section NodeIdFacts.
Import Py Reading.

Lemma digit_value_hex_digit d : 0 <= d < 16 -> digit_value (hex_digit d) = d.
Proof.
  intros Hd.
  assert (Hcases : d = 0 \/ d = 1 \/ d = 2 \/ d = 3 \/ d = 4 \/ d = 5 \/ d = 6 \/ d = 7
                   \/ d = 8 \/ d = 9 \/ d = 10 \/ d = 11 \/ d = 12 \/ d = 13
                   \/ d = 14 \/ d = 15) by lia.
  repeat destruct Hcases as [-> | Hcases]; try reflexivity. by subst.
Qed.

Lemma hex_digits_value fuel :
  forall n acc,
    0 <= n < 2 ^ Z.of_nat fuel ->
    hex_value_from 0 (hex_digits fuel n acc) = hex_value_from n acc.
Proof.
  induction fuel as [|fuel IH]; intros n acc Hn.
  - cbn in *. by replace n with 0 by lia.
  - cbn [hex_digits].
    pose proof (Z.mod_pos_bound n 16 ltac:(lia)) as Hmod.
    pose proof (Z.div_mod n 16 ltac:(lia)) as Hdiv.
    destruct (Z.eqb_spec (n / 16) 0) as [Hz | Hnz].
    + cbn [hex_value_from]. rewrite digit_value_hex_digit by done. f_equal. lia.
    + rewrite IH.
      * cbn [hex_value_from]. rewrite digit_value_hex_digit by done. f_equal. lia.
      * rewrite Nat2Z.inj_succ, Z.pow_succ_r in Hn by lia.
        split; [apply Z.div_pos; lia |].
        apply Z.div_lt_upper_bound; lia.
Qed.

Lemma hex_value_hex n : 0 <= n -> hex_value_from 0 (hex n) = n.
Proof.
  intros Hn. unfold hex. rewrite hex_digits_value; [done |].
  split; [done |]. rewrite Nat2Z.inj_succ, Z2Nat.id by apply Z.log2_nonneg.
  destruct (decide (n = 0)) as [-> | Hpos]; [done |].
  apply Z.log2_spec. lia.
Qed.

Lemma hex_value_from_app v a b :
  hex_value_from v (a +:+ b) = hex_value_from (hex_value_from v a) b.
Proof. revert v. induction a as [|c a IH]; intros v; cbn; [done | apply IH]. Qed.

Lemma hex_value_zeros k : hex_value_from 0 (zeros k) = 0.
Proof. induction k as [|k IH]; cbn; [done | exact IH]. Qed.

Lemma string_length_app a b :
  String.length (a +:+ b) = (String.length a + String.length b)%nat.
Proof. induction a as [|c a IH]; simpl; [done | by f_equal]. Qed.

Lemma string_length_zeros k : String.length (zeros k) = k.
Proof. induction k as [|k IH]; cbn; [done | by rewrite IH]. Qed.

(** A number below [16 ^ k] takes at most [k] digits, and at least one. *)
Lemma hex_digits_length fuel :
  forall n acc k,
    0 <= n < 16 ^ Z.of_nat (S k) ->
    (String.length acc <= String.length (hex_digits fuel n acc)
     <= String.length acc + S k)%nat.
Proof.
  induction fuel as [|fuel IH]; intros n acc k Hn; cbn [hex_digits]; [lia |].
  destruct (Z.eqb_spec (n / 16) 0) as [Hz | Hnz]; [cbn; lia |].
  destruct k as [|k].
  - exfalso. apply Hnz. apply Z.div_small. cbn in Hn. lia.
  - specialize (IH (n / 16) (String (hex_digit (n mod 16)) acc) k).
    cbn [String.length] in IH.
    assert (0 <= n / 16 < 16 ^ Z.of_nat (S k)); [| lia].
    rewrite (Nat2Z.inj_succ (S k)), Z.pow_succ_r in Hn by lia.
    split; [apply Z.div_pos; lia |]. apply Z.div_lt_upper_bound; lia.
Qed.

End NodeIdFacts.

(** X3. The node id of a non-negative node number reads back as that number,
    so that different numbers get different ids; and the id of a 32-bit
    number is always nine characters long: ["!"] and eight digits. *)
Theorem node_id_reads_back (n : Z) :
  0 <= n ->
  Reading.node_num_of_id (Py.node_id_of_num n) = n
  /\ (forall m, 0 <= m -> Py.node_id_of_num m = Py.node_id_of_num n -> m = n)
  /\ (n < 2 ^ 32 -> String.length (Py.node_id_of_num n) = 9%nat).
Proof.
  assert (Hread : forall k, 0 <= k -> Reading.node_num_of_id (Py.node_id_of_num k) = k).
  { intros k Hk. unfold Py.node_id_of_num, Py.format_08x. cbn [Reading.node_num_of_id].
    destruct (Z.ltb_spec k 0) as [|_]; [lia |].
    by rewrite hex_value_from_app, hex_value_zeros, hex_value_hex. }
  intros Hn. split; [by apply Hread |]. split.
  - intros m Hm Heq. rewrite <- (Hread m Hm), Heq. by apply Hread.
  - intros Hsmall. unfold Py.node_id_of_num, Py.format_08x.
    destruct (Z.ltb_spec n 0) as [|_]; [lia |].
    cbn [String.length]. rewrite string_length_app, string_length_zeros.
    pose proof (hex_digits_length (S (Z.to_nat (Z.log2 n))) n EmptyString 7) as Hlen.
    cbn [String.length] in Hlen. unfold Py.hex.
    assert (0 <= n < 16 ^ Z.of_nat 8) by (change (16 ^ Z.of_nat 8) with (2 ^ 32); lia).
    lia.
Qed.

Lemma node_id_reads_back_witness :
  Reading.node_num_of_id (Py.node_id_of_num 3735928559) = 3735928559.
Proof.
  refine (proj1 (node_id_reads_back 3735928559 _)). lia.
Defined.

(** ** The frame decoder *)

Section DecoderFacts.
Import Store Collector Reading.
Context `{Wire}.

Lemma position_of_nonzero pos pd :
  position_of pos = Some pd ->
  ~ (pd_latitude pd == 0)%Q /\ ~ (pd_longitude pd == 0)%Q
  /\ pd_latitude pd = latitude_i pos # 10000000
  /\ pd_longitude pd = longitude_i pos # 10000000.
Proof.
  unfold position_of.
  destruct (Z.eqb_spec (latitude_i pos) 0) as [|Hlat]; [discriminate |].
  destruct (Z.eqb_spec (longitude_i pos) 0) as [|Hlon]; [discriminate |].
  cbn [negb andb]. intros [= <-]. cbn. unfold Qeq. cbn. repeat split; lia.
Qed.

(** The classifier fills in at most one payload of a record that has none,
    and leaves the header of the record alone. *)
Lemma classify_shape port payload_bytes result r :
  p_position result = None -> p_user result = None ->
  p_telemetry result = None -> p_text_message result = None ->
  classify port payload_bytes result = Some r ->
  (p_from r = p_from result /\ p_from_num r = p_from_num result)
  /\ one_kind r
  /\ (forall pd, p_position r = Some pd ->
        ~ (pd_latitude pd == 0)%Q /\ ~ (pd_longitude pd == 0)%Q)
  /\ (forall td, p_telemetry r = Some td -> td <> []).
Proof.
  intros Hp Hu Ht Hx. unfold classify, one_kind.
  assert (Hsame : (p_from result = p_from result /\ p_from_num result = p_from_num result)
                  /\ one_kind result
                  /\ (forall pd, p_position result = Some pd ->
                        ~ (pd_latitude pd == 0)%Q /\ ~ (pd_longitude pd == 0)%Q)
                  /\ (forall td, p_telemetry result = Some td -> td <> [])).
  { split; [done |]. split; [by left |]. split.
    - intros pd. rewrite Hp. discriminate.
    - intros td. rewrite Ht. discriminate. }
  assert (Hpos : forall pos,
            let r' := match position_of pos with
                      | Some pd => set_position result (Some pd)
                      | None => result
                      end in
            (p_from r' = p_from result /\ p_from_num r' = p_from_num result)
            /\ one_kind r'
            /\ (forall pd, p_position r' = Some pd ->
                  ~ (pd_latitude pd == 0)%Q /\ ~ (pd_longitude pd == 0)%Q)
            /\ (forall td, p_telemetry r' = Some td -> td <> [])).
  { intros pos. cbn zeta. destruct (position_of pos) as [pd|] eqn:Hpd; [| exact Hsame].
    split; [done |]. split; [by left |]. split.
    - cbn. intros pd' [= <-].
      by destruct (position_of_nonzero _ _ Hpd) as (? & ? & _).
    - cbn. intros td. rewrite Ht. discriminate. }
  destruct (port =? POSITION_APP).
  { destruct (parse_Position payload_bytes) as [pos|]; [| discriminate].
    cbn [mbind option_bind]. intros [= <-]. apply Hpos. }
  destruct (port =? NODEINFO_APP).
  { destruct (parse_User payload_bytes) as [u|]; [| discriminate].
    cbn [mbind option_bind]. intros [= <-].
    split; [done |]. split; [by right; left |]. split; cbn.
    - intros pd. rewrite Hp. discriminate.
    - intros td. rewrite Ht. discriminate. }
  destruct (port =? TELEMETRY_APP).
  { destruct (parse_Telemetry payload_bytes) as [telem|]; [| discriminate].
    cbn [mbind option_bind]. intros [= <-].
    destruct (telemetry_data_of telem) as [|x l] eqn:Htd; [exact Hsame |].
    split; [done |]. split; [by right; right; left |]. split; cbn.
    - intros pd. rewrite Hp. discriminate.
    - by intros td [= <-]. }
  destruct (port =? TEXT_MESSAGE_APP).
  { intros [= <-]. destruct (decode_utf8 payload_bytes); [| exact Hsame].
    split; [done |]. split; [by right; right; right |]. split; cbn.
    - intros pd. rewrite Hp. discriminate.
    - intros td. rewrite Ht. discriminate. }
  destruct (port =? MAP_REPORT_APP).
  { intros [= <-]. destruct (parse_Position payload_bytes) as [pos|];
      [apply Hpos | exact Hsame]. }
  intros [= <-]. exact Hsame.
Qed.

(** What [parse_service_envelope] can return. *)
Lemma parse_service_envelope_shape payload topic r :
  parse_service_envelope payload topic = Some r ->
  p_from_num r <> 0
  /\ p_from r = Py.node_id_of_num (p_from_num r)
  /\ one_kind r
  /\ (forall pd, p_position r = Some pd ->
        ~ (pd_latitude pd == 0)%Q /\ ~ (pd_longitude pd == 0)%Q)
  /\ (forall td, p_telemetry r = Some td -> td <> []).
Proof.
  unfold parse_service_envelope. intros Hparse.
  destruct (parse_ServiceEnvelope payload) as [envelope|];
    cbn [mbind option_bind] in Hparse; [| discriminate].
  destruct (env_packet envelope) as [packet|];
    cbn [mbind option_bind] in Hparse; [| discriminate].
  destruct (py_or (pkt_from packet) (pkt_from_field packet)) as [from_num|] eqn:Hfrom.
  2: { by destruct (Py.truthy_Z None). }
  destruct (Py.truthy_Z (Some from_num)) eqn:Htruthy;
    cbn [fmap option_fmap option_map mbind option_bind] in Hparse; [| discriminate].
  destruct (payload_of packet from_num) as [[port payload_bytes]|];
    cbn [mbind option_bind fst snd] in Hparse; [| discriminate].
  apply classify_shape in Hparse; try done.
  cbn in Hparse. destruct Hparse as ((-> & ->) & Hk & Hnz & Htd).
  split; [| done].
  cbn in Htruthy. by destruct (Z.eqb_spec from_num 0).
Qed.

End DecoderFacts.

(** X4. Whatever [parse_service_envelope] returns has a non-zero sender whose
    id is ["!"] and the number in hexadecimal, carries at most one of
    position, user, telemetry and text, never carries a position with a zero
    coordinate, and never carries an empty telemetry dictionary. *)
Theorem decoded_record_is_well_formed `{W : Collector.Wire} (payload : Crypto.bytes)
    (topic : string) (r : Collector.Parsed) :
  Collector.parse_service_envelope payload topic = Some r ->
  Collector.p_from_num r <> 0
  /\ Collector.p_from r = Py.node_id_of_num (Collector.p_from_num r)
  /\ ((Collector.p_user r = None /\ Collector.p_telemetry r = None
       /\ Collector.p_text_message r = None)
      \/ (Collector.p_position r = None /\ Collector.p_telemetry r = None
          /\ Collector.p_text_message r = None)
      \/ (Collector.p_position r = None /\ Collector.p_user r = None
          /\ Collector.p_text_message r = None)
      \/ (Collector.p_position r = None /\ Collector.p_user r = None
          /\ Collector.p_telemetry r = None))
  /\ (forall pd, Collector.p_position r = Some pd ->
        ~ (Collector.pd_latitude pd == 0)%Q /\ ~ (Collector.pd_longitude pd == 0)%Q)
  /\ (forall td, Collector.p_telemetry r = Some td -> td <> []).
Proof. apply parse_service_envelope_shape. Qed.

Lemma decoded_record_is_well_formed_witness :
  Collector.p_from_num
    {| Collector.p_from := "!0000002a"; Collector.p_from_num := 42;
       Collector.p_to := Some "!00000001"; Collector.p_packet_id := 7;
       Collector.p_channel := 0; Collector.p_gateway_id := "!0000aaaa";
       Collector.p_channel_id := "LongFast"; Collector.p_rx_snr := Some 0%Q;
       Collector.p_hop_limit := Some 3;
       Collector.p_position :=
         Some {| Collector.pd_latitude := 5 # 10000000;
                 Collector.pd_longitude := 6 # 10000000;
                 Collector.pd_altitude := None; Collector.pd_time := None |};
       Collector.p_user := None; Collector.p_telemetry := None;
       Collector.p_text_message := None |} <> 0.
Proof.
  refine (proj1 (decoded_record_is_well_formed [x2a; x01; x03; x05; x06]
                   "msh/EU_868/2/e/LongFast" _ _)).
  vm_compute. reflexivity.
Defined.

(** ** Bus updates *)

Section BusFacts.
Import Store Collector.

(** The transaction for a record without telemetry and without text: the
    upsert and the position row. *)
Lemma update_node_tx_plain e node_id node_num data topic st :
  p_telemetry data = None -> p_text_message data = None ->
  update_node_tx e node_id node_num data topic st
  = Some (store_position e node_id (node_position data)
            (upsert e node_id
               (excluded_row e node_num topic (p_user data)
                  (node_position data).1.1 (node_position data).1.2
                  (node_position data).2 None None (p_rx_snr data)) st)).
Proof.
  intros Ht Hx. unfold update_node_tx, node_metric, store_telemetry_if_present,
    store_text_message.
  rewrite Ht, Hx. reflexivity.
Qed.

End BusFacts.

(** X5. A frame that decodes to a position is stored whole: [on_message]
    appends exactly one row to [positions], for the sender, with the decoded
    coordinates and the source [mqtt], appends no telemetry row and no
    message, and the sender's record holds the decoded coordinates. *)
Theorem bus_position_frame_is_stored `{W : Collector.Wire} (e : Store.env)
    (payload : Crypto.bytes) (topic : string) (st : Store.t)
    (data : Collector.Parsed) (pd : Collector.PositionDict) :
  Collector.parse_service_envelope payload topic = Some data ->
  Collector.p_position data = Some pd ->
  Store.db_up e = true ->
  let st' := Collector.on_message e payload topic st in
  Store.positions st'
  = Store.positions st
    ++ [{| Store.pos_node_id := Collector.p_from data;
           Store.pos_timestamp := Store.py_now e;
           Store.pos_latitude := Some (Collector.pd_latitude pd);
           Store.pos_longitude := Some (Collector.pd_longitude pd);
           Store.pos_altitude := Collector.pd_altitude pd;
           Store.pos_position_source := "mqtt" |}]
  /\ Store.telemetry st' = Store.telemetry st
  /\ Store.messages st' = Store.messages st
  /\ exists r',
       Store.nodes st' !! Collector.p_from data = Some r'
       /\ Store.latitude r' = Some (Collector.pd_latitude pd)
       /\ Store.longitude r' = Some (Collector.pd_longitude pd)
       /\ Store.last_heard r'
          = Sql.greatest (Some (Store.py_now e))
              (Store.nodes st !! Collector.p_from data ≫= Store.last_heard).
Proof.
  intros Hparse Hpos Hdb st'. subst st'.
  destruct (parse_service_envelope_shape _ _ _ Hparse) as (_ & _ & Hkind & Hnz & _).
  destruct (Hnz pd Hpos) as [Hlat Hlon].
  assert (Htx : Collector.p_telemetry data = None /\ Collector.p_text_message data = None).
  { destruct Hkind as [(_ & ? & ?) | [(Hc & _) | [(Hc & _) | (Hc & _)]]];
      [done | congruence | congruence | congruence]. }
  destruct Htx as [Ht Hx].
  unfold Collector.on_message. rewrite Hparse.
  unfold Collector.update_node. rewrite Hdb.
  rewrite (update_node_tx_plain _ _ _ _ _ _ Ht Hx). cbn [default from_option id].
  unfold Collector.node_position. rewrite Hpos.
  rewrite (proj2 (truthy_Q_spec _) Hlat), (proj2 (truthy_Q_spec _) Hlon).
  cbn [andb fst snd]. unfold Collector.store_position.
  cbn [fst snd].
  rewrite (proj2 (truthy_Q_spec _) Hlat), (proj2 (truthy_Q_spec _) Hlon).
  cbn [andb]. split; [reflexivity |]. split; [reflexivity |]. split; [reflexivity |].
  cbn [Store.nodes Store.insert_position Collector.upsert Store.set_nodes].
  rewrite lookup_insert_eq.
  destruct (Store.nodes st !! Collector.p_from data) as [old|]; cbn;
    eexists; (split; [reflexivity |]); by cbn.
Qed.

Lemma bus_position_frame_is_stored_witness :
  Store.telemetry
    (Collector.on_message Examples.later [x2a; x01; x03; x05; x06]
       "msh/EU_868/2/e/LongFast" Examples.fixed_self_report)
  = Store.telemetry Examples.fixed_self_report.
Proof.
  refine (proj1 (proj2 (bus_position_frame_is_stored Examples.later
                          [x2a; x01; x03; x05; x06] "msh/EU_868/2/e/LongFast"
                          Examples.fixed_self_report _ _ _ _ _)));
    vm_compute; reflexivity.
Defined.

(** ** What an update leaves alone *)

Section LocalityFacts.
Import Store Reading.

Lemma extends_refl touched st : extends touched st st.
Proof. by repeat split. Qed.

Lemma extends_trans touched st1 st2 st3 :
  extends touched st1 st2 -> extends touched st2 st3 -> extends touched st1 st3.
Proof.
  intros (Hp & Ht & Hm & Hs & Ho) (Hp' & Ht' & Hm' & Hs' & Ho').
  split; [by etrans |]. split; [by etrans |]. split; [by etrans |]. split.
  - intros target Hin. by apply Hs', Hs.
  - intros target Hout. by rewrite Ho', Ho.
Qed.

Lemma extends_weaken touched touched' st st' :
  touched ⊆ touched' -> extends touched st st' -> extends touched' st st'.
Proof.
  intros Hsub (Hp & Ht & Hm & Hs & Ho). repeat split; try done.
  intros target Hout. apply Ho. intros Hin. by apply Hout, Hsub.
Qed.

Lemma extends_upsert node_id (r : option NodeRecord -> NodeRecord) st :
  extends [node_id] st (set_nodes st (<[node_id := r (nodes st !! node_id)]> (nodes st))).
Proof.
  split; [done |]. split; [done |]. split; [done |]. cbn. split.
  - intros target Hin. destruct (decide (node_id = target)) as [-> | Hne].
    + rewrite lookup_insert_eq. eauto.
    + by rewrite lookup_insert_ne.
  - intros target Hout. apply lookup_insert_ne. intros ->. apply Hout.
    apply list_elem_of_singleton. done.
Qed.

Lemma extends_alter node_id (f : NodeRecord -> NodeRecord) st :
  extends [node_id] st (set_nodes st (alter f node_id (nodes st))).
Proof.
  split; [done |]. split; [done |]. split; [done |]. cbn. split.
  - intros target [r Hr]. destruct (decide (node_id = target)) as [-> | Hne].
    + rewrite lookup_alter_eq, Hr. cbn. eauto.
    + rewrite lookup_alter_ne by done. eauto.
  - intros target Hout. apply lookup_alter_ne. intros ->. apply Hout.
    apply list_elem_of_singleton. done.
Qed.

Lemma extends_insert_position touched row st :
  extends touched st (insert_position row st).
Proof.
  split; [by apply prefix_app_r |]. by repeat split.
Qed.

Lemma extends_insert_telemetry touched row st :
  extends touched st (insert_telemetry row st).
Proof.
  split; [done |]. split; [by apply prefix_app_r |]. by repeat split.
Qed.

Lemma extends_insert_message touched row st :
  extends touched st (insert_message row st).
Proof.
  unfold insert_message. destruct (existsb _ _); [apply extends_refl |].
  split; [done |]. split; [done |]. split; [by apply prefix_app_r |]. by repeat split.
Qed.

Lemma store_telemetry_extends e node_id telem st st' :
  Collector.store_telemetry e node_id telem st = Some st' -> extends [node_id] st st'.
Proof.
  unfold Collector.store_telemetry. intros Hst.
  repeat match type of Hst with
         | (?m ≫= _) = Some _ =>
             destruct m eqn:?; cbn [mbind option_bind] in Hst; [| discriminate]
         end.
  injection Hst as <-. cbn zeta.
  destruct (_ || _); [| apply extends_insert_telemetry].
  match goal with
  | |- extends _ _ (set_nodes (insert_telemetry ?row st) (alter ?f _ _)) =>
      apply (extends_trans _ st (insert_telemetry row st));
        [apply extends_insert_telemetry
        | apply (extends_alter node_id f (insert_telemetry row st))]
  end.
Qed.

Lemma update_node_tx_extends e node_id node_num data topic st st' :
  Collector.update_node_tx e node_id node_num data topic st = Some st' ->
  extends [node_id] st st'.
Proof.
  unfold Collector.update_node_tx. intros Htx.
  destruct (Collector.node_metric "battery_level" data) as [battery|];
    cbn [mbind option_bind] in Htx; [| discriminate].
  destruct (Collector.node_metric "voltage" data) as [volt|];
    cbn [mbind option_bind] in Htx; [| discriminate].
  destruct (Collector.store_telemetry_if_present _ _ _ _) as [st3|] eqn:Htel;
    cbn [mbind option_bind] in Htx; [| discriminate].
  injection Htx as <-.
  eapply extends_trans; [| unfold Collector.store_text_message;
                            destruct (Collector.p_text_message data);
                            [apply extends_insert_message | apply extends_refl]].
  eapply extends_trans;
    [| unfold Collector.store_telemetry_if_present in Htel;
       destruct (Collector.p_telemetry data);
       [by eapply store_telemetry_extends | injection Htel as <-; apply extends_refl]].
  eapply extends_trans;
    [| unfold Collector.store_position; destruct (_ && _);
       [apply extends_insert_position | apply extends_refl]].
  unfold Collector.upsert.
  match goal with
  | |- context [Collector.on_conflict e ?ex] =>
      apply (extends_upsert node_id
               (fun o => match o with
                         | Some old => Collector.on_conflict e ex old
                         | None => ex
                         end))
  end.
Qed.

Lemma save_node_extends e node st :
  extends [DeviceManager.n_node_id node] st (DeviceManager.save_node e node st).
Proof.
  unfold DeviceManager.save_node. cbn zeta.
  eapply extends_trans;
    [| destruct (_ && _ && _); [apply extends_insert_position | apply extends_refl]].
  eapply extends_trans;
    [| destruct (DeviceManager.has_telemetry node);
       [apply extends_insert_telemetry | apply extends_refl]].
  unfold DeviceManager.upsert.
  match goal with
  | |- context [DeviceManager.on_conflict e ?ex] =>
      apply (extends_upsert (DeviceManager.n_node_id node)
               (fun o => match o with
                         | Some old => DeviceManager.on_conflict e ex old
                         | None => ex
                         end))
  end.
Qed.

Lemma save_node_messages e node st :
  messages (DeviceManager.save_node e node st) = messages st.
Proof.
  unfold DeviceManager.save_node. cbn zeta.
  by destruct (_ && _ && _), (DeviceManager.has_telemetry node).
Qed.

Lemma save_nodes_extends e batch st :
  extends (map DeviceManager.n_node_id batch) st
    (fold_left (fun st node => DeviceManager.save_node e node st) batch st)
  /\ messages (fold_left (fun st node => DeviceManager.save_node e node st) batch st)
     = messages st.
Proof.
  revert st. induction batch as [|node batch IH]; intros st; cbn [fold_left map].
  - split; [apply extends_refl | done].
  - destruct (IH (DeviceManager.save_node e node st)) as [Hext Hmsg]. split.
    + eapply extends_trans.
      * eapply extends_weaken; [| apply save_node_extends].
        intros x Hx. apply list_elem_of_singleton in Hx as ->. apply elem_of_cons. by left.
      * eapply extends_weaken; [| exact Hext].
        intros x Hx. apply elem_of_cons. by right.
    + by rewrite Hmsg, save_node_messages.
Qed.

End LocalityFacts.

(** X6. An update from the bus is local and only adds: whatever
    [update_node] is called with, and whether or not the transaction goes
    through, the rows that were in [positions], [telemetry] and [messages]
    are still there, in their order, at the head of the tables; no node is
    dropped; and the record of every node but the sender is as it was. *)
Theorem bus_update_is_local (e : Store.env) (node_id : string) (node_num : Z)
    (data : Collector.Parsed) (mqtt_topic : string) (st : Store.t) :
  let st' := Collector.update_node e node_id node_num data mqtt_topic st in
  Store.positions st `prefix_of` Store.positions st'
  /\ Store.telemetry st `prefix_of` Store.telemetry st'
  /\ Store.messages st `prefix_of` Store.messages st'
  /\ (forall target,
        is_Some (Store.nodes st !! target) -> is_Some (Store.nodes st' !! target))
  /\ (forall target,
        target <> node_id -> Store.nodes st' !! target = Store.nodes st !! target).
Proof.
  cbn zeta.
  assert (Hext : Reading.extends [node_id] st
                   (Collector.update_node e node_id node_num data mqtt_topic st)).
  { unfold Collector.update_node. destruct (Store.db_up e); [| apply extends_refl].
    destruct (Collector.update_node_tx e node_id node_num data mqtt_topic st)
      as [st'|] eqn:Htx; [| apply extends_refl].
    by apply update_node_tx_extends in Htx. }
  destruct Hext as (Hp & Ht & Hm & Hs & Ho).
  repeat (split; [done |]). intros target Hne. apply Ho.
  intros Hin. by apply list_elem_of_singleton in Hin.
Qed.

(** X7. A polled batch is local and only adds: after [save_node_data] the
    rows that were in [positions] and [telemetry] are still at the head of
    the tables, [messages] is untouched, no node is dropped, and the record
    of every node that the batch does not name is as it was. *)
Theorem poll_batch_is_local (e : Store.env) (nodes_data : list DeviceManager.PollNode)
    (st : Store.t) :
  let st' := DeviceManager.save_node_data e nodes_data st in
  Store.positions st `prefix_of` Store.positions st'
  /\ Store.telemetry st `prefix_of` Store.telemetry st'
  /\ Store.messages st' = Store.messages st
  /\ (forall target,
        is_Some (Store.nodes st !! target) -> is_Some (Store.nodes st' !! target))
  /\ (forall target,
        target ∉ map DeviceManager.n_node_id nodes_data ->
        Store.nodes st' !! target = Store.nodes st !! target).
Proof.
  cbn zeta.
  assert (Hext : Reading.extends (map DeviceManager.n_node_id nodes_data) st
                   (DeviceManager.save_node_data e nodes_data st)
                 /\ Store.messages (DeviceManager.save_node_data e nodes_data st)
                    = Store.messages st).
  { unfold DeviceManager.save_node_data.
    destruct nodes_data as [|node batch]; [split; [apply extends_refl | done] |].
    destruct (Store.db_up e); [| split; [apply extends_refl | done]].
    apply save_nodes_extends. }
  destruct Hext as [(Hp & Ht & _ & Hs & Ho) Hm]. by repeat (split; [done |]).
Qed.

(** ** Provenance and repeated polls *)

Section ProvenanceFacts.
Import Store Reading.

Lemma keeps_radio_refl st : keeps_radio st st.
Proof. intros target r Hr Hs. eauto. Qed.

Lemma keeps_radio_trans st1 st2 st3 :
  keeps_radio st1 st2 -> keeps_radio st2 st3 -> keeps_radio st1 st3.
Proof.
  intros H12 H23 target r Hr Hs.
  destruct (H12 target r Hr Hs) as (r2 & Hr2 & Hs2). eauto.
Qed.

Lemma update_node_keeps_radio e node_id node_num data topic st :
  keeps_radio st (Collector.update_node e node_id node_num data topic st).
Proof.
  intros target r Hr Hs. unfold Collector.update_node.
  destruct (db_up e); [| eauto].
  destruct (Collector.update_node_tx e node_id node_num data topic st)
    as [st'|] eqn:Htx; [| eauto].
  cbn [default from_option id].
  apply update_node_tx_nodes in Htx as (battery & volt & Hn). cbn zeta in Hn.
  destruct (decide (node_id = target)) as [-> | Hne].
  - rewrite Hr in Hn.
    match type of Hn with
    | context [Collector.on_conflict e ?ex r] =>
        destruct (on_conflict_radio e ex r Hs) as [Hs' _]
    end.
    destruct Hn as [-> | (hp & he & ha & ->)].
    + rewrite lookup_insert_eq. eauto.
    + rewrite lookup_alter_eq, lookup_insert_eq. cbn. eauto.
  - destruct Hn as [-> | (hp & he & ha & ->)].
    + rewrite lookup_insert_ne by done. eauto.
    + rewrite lookup_alter_ne, lookup_insert_ne by done. eauto.
Qed.

(** Every node that a poll saves is [radio] afterwards. *)
Lemma save_node_source e node st :
  exists r', nodes (DeviceManager.save_node e node st) !! DeviceManager.n_node_id node
             = Some r'
             /\ source r' = Some "radio"
             /\ source_interface r' = Some (DeviceManager.n_source node).
Proof.
  rewrite save_node_nodes, lookup_insert_eq. cbn zeta.
  destruct (nodes st !! DeviceManager.n_node_id node); eauto.
Qed.

Lemma save_node_keeps_radio e node st :
  keeps_radio st (DeviceManager.save_node e node st).
Proof.
  intros target r Hr Hs.
  destruct (decide (DeviceManager.n_node_id node = target)) as [<- | Hne].
  - destruct (save_node_source e node st) as (r' & Hr' & Hs' & _). eauto.
  - rewrite save_node_nodes, lookup_insert_ne by done. eauto.
Qed.

Lemma save_node_data_keeps_radio e batch st :
  keeps_radio st (DeviceManager.save_node_data e batch st).
Proof.
  unfold DeviceManager.save_node_data.
  destruct batch as [|node0 batch0]; [apply keeps_radio_refl |].
  destruct (db_up e); [| apply keeps_radio_refl].
  generalize (node0 :: batch0). clear. intros batch. revert st.
  induction batch as [|node batch IH]; intros st; cbn [fold_left].
  - apply keeps_radio_refl.
  - eapply keeps_radio_trans; [apply save_node_keeps_radio | apply IH].
Qed.


End ProvenanceFacts.

(** X8. Once a node is attributed to a radio it stays so: through any
    sequence of bus updates and polled batches, in any order and with any
    contents, a record whose [source] is [radio] is still there with
    [source] = [radio]. Every node that a poll saves is [radio] from then
    on. *)
Theorem radio_source_survives_any_ingestion (ops : list Reading.ingest)
    (st : Store.t) (target : string) (r : Store.NodeRecord) :
  Store.nodes st !! target = Some r ->
  Store.source r = Some "radio" ->
  exists r',
    Store.nodes (fold_left Reading.ingest_step ops st) !! target = Some r'
    /\ Store.source r' = Some "radio".
Proof.
  revert st r. induction ops as [|op ops IH]; intros st r Hr Hs; cbn [fold_left].
  - eauto.
  - assert (Hstep : Reading.keeps_radio st (Reading.ingest_step st op)).
    { destruct op; cbn [Reading.ingest_step].
      - apply update_node_keeps_radio.
      - apply save_node_data_keeps_radio. }
    destruct (Hstep target r Hr Hs) as (r1 & Hr1 & Hs1). by eapply IH.
Qed.

Lemma radio_source_survives_any_ingestion_witness :
  exists r',
    Store.nodes
      (fold_left Reading.ingest_step
         [Reading.FromBus Examples.later "!0000002a" 42
            (Examples.heard_on_bus (61 # 1) (11 # 1)) "msh/EU_868/2/e/LongFast";
          Reading.FromPoll Examples.later
            [Examples.polled (Some (61 # 1)) (Some (11 # 1)) None None false false];
          Reading.FromBus Examples.later "!0000002a" 42
            (Examples.heard_on_bus (62 # 1) (12 # 1)) "msh/EU_868/2/e/LongFast"]
         Examples.fixed_self_report)
    !! "!0000002a" = Some r'
    /\ Store.source r' = Some "radio".
Proof.
  refine (radio_source_survives_any_ingestion _ Examples.fixed_self_report "!0000002a"
            _ _ _); vm_compute; reflexivity.
Defined.





(** X10. On the bus [last_heard] never moves back: after [update_node],
    whatever it is called with, every record that had a [last_heard] has one
    that is no earlier; the sender's is the later of the old value and the
    arrival time when the transaction goes through. *)
Theorem bus_last_heard_never_moves_back (e : Store.env) (node_id : string)
    (node_num : Z) (data : Collector.Parsed) (mqtt_topic : string) (st : Store.t)
    (target : string) (old : Store.NodeRecord) (t : Q) :
  Store.nodes st !! target = Some old ->
  Store.last_heard old = Some t ->
  exists r' t',
    Store.nodes (Collector.update_node e node_id node_num data mqtt_topic st) !! target
    = Some r'
    /\ Store.last_heard r' = Some t'
    /\ (t <= t')%Q.
Proof.
  intros Hold Ht. unfold Collector.update_node.
  assert (Hsame : exists r' t', Store.nodes st !! target = Some r'
                                /\ Store.last_heard r' = Some t' /\ (t <= t')%Q).
  { exists old, t. repeat split; try done. apply Qle_refl. }
  destruct (Store.db_up e); [| exact Hsame].
  destruct (Collector.update_node_tx e node_id node_num data mqtt_topic st)
    as [st'|] eqn:Htx; [| exact Hsame].
  cbn [default from_option id].
  destruct (decide (node_id = target)) as [-> | Hne].
  - destruct (bus_last_heard_is_greatest _ _ _ _ _ _ _ _ Hold Htx) as (r' & Hr' & Hl).
    rewrite Ht in Hl. cbn in Hl.
    eexists r', _. split; [done |]. split; [exact Hl |].
    destruct (Qle_bool (Store.py_now e) t) eqn:Hle; [apply Qle_refl |].
    destruct (Qlt_le_dec t (Store.py_now e)) as [Hlt | Hge]; [by apply Qlt_le_weak |].
    apply Qle_bool_iff in Hge. congruence.
  - apply update_node_tx_nodes in Htx as (battery & volt & Hn). cbn zeta in Hn.
    destruct Hn as [-> | (hp & he & ha & ->)].
    + by rewrite lookup_insert_ne.
    + by rewrite lookup_alter_ne, lookup_insert_ne.
Qed.

Lemma bus_last_heard_never_moves_back_witness :
  exists r' t',
    Store.nodes
      (Collector.update_node
         {| Store.db_up := true; Store.py_now := 300; Store.sql_now := 300 |}
         "!0000002a" 42 (Examples.heard_on_bus (61 # 1) (11 # 1))
         "msh/EU_868/2/e/LongFast" Examples.fixed_self_report)
    !! "!0000002a" = Some r'
    /\ Store.last_heard r' = Some t'
    /\ (500 <= t')%Q.
Proof.
  refine (bus_last_heard_never_moves_back _ "!0000002a" 42 _ _
            Examples.fixed_self_report "!0000002a" _ 500 _ _);
    vm_compute; reflexivity.
Defined.

(** X11. A telemetry update from the bus appends exactly one telemetry row,
    for the sender. When the row reports at least one sensor group, the
    three sensor flags of the sender's record become the three flags of
    that row, a flag that an earlier update had set included; when it
    reports none, the flags stay as they were. *)
Theorem bus_sensor_flags_follow_the_update (e : Store.env) (node_id : string)
    (node_num : Z) (data : Collector.Parsed) (mqtt_topic : string)
    (st st' : Store.t) (telem : Collector.TelemetryDict) (old : Store.NodeRecord) :
  Collector.update_node_tx e node_id node_num data mqtt_topic st = Some st' ->
  Collector.p_telemetry data = Some telem ->
  Store.nodes st !! node_id = Some old ->
  exists row r',
    Store.telemetry st' = Store.telemetry st ++ [row]
    /\ Store.tel_node_id row = node_id
    /\ Store.nodes st' !! node_id = Some r'
    /\ (if Store.tel_has_power_metrics row || Store.tel_has_environment_metrics row
           || Store.tel_has_air_quality_metrics row
        then Store.has_power_sensor r' = Some (Store.tel_has_power_metrics row)
             /\ Store.has_environment_sensor r'
                = Some (Store.tel_has_environment_metrics row)
             /\ Store.has_air_quality_sensor r'
                = Some (Store.tel_has_air_quality_metrics row)
        else Store.has_power_sensor r' = Store.has_power_sensor old
             /\ Store.has_environment_sensor r' = Store.has_environment_sensor old
             /\ Store.has_air_quality_sensor r' = Store.has_air_quality_sensor old).
Proof.
  intros Htx Htelem Hold. unfold Collector.update_node_tx in Htx.
  destruct (Collector.node_metric "battery_level" data) as [battery|];
    cbn [mbind option_bind] in Htx; [| discriminate].
  destruct (Collector.node_metric "voltage" data) as [volt|];
    cbn [mbind option_bind] in Htx; [| discriminate].
  destruct (Collector.store_telemetry_if_present _ _ _ _) as [st3|] eqn:Htel;
    cbn [mbind option_bind] in Htx; [| discriminate].
  injection Htx as <-.
  unfold Collector.store_telemetry_if_present in Htel. rewrite Htelem in Htel.
  unfold Collector.store_telemetry in Htel.
  repeat match type of Htel with
         | (?m ≫= _) = Some _ =>
             destruct m eqn:?; cbn [mbind option_bind] in Htel; [| discriminate]
         end.
  injection Htel as <-. cbn zeta.
  assert (Htext : forall s : Store.t,
            Store.telemetry (Collector.store_text_message e node_id data s)
            = Store.telemetry s).
  { intros s0. unfold Collector.store_text_message.
    destruct (Collector.p_text_message data); [| done].
    unfold Store.insert_message. by destruct (existsb _ _). }
  assert (Hpos : forall pos s,
            Store.telemetry (Collector.store_position e node_id pos s)
            = Store.telemetry s).
  { intros pos s0. unfold Collector.store_position. by destruct (_ && _). }
  destruct (_ || _) eqn:Hany; eexists _, _;
    rewrite Htext, nodes_store_text_message;
    cbn [Store.telemetry Store.nodes Store.set_nodes Store.insert_telemetry];
    rewrite Hpos, nodes_store_position; cbn [Store.telemetry Collector.upsert
                                                Store.set_nodes Store.nodes].
  - split; [reflexivity |]. split; [reflexivity |].
    rewrite lookup_alter_eq, lookup_insert_eq, Hold. cbn [fmap option_fmap option_map].
    split; [reflexivity |]. cbn [Store.tel_has_power_metrics
      Store.tel_has_environment_metrics Store.tel_has_air_quality_metrics].
    rewrite Hany. by cbn.
  - split; [reflexivity |]. split; [reflexivity |].
    rewrite lookup_insert_eq, Hold.
    split; [reflexivity |]. cbn [Store.tel_has_power_metrics
      Store.tel_has_environment_metrics Store.tel_has_air_quality_metrics].
    rewrite Hany. by cbn.
Qed.

Lemma bus_sensor_flags_follow_the_update_witness :
  exists old,
    Store.nodes Examples.power_reported !! "!0000002a" = Some old
    /\ Store.has_power_sensor old = Some true
    /\ exists row r',
         Store.telemetry
           (Collector.update_node Examples.later "!0000002a" 42
              (Examples.measured_on_bus
                 [("environment_metrics",
                   Collector.TDict [("temperature", Some (21 # 1))])])
              "msh/EU_868/2/e/LongFast" Examples.power_reported)
         = Store.telemetry Examples.power_reported ++ [row]
         /\ Store.tel_node_id row = "!0000002a"
         /\ Store.nodes
              (Collector.update_node Examples.later "!0000002a" 42
                 (Examples.measured_on_bus
                    [("environment_metrics",
                      Collector.TDict [("temperature", Some (21 # 1))])])
                 "msh/EU_868/2/e/LongFast" Examples.power_reported)
            !! "!0000002a" = Some r'
         /\ (if Store.tel_has_power_metrics row
                || Store.tel_has_environment_metrics row
                || Store.tel_has_air_quality_metrics row
             then Store.has_power_sensor r' = Some (Store.tel_has_power_metrics row)
                  /\ Store.has_environment_sensor r'
                     = Some (Store.tel_has_environment_metrics row)
                  /\ Store.has_air_quality_sensor r'
                     = Some (Store.tel_has_air_quality_metrics row)
             else Store.has_power_sensor r' = Store.has_power_sensor old
                  /\ Store.has_environment_sensor r'
                     = Store.has_environment_sensor old
                  /\ Store.has_air_quality_sensor r'
                     = Store.has_air_quality_sensor old).
Proof.
  eexists. split; [vm_compute; reflexivity |]. split; [reflexivity |].
  refine (bus_sensor_flags_follow_the_update Examples.later "!0000002a" 42
            (Examples.measured_on_bus
               [("environment_metrics",
                 Collector.TDict [("temperature", Some (21 # 1))])])
            "msh/EU_868/2/e/LongFast" Examples.power_reported _
            [("environment_metrics",
              Collector.TDict [("temperature", Some (21 # 1))])] _ _ _ _);
    vm_compute; reflexivity.
Defined.

(** ** The election *)

Section ElectionFacts.
Import DeviceManager.

Lemma Qltb_false_le (a b : Q) : Py.Qltb a b = false -> (b <= a)%Q.
Proof.
  unfold Py.Qltb. rewrite negb_false_iff. apply Qle_bool_iff.
Qed.

Lemma Qltb_true_lt (a b : Q) : Py.Qltb a b = true -> (a < b)%Q.
Proof.
  unfold Py.Qltb. rewrite negb_true_iff. intros Hb.
  destruct (Qlt_le_dec a b) as [Hlt | Hle]; [done |].
  apply Qle_bool_iff in Hle. congruence.
Qed.

Lemma insert_by_score_head (x : nat * DeviceInfo) (l : list (nat * DeviceInfo)) :
  head (insert_by_score x l)
  = Some match head l with
         | Some h => if Py.Qltb (priority_score x.2) (priority_score h.2) then h else x
         | None => x
         end.
Proof.
  destruct l as [| y l]; [done |]. cbn. by destruct (Py.Qltb _ _).
Qed.

(** The head of the sorted list is the leftmost entry of highest score. *)
Lemma sorted_head_leftmost_max (l : list (nat * DeviceInfo)) :
  l <> [] ->
  exists k h,
    head (sorted_by_score l) = Some h
    /\ l !! k = Some h
    /\ forall j y, l !! j = Some y ->
         (priority_score y.2 <= priority_score h.2)%Q
         /\ ((j < k)%nat -> (priority_score y.2 < priority_score h.2)%Q).
Proof.
  induction l as [| x l IH]; [done |]. intros _.
  change (sorted_by_score (x :: l)) with (insert_by_score x (sorted_by_score l)).
  rewrite insert_by_score_head.
  destruct l as [| y l'].
  - exists 0%nat, x. repeat split; try done.
    + destruct j; [| done]. injection H as <-. apply Qle_refl.
    + lia.
  - destruct IH as (k & h & -> & Hk & Hmax); [done |].
    destruct (Py.Qltb (priority_score x.2) (priority_score h.2)) eqn:Hlt.
    + apply Qltb_true_lt in Hlt.
      exists (S k), h. split; [done |]. split; [done |].
      intros [| j] z Hz.
      * injection Hz as <-. split; [by apply Qlt_le_weak | done].
      * destruct (Hmax j z Hz) as [Hle Hbefore]. split; [done |].
        intros Hj. apply Hbefore. lia.
    + apply Qltb_false_le in Hlt.
      exists 0%nat, x. split; [done |]. split; [done |].
      intros [| j] z Hz.
      * injection Hz as <-. split; [apply Qle_refl | lia].
      * destruct (Hmax j z Hz) as [Hle _]. split; [| lia].
        by apply Qle_trans with (priority_score h.2).
Qed.

Lemma select_primary_device_is_scored now reg :
  select_primary_device now reg
  = select_primary_device_scored (calculate_priority_score now) reg.
Proof. reflexivity. Qed.

End ElectionFacts.

(** X12. The election on a non-empty registry, for the scores as
    [calculate_priority_score()] returns them, whatever their rounding: it
    keeps every address and every device in its place, rewrites only
    [priority_score] (to the score returned) and the role, gives the primary
    role to the elected device alone, and the elected device has the highest
    of the scores returned, every device before it having a strictly lower
    one. *)
Theorem election_picks_the_first_best (score : DeviceManager.DeviceInfo -> Q)
    (reg : DeviceManager.registry) :
  reg <> [] ->
  exists i pd,
    (DeviceManager.select_primary_device_scored score reg).2 = Some i
    /\ reg !! i = Some pd
    /\ length (DeviceManager.select_primary_device_scored score reg).1 = length reg
    /\ forall j ad,
         reg !! j = Some ad ->
         (DeviceManager.select_primary_device_scored score reg).1 !! j
         = Some (ad.1,
                 DeviceManager.set_is_primary (bool_decide (j = i))
                   (DeviceManager.set_priority_score (score ad.2) ad.2))
         /\ (score ad.2 <= score pd.2)%Q
         /\ ((j < i)%nat -> (score ad.2 < score pd.2)%Q).
Proof.
  intros Hne. unfold DeviceManager.select_primary_device_scored.
  destruct reg as [| a0 reg0] eqn:Hreg; [done |]. rewrite <- Hreg. clear Hne.
  assert (Hne : reg <> []) by (by rewrite Hreg). clear Hreg a0 reg0.
  cbn zeta.
  set (scored := map _ reg).
  set (indexed := imap (fun (i : nat) (ad : string * DeviceManager.DeviceInfo) =>
                          (i, ad.2)) scored).
  assert (Hindexed : forall j, indexed !! j
            = (fun ad : string * DeviceManager.DeviceInfo =>
                 (j, DeviceManager.set_priority_score (score ad.2) ad.2))
              <$> reg !! j).
  { intros j. unfold indexed, scored. rewrite list_lookup_imap, list_lookup_fmap.
    rewrite <- option_fmap_compose. reflexivity. }
  destruct (sorted_head_leftmost_max indexed) as (k & h & Hhead & Hk & Hmax).
  { destruct reg; [done |]. done. }
  rewrite Hhead. cbn [fmap option_fmap option_map].
  rewrite Hindexed in Hk.
  destruct (reg !! k) as [pd |] eqn:Hpd; [| done]. injection Hk as <-.
  exists k, pd. cbn [fst snd]. split; [done |]. split; [done |].
  split; [unfold scored; by rewrite length_imap, length_map |].
  intros j ad Had. split; [| split].
  - etrans; [apply list_lookup_imap |]. unfold scored.
    rewrite list_lookup_fmap. unfold DeviceManager.registry, Dict.t in Had.
    rewrite Had. cbn.
    do 3 f_equal. apply bool_decide_ext. split; congruence.
  - destruct (Hmax j (j, DeviceManager.set_priority_score (score ad.2) ad.2))
      as [Hle _]; [by rewrite Hindexed, Had |]. exact Hle.
  - intros Hj.
    destruct (Hmax j (j, DeviceManager.set_priority_score (score ad.2) ad.2))
      as [_ Hlt]; [by rewrite Hindexed, Had |]. exact (Hlt Hj).
Qed.

Lemma election_picks_the_first_best_witness :
  (DeviceManager.select_primary_device_scored Examples.binary64_score
     [("/dev/ttyUSB0", Examples.three_nodes_four_failures);
      ("/dev/ttyUSB1", Examples.two_nodes_one_failure)]).2 = Some 1%nat
  /\ exists i pd,
       (DeviceManager.select_primary_device_scored Examples.binary64_score
          [("/dev/ttyUSB0", Examples.three_nodes_four_failures);
           ("/dev/ttyUSB1", Examples.two_nodes_one_failure)]).2 = Some i
       /\ [("/dev/ttyUSB0", Examples.three_nodes_four_failures);
           ("/dev/ttyUSB1", Examples.two_nodes_one_failure)] !! i = Some pd
       /\ length (DeviceManager.select_primary_device_scored Examples.binary64_score
                    [("/dev/ttyUSB0", Examples.three_nodes_four_failures);
                     ("/dev/ttyUSB1", Examples.two_nodes_one_failure)]).1
          = 2%nat
       /\ forall j ad,
            [("/dev/ttyUSB0", Examples.three_nodes_four_failures);
             ("/dev/ttyUSB1", Examples.two_nodes_one_failure)] !! j = Some ad ->
            (DeviceManager.select_primary_device_scored Examples.binary64_score
               [("/dev/ttyUSB0", Examples.three_nodes_four_failures);
                ("/dev/ttyUSB1", Examples.two_nodes_one_failure)]).1 !! j
            = Some (ad.1,
                    DeviceManager.set_is_primary (bool_decide (j = i))
                      (DeviceManager.set_priority_score
                         (Examples.binary64_score ad.2) ad.2))
            /\ (Examples.binary64_score ad.2 <= Examples.binary64_score pd.2)%Q
            /\ ((j < i)%nat ->
                (Examples.binary64_score ad.2 < Examples.binary64_score pd.2)%Q).
Proof.
  split; [vm_compute; reflexivity |].
  apply (election_picks_the_first_best Examples.binary64_score
           [("/dev/ttyUSB0", Examples.three_nodes_four_failures);
            ("/dev/ttyUSB1", Examples.two_nodes_one_failure)]).
  discriminate.
Defined.

(** ** The priority score *)

Section ScoreFacts.
Import DeviceManager.




End ScoreFacts.



(** X14. The cadence of the schedule. With a divisor of at least 1, a device
    that stays standby, its counter between 0 and the divisor, is put on the
    list exactly once in every [standby_poll_divisor] passes: after [k]
    passes its counter is [(c + k) mod divisor], nothing else about it has
    changed, and the next pass lists it exactly when [c + k + 1] is a
    multiple of the divisor. A device that stays primary is listed by every
    pass and is never changed. *)
Theorem standby_is_scheduled_every_nth_pass (cfg : DeviceManager.config)
    (reg : DeviceManager.registry) (i : nat) (ad : string * DeviceManager.DeviceInfo)
    (k : nat) :
  1 <= DeviceManager.standby_poll_divisor cfg ->
  reg !! i = Some ad ->
  0 <= DeviceManager.standby_poll_counter ad.2 < DeviceManager.standby_poll_divisor cfg ->
  (DeviceManager.is_primary ad.2 = false ->
   Reading.schedule_passes cfg k reg !! i
   = Some (ad.1,
           DeviceManager.set_standby_poll_counter
             ((DeviceManager.standby_poll_counter ad.2 + Z.of_nat k)
              mod DeviceManager.standby_poll_divisor cfg) ad.2)
   /\ (i ∈ (DeviceManager.schedule cfg (Reading.schedule_passes cfg k reg)).2
       <-> (DeviceManager.standby_poll_counter ad.2 + Z.of_nat k + 1)
           mod DeviceManager.standby_poll_divisor cfg = 0))
  /\ (DeviceManager.is_primary ad.2 = true ->
      Reading.schedule_passes cfg k reg !! i = Some ad
      /\ i ∈ (DeviceManager.schedule cfg (Reading.schedule_passes cfg k reg)).2).
Proof.
  intros Hdiv Hi Hc.
  assert (Hstandby : DeviceManager.is_primary ad.2 = false ->
            Reading.schedule_passes cfg k reg !! i
            = Some (ad.1,
                    DeviceManager.set_standby_poll_counter
                      ((DeviceManager.standby_poll_counter ad.2 + Z.of_nat k)
                       mod DeviceManager.standby_poll_divisor cfg) ad.2)).
  { intros Hp. induction k as [| k IH].
    - cbn [Reading.schedule_passes Nat.iter]. rewrite Z.add_0_r, Z.mod_small by done.
      rewrite set_standby_poll_counter_same. by destruct ad.
    - change (Reading.schedule_passes cfg (S k) reg)
        with (DeviceManager.schedule cfg (Reading.schedule_passes cfg k reg)).1.
      destruct (schedule_at cfg _ i _ IH) as [-> _].
      cbn [fst snd DeviceManager.set_standby_poll_counter DeviceManager.is_primary
           DeviceManager.standby_poll_counter].
      rewrite Hp.
      destruct (counter_wraps (DeviceManager.standby_poll_divisor cfg)
                  ((DeviceManager.standby_poll_counter ad.2 + Z.of_nat k)
                   mod DeviceManager.standby_poll_divisor cfg)) as [-> _].
      { apply Z.mod_pos_bound. lia. }
      rewrite Z.add_mod_idemp_l by lia.
      replace (DeviceManager.standby_poll_counter ad.2 + Z.of_nat k + 1)
        with (DeviceManager.standby_poll_counter ad.2 + Z.of_nat (S k)) by lia.
      reflexivity. }
  assert (Hprimary : DeviceManager.is_primary ad.2 = true ->
            Reading.schedule_passes cfg k reg !! i = Some ad).
  { clear Hstandby. intros Hp. induction k as [| k IH]; [done |].
    change (Reading.schedule_passes cfg (S k) reg)
      with (DeviceManager.schedule cfg (Reading.schedule_passes cfg k reg)).1.
    destruct (schedule_at cfg _ i _ IH) as [-> _]. by rewrite Hp. }
  split.
  - intros Hp. specialize (Hstandby Hp). split; [done |].
    destruct (schedule_at cfg _ i _ Hstandby) as [_ ->].
    cbn [fst snd DeviceManager.set_standby_poll_counter DeviceManager.is_primary
         DeviceManager.standby_poll_counter].
    rewrite Hp.
    destruct (counter_wraps (DeviceManager.standby_poll_divisor cfg)
                ((DeviceManager.standby_poll_counter ad.2 + Z.of_nat k)
                 mod DeviceManager.standby_poll_divisor cfg)) as [_ Hw].
    { apply Z.mod_pos_bound. lia. }
    rewrite Z.add_mod_idemp_l in Hw by lia.
    split; [intros [| Hle]; [done | by apply Hw] | intros Hz; right; by apply Hw].
  - intros Hp. specialize (Hprimary Hp). split; [done |].
    destruct (schedule_at cfg _ i _ Hprimary) as [_ ->]. by left.
Qed.

Lemma standby_is_scheduled_every_nth_pass_witness :
  (DeviceManager.is_primary Examples.failing = false ->
   Reading.schedule_passes
     {| DeviceManager.max_fail_count := 10;
        DeviceManager.primary_failover_threshold := 3;
        DeviceManager.standby_poll_divisor := 5 |} 7
     [("/dev/ttyUSB0", Examples.healthy); ("192.168.1.20:4403", Examples.failing)]
   !! 1%nat
   = Some (("192.168.1.20:4403", Examples.failing).1,
           DeviceManager.set_standby_poll_counter
             ((DeviceManager.standby_poll_counter
                 ("192.168.1.20:4403", Examples.failing).2 + Z.of_nat 7) mod 5)
             ("192.168.1.20:4403", Examples.failing).2)
   /\ (1%nat ∈ (DeviceManager.schedule
                 {| DeviceManager.max_fail_count := 10;
                    DeviceManager.primary_failover_threshold := 3;
                    DeviceManager.standby_poll_divisor := 5 |}
                 (Reading.schedule_passes
                    {| DeviceManager.max_fail_count := 10;
                       DeviceManager.primary_failover_threshold := 3;
                       DeviceManager.standby_poll_divisor := 5 |} 7
                    [("/dev/ttyUSB0", Examples.healthy);
                     ("192.168.1.20:4403", Examples.failing)])).2
       <-> (DeviceManager.standby_poll_counter
              ("192.168.1.20:4403", Examples.failing).2 + Z.of_nat 7 + 1) mod 5 = 0))
  /\ (DeviceManager.is_primary Examples.failing = true ->
      Reading.schedule_passes
        {| DeviceManager.max_fail_count := 10;
           DeviceManager.primary_failover_threshold := 3;
           DeviceManager.standby_poll_divisor := 5 |} 7
        [("/dev/ttyUSB0", Examples.healthy); ("192.168.1.20:4403", Examples.failing)]
      !! 1%nat
      = Some ("192.168.1.20:4403", Examples.failing)
      /\ 1%nat ∈ (DeviceManager.schedule
                   {| DeviceManager.max_fail_count := 10;
                      DeviceManager.primary_failover_threshold := 3;
                      DeviceManager.standby_poll_divisor := 5 |}
                   (Reading.schedule_passes
                      {| DeviceManager.max_fail_count := 10;
                         DeviceManager.primary_failover_threshold := 3;
                         DeviceManager.standby_poll_divisor := 5 |} 7
                      [("/dev/ttyUSB0", Examples.healthy);
                       ("192.168.1.20:4403", Examples.failing)])).2).
Proof.
  apply (standby_is_scheduled_every_nth_pass
           {| DeviceManager.max_fail_count := 10;
              DeviceManager.primary_failover_threshold := 3;
              DeviceManager.standby_poll_divisor := 5 |}
           [("/dev/ttyUSB0", Examples.healthy); ("192.168.1.20:4403", Examples.failing)]
           1%nat ("192.168.1.20:4403", Examples.failing) 7%nat).
  - vm_compute. discriminate.
  - reflexivity.
  - vm_compute. split; [discriminate | reflexivity].
Defined.

(** ** A polling cycle and the store *)

Section CycleStoreFacts.
Import DeviceManager Reading.

Lemma grows_refl st : grows st st.
Proof. by repeat split. Qed.

Lemma grows_trans st1 st2 st3 : grows st1 st2 -> grows st2 st3 -> grows st1 st3.
Proof.
  intros (Hp & Ht & Hm & Hs) (Hp' & Ht' & Hm' & Hs').
  split; [by etrans |]. split; [by etrans |]. split; [congruence |].
  intros target Hin. by apply Hs', Hs.
Qed.

Lemma save_node_data_grows e batch st : grows st (save_node_data e batch st).
Proof.
  unfold save_node_data. destruct batch as [| node0 batch0]; [apply grows_refl |].
  destruct (Store.db_up e); [| apply grows_refl].
  destruct (save_nodes_extends e (node0 :: batch0) st) as [(Hp & Ht & _ & Hs & _) Hm].
  by repeat split.
Qed.

Lemma poll_device_grows d pio st : grows st (poll_device d pio st).1.2.
Proof.
  unfold poll_device.
  destruct (read_nodes d pio) as [[| n l] |]; cbn [fst snd];
    [apply grows_refl | apply save_node_data_grows | apply grows_refl].
Qed.

Lemma poll_device_quiet d pio st :
  io_connect pio = false \/ Store.db_up (io_db pio) = false ->
  (poll_device d pio st).1.2 = st.
Proof.
  intros Hq. unfold poll_device.
  destruct (read_nodes d pio) as [[| n l] |] eqn:Hread; cbn [fst snd]; try done.
  destruct Hq as [Hc | Hdb].
  - unfold read_nodes in Hread. rewrite Hc in Hread. cbn [negb] in Hread.
    by destruct (negb (address_unpacks d)).
  - unfold save_node_data. by rewrite Hdb.
Qed.

(** What holds of every poll holds of a cycle, for a property of the store
    that composes. *)
Lemma polling_cycle_store (P : Store.t -> Store.t -> Prop) cfg io rs :
  (forall st, P st st) ->
  (forall st1 st2 st3, P st1 st2 -> P st2 st3 -> P st1 st3) ->
  (forall d addr st, P st (poll_device d (cy_poll io addr) st).1.2) ->
  P rs.2 (polling_cycle cfg io rs).2.
Proof.
  intros Hrefl Htrans Hpoll.
  assert (Hfold : forall l acc, P acc.2 (fold_left (poll_at io) l acc).2).
  { induction l as [| i l IH]; intros acc; cbn [fold_left]; [apply Hrefl |].
    eapply Htrans; [| apply IH]. unfold poll_at.
    destruct (acc.1 !! i); [apply Hpoll | apply Hrefl]. }
  unfold polling_cycle. cbn zeta.
  destruct (Dict.update rs.1 (load_manual_devices io rs.1)); [apply Hrefl |].
  cbn [snd].
  destruct (schedule cfg _).2; [apply Hrefl |].
  match goal with
  | |- context [fold_left (poll_at io) ?l ?acc] =>
      specialize (Hfold l acc); destruct (fold_left (poll_at io) l acc) as [reg' st']
  end.
  cbn [fst snd] in *.
  by destruct (match _ with Some _ => _ | None => false end).
Qed.

End CycleStoreFacts.

(** X15. A polling cycle only adds to the store: whatever the devices
    answer, the position and telemetry histories grow at the end, the
    messages are left alone and no node record is dropped. When no polled
    radio connects, or the database cannot be reached, the cycle leaves the
    store as it was. *)
Theorem polling_cycle_only_adds_history (cfg : DeviceManager.config)
    (io : DeviceManager.CycleIO) (rs : DeviceManager.registry * Store.t) :
  Store.positions rs.2
    `prefix_of` Store.positions (DeviceManager.polling_cycle cfg io rs).2
  /\ Store.telemetry rs.2
       `prefix_of` Store.telemetry (DeviceManager.polling_cycle cfg io rs).2
  /\ Store.messages (DeviceManager.polling_cycle cfg io rs).2 = Store.messages rs.2
  /\ (forall target,
        is_Some (Store.nodes rs.2 !! target) ->
        is_Some (Store.nodes (DeviceManager.polling_cycle cfg io rs).2 !! target))
  /\ ((forall addr,
         DeviceManager.io_connect (DeviceManager.cy_poll io addr) = false
         \/ Store.db_up (DeviceManager.io_db (DeviceManager.cy_poll io addr)) = false) ->
      (DeviceManager.polling_cycle cfg io rs).2 = rs.2).
Proof.
  pose proof (polling_cycle_store Reading.grows cfg io rs grows_refl grows_trans
                (fun d addr st => poll_device_grows d _ st)) as (Hp & Ht & Hm & Hs).
  split; [done |]. split; [done |]. split; [done |]. split; [done |].
  intros Hquiet. symmetry.
  apply (polling_cycle_store eq cfg io rs); [done | congruence |].
  intros d addr st. symmetry. apply poll_device_quiet, Hquiet.
Qed.

Lemma polling_cycle_only_adds_history_witness :
  let io := {| DeviceManager.cy_config_file := None;
               DeviceManager.cy_time := 1000;
               DeviceManager.cy_time_failover := 1001;
               DeviceManager.cy_poll := fun _ =>
                 {| DeviceManager.io_connect := false;
                    DeviceManager.io_my_node_info := DeviceManager.Raises;
                    DeviceManager.io_region := DeviceManager.Raises;
                    DeviceManager.io_nodes := [];
                    DeviceManager.io_nodes_raise := false;
                    DeviceManager.io_close := true;
                    DeviceManager.io_time := 1000;
                    DeviceManager.io_db := Examples.clock |} |} in
  let cfg := {| DeviceManager.max_fail_count := 10;
                DeviceManager.primary_failover_threshold := 3;
                DeviceManager.standby_poll_divisor := 5 |} in
  (DeviceManager.polling_cycle cfg io
     ([("/dev/ttyUSB0", Examples.healthy)], Examples.fixed_self_report)).2
  = Examples.fixed_self_report.
Proof.
  intros io cfg.
  apply (polling_cycle_only_adds_history cfg io
           ([("/dev/ttyUSB0", Examples.healthy)], Examples.fixed_self_report)).
  intros addr. left. reflexivity.
Defined.

(** X16. Merging the configuration file never replaces a registered device.
    After [self.devices.update(self.load_manual_devices())] every registered
    device is in its place with its state, failures included; a device that
    was added has an address that was not registered and is the fresh
    device of an entry of the file that has a type; and the addresses stay
    distinct. *)
Theorem manual_devices_never_replace (io : DeviceManager.CycleIO)
    (reg : DeviceManager.registry) :
  let merged := Dict.update reg (DeviceManager.load_manual_devices io reg) in
  reg `prefix_of` merged
  /\ (forall addr d,
        (addr, d) ∈ merged ->
        (addr, d) ∈ reg
        \/ ((addr ∉ Dict.keys reg)
            /\ exists entries ty nm,
                 DeviceManager.cy_config_file io = Some entries
                 /\ (addr, Some ty, nm) ∈ entries
                 /\ d = DeviceManager.new_device (DeviceManager.cy_time io) ty addr
                          (Some (default addr nm))))
  /\ (NoDup (Dict.keys reg) -> NoDup (Dict.keys merged)).
Proof.
  cbn zeta.
  assert (Hfresh : forall x, x ∈ DeviceManager.load_manual_devices io reg ->
            (x.1 ∉ Dict.keys reg)
            /\ exists entries ty nm,
                 DeviceManager.cy_config_file io = Some entries
                 /\ (x.1, Some ty, nm) ∈ entries
                 /\ x.2 = DeviceManager.new_device (DeviceManager.cy_time io) ty x.1
                            (Some (default x.1 nm))).
  { intros x. unfold DeviceManager.load_manual_devices.
    destruct (DeviceManager.cy_config_file io) as [entries |];
      [| intros Hx; by apply elem_of_nil in Hx].
    intros Hx. apply load_entries_fresh in Hx as [Hx | (Hk & ty & nm & Hin & Hd)];
      [by apply elem_of_nil in Hx |].
    split; [done |]. by exists entries, ty, nm. }
  split; [| split].
  - rewrite <- (app_nil_r reg) at 2. rewrite dict_update_app.
    + by apply prefix_app_r.
    + intros kv Hin. by apply Hfresh.
  - intros addr d Hin. apply dict_update_elem in Hin as [Hin | Hin]; [by left | right].
    apply (Hfresh (addr, d)), Hin.
  - apply dict_update_nodup.
Qed.

Lemma manual_devices_never_replace_witness :
  let io := {| DeviceManager.cy_config_file :=
                 Some [("192.168.1.20:4403", Some "tcp", Some "Roof");
                       ("192.168.1.30:4403", Some "tcp", None)];
               DeviceManager.cy_time := 2000;
               DeviceManager.cy_time_failover := 2001;
               DeviceManager.cy_poll := fun _ => Examples.answers true |} in
  let reg := [("/dev/ttyUSB0", Examples.healthy);
              ("192.168.1.20:4403", Examples.failing)] in
  NoDup (Dict.keys (Dict.update reg (DeviceManager.load_manual_devices io reg)))
  /\ Dict.update reg (DeviceManager.load_manual_devices io reg)
     = reg ++ [("192.168.1.30:4403",
                DeviceManager.new_device 2000 "tcp" "192.168.1.30:4403"
                  (Some "192.168.1.30:4403"))].
Proof.
  intros io reg. split; [| reflexivity].
  apply (manual_devices_never_replace io reg).
  apply (bool_decide_unpack _). vm_compute. exact I.
Defined.

(** ** The primary role through a cycle *)

Section RoleFacts.
Import DeviceManager Reading.

Lemma primaries_of_roles (reg reg' : registry) :
  roles reg' = roles reg -> length (primaries reg') = length (primaries reg).
Proof.
  unfold roles, primaries, registry, Dict.t. revert reg'.
  induction reg as [| ad reg IH]; intros [| ad' reg']; cbn [fmap list_fmap];
    try done.
  intros Heq. injection Heq as Hhd Htl. rewrite !filter_cons, Hhd.
  destruct (decide (is_primary ad.2 = true)); cbn [length]; by rewrite (IH _ Htl).
Qed.

Lemma primaries_at_most_one (reg : registry) (i : nat) :
  (forall j ad, reg !! j = Some ad -> is_primary ad.2 = true -> j = i) ->
  (length (primaries reg) <= 1)%nat.
Proof.
  unfold primaries, registry, Dict.t in *. revert i. induction reg as [| ad reg IH]; intros i Hone;
    [cbn; lia |].
  rewrite filter_cons. destruct (decide (is_primary ad.2 = true)) as [Hp | Hp].
  - assert (i = 0%nat) as -> by (symmetry; by apply (Hone 0%nat ad)).
    assert (Hnone : filter (fun ad => is_primary ad.2 = true) reg = []).
    { destruct (filter _ reg) as [| bd l] eqn:Hf; [done |].
      assert (Hin : bd ∈ filter (fun ad : string * DeviceInfo => is_primary ad.2 = true)
                      reg) by (rewrite Hf; by left).
      apply list_elem_of_filter in Hin as [Hq Hin].
      apply list_elem_of_lookup in Hin as [j Hj].
      by specialize (Hone (S j) bd Hj Hq). }
    rewrite Hnone. cbn. lia.
  - apply (IH (pred i)). intros j bd Hj Hq.
    specialize (Hone (S j) bd Hj Hq). lia.
Qed.

Lemma select_primary_device_role now reg j bd :
  (select_primary_device now reg).1 !! j = Some bd ->
  is_primary bd.2 = bool_decide (Some j = (select_primary_device now reg).2).
Proof.
  unfold select_primary_device. destruct reg as [| a0 reg0]; [done |].
  cbn zeta. cbn [fst snd]. intros Hj.
  match type of Hj with
  | imap ?f ?l !! _ = _ => pose proof (list_lookup_imap f l j) as Hl
  end.
  unfold registry, Dict.t in *. rewrite Hl in Hj.
  destruct (_ !! j) as [x |]; [| done]. cbn in Hj. by injection Hj as <-.
Qed.

Lemma select_primary_device_one now reg :
  (length (primaries (select_primary_device now reg).1) <= 1)%nat.
Proof.
  destruct (select_primary_device now reg).2 as [i |] eqn:Hsel.
  - apply (primaries_at_most_one _ i). intros j bd Hj Hp.
    rewrite (select_primary_device_role _ _ _ _ Hj), Hsel in Hp.
    apply bool_decide_eq_true in Hp. congruence.
  - apply (primaries_at_most_one _ 0%nat). intros j bd Hj Hp.
    rewrite (select_primary_device_role _ _ _ _ Hj), Hsel in Hp.
    by apply bool_decide_eq_true in Hp.
Qed.

Lemma schedule_roles cfg reg : roles (schedule cfg reg).1 = roles reg.
Proof.
  unfold roles, schedule. cbn [fst]. apply list_eq. intros i.
  rewrite !list_lookup_fmap.
  etrans; [apply (f_equal (fmap _)), (f_equal (fmap _)), list_lookup_imap |].
  unfold registry, Dict.t in *.
  destruct (reg !! i) as [ad |]; [| done]. cbn.
  destruct (is_primary ad.2) eqn:Hp; [cbn; by rewrite ?Hp |].
  destruct (_ <=? _); cbn; by rewrite ?Hp.
Qed.

Lemma poll_device_role d pio st : is_primary (poll_device d pio st).1.1 = is_primary d.
Proof.
  unfold poll_device. by destruct (read_nodes d pio) as [[| n l] |].
Qed.

Lemma poll_at_roles io rs i : roles (poll_at io rs i).1 = roles rs.1.
Proof.
  unfold poll_at. destruct (rs.1 !! i) as [ad |] eqn:Hi; [| done].
  cbn [fst]. unfold roles. etrans; [apply list_fmap_insert |]. cbn [snd].
  rewrite poll_device_role. apply list_insert_id.
  etrans; [apply list_lookup_fmap |]. unfold registry, Dict.t in *. by rewrite Hi.
Qed.

Lemma polls_roles io l acc : roles (fold_left (poll_at io) l acc).1 = roles acc.1.
Proof.
  revert acc. induction l as [| i l IH]; intros acc; cbn [fold_left]; [done |].
  by rewrite IH, poll_at_roles.
Qed.

Lemma primaries_del addr (reg : registry) :
  (length (primaries (Dict.del addr reg)) <= length (primaries reg))%nat.
Proof.
  unfold primaries, Dict.del, registry, Dict.t in *.
  induction reg as [| x reg IH]; [done |].
  rewrite (filter_cons (fun kv : string * DeviceInfo => kv.1 <> addr)).
  destruct (decide (x.1 <> addr)); rewrite !filter_cons;
    destruct (decide (is_primary x.2 = true)); cbn [length]; lia.
Qed.

Lemma primaries_cleanup cfg reg :
  (length (primaries (cleanup_dead_devices cfg reg)) <= length (primaries reg))%nat.
Proof.
  unfold cleanup_dead_devices. cbn zeta.
  generalize (map fst (List.filter (fun ad => should_remove ad.2 (max_fail_count cfg))
                         reg)).
  intros l. revert reg. induction l as [| a l IH]; intros reg; cbn [fold_left]; [done |].
  etrans; [apply IH | apply primaries_del].
Qed.

End RoleFacts.

(** X17. Never two primaries. Whatever the devices answer, the registry that
    a polling cycle leaves holds at most one device in the primary role:
    the election gives the role to one device, the schedule and the polls
    leave the roles alone, a failover elects again, and the cleanup only
    removes devices. *)
Theorem cycle_leaves_at_most_one_primary (cfg : DeviceManager.config)
    (io : DeviceManager.CycleIO) (rs : DeviceManager.registry * Store.t) :
  (length (Reading.primaries (DeviceManager.polling_cycle cfg io rs).1) <= 1)%nat.
Proof.
  unfold DeviceManager.polling_cycle. cbn zeta.
  destruct (Dict.update rs.1 (DeviceManager.load_manual_devices io rs.1))
    as [| a0 reg0] eqn:Hreg; [cbn; lia |].
  rewrite <- Hreg. clear Hreg a0 reg0. cbn [fst].
  etrans; [apply primaries_cleanup |].
  set (reg := Dict.update _ _).
  pose proof (select_primary_device_one (DeviceManager.cy_time io) reg) as Hone.
  rewrite <- (primaries_of_roles _ _ (schedule_roles cfg _)) in Hone.
  destruct (DeviceManager.schedule cfg _).2 as [| i0 l0] eqn:Hl; [done |].
  rewrite <- Hl. clear Hl i0 l0.
  match goal with
  | |- context [fold_left (DeviceManager.poll_at io) ?l ?acc] =>
      pose proof (polls_roles io l acc) as Hroles;
      destruct (fold_left (DeviceManager.poll_at io) l acc) as [reg' st']
  end.
  cbn [fst snd] in *.
  destruct (match _ with Some _ => _ | None => false end); cbn [fst].
  - apply select_primary_device_one.
  - by rewrite (primaries_of_roles _ _ Hroles).
Qed.

(** ** A successful poll and the node table *)

Section PolledFacts.
Import Store DeviceManager.

Lemma read_nodes_source device io nodes_data :
  read_nodes device io = Some nodes_data ->
  Forall (fun n => n_source n = name device) nodes_data.
Proof.
  unfold read_nodes. intros Hread.
  destruct (negb (address_unpacks device)); [discriminate |].
  destruct (negb (io_connect io)); [discriminate |].
  destruct (io_my_node_info io) as [my |]; [| discriminate].
  destruct (io_nodes_raise io); [discriminate |].
  destruct (negb (io_close io)); [discriminate |].
  injection Hread as <-. apply Forall_forall. intros n Hn.
  apply list_elem_of_In, in_map_iff in Hn as (kv & <- & _). reflexivity.
Qed.

(** After a batch from one device is saved, every node of the batch, and
    every node that device had marked before, is marked as heard by radio
    through that device. *)
Lemma saved_batch_is_marked nm e batch st target :
  Forall (fun n => n_source n = nm) batch ->
  target ∈ map n_node_id batch
  \/ (exists r, nodes st !! target = Some r
                /\ source r = Some "radio" /\ source_interface r = Some nm) ->
  exists r',
    nodes (fold_left (fun st node => save_node e node st) batch st) !! target = Some r'
    /\ source r' = Some "radio" /\ source_interface r' = Some nm.
Proof.
  revert st. induction batch as [| node batch IH]; intros st Hsrc Hin; cbn [fold_left].
  - destruct Hin as [Hin | Hin]; [by apply elem_of_nil in Hin | done].
  - apply Forall_cons in Hsrc as [Hnode Hsrc]. apply IH; [done |].
    destruct (decide (n_node_id node = target)) as [<- | Hne].
    + right. destruct (save_node_source e node st) as (r' & Hr' & Hs & Hi).
      exists r'. by rewrite <- Hnode.
    + destruct Hin as [Hin | (r & Hr & Hs & Hi)].
      * cbn [map] in Hin. apply elem_of_cons in Hin as [-> | Hin]; [done | by left].
      * right. exists r. rewrite save_node_nodes, lookup_insert_ne by done. done.
Qed.

End PolledFacts.

(** X18. A poll that meets no connection or read failure and finds at least
    one readable entry in the device's table, with the database reachable,
    leaves a record in the store for every readable entry of the table,
    marked as heard by radio, with the polled device's name as its
    interface; and the device's [node_count] is the number of readable
    entries. *)
Theorem polled_nodes_are_recorded_as_radio (device : DeviceManager.DeviceInfo)
    (io : DeviceManager.PollIO) (st : Store.t) :
  ~ DeviceManager.connection_or_read_failure device io ->
  DeviceManager.readable_entries io <> [] ->
  Store.db_up (DeviceManager.io_db io) = true ->
  DeviceManager.node_count (DeviceManager.poll_device device io st).1.1
  = Z.of_nat (length (DeviceManager.readable_entries io))
  /\ forall node_id,
       node_id ∈ map fst (DeviceManager.readable_entries io) ->
       exists r,
         Store.nodes (DeviceManager.poll_device device io st).1.2 !! node_id = Some r
         /\ Store.source r = Some "radio"
         /\ Store.source_interface r = Some (DeviceManager.name device).
Proof.
  intros Hok Hsome Hdb. unfold DeviceManager.poll_device.
  destruct (read_nodes_readable device io Hok) as (nodes_data & Hread & Hids & Hlen).
  rewrite Hread.
  pose proof (read_nodes_source _ _ _ Hread) as Hsrc.
  destruct nodes_data as [| n l].
  { destruct (DeviceManager.readable_entries io); [done | discriminate]. }
  cbn [fst snd]. split.
  - cbn [DeviceManager.mark_success DeviceManager.node_count]. by rewrite Hlen.
  - intros node_id Hin. rewrite <- Hids in Hin.
    unfold DeviceManager.save_node_data. rewrite Hdb.
    apply (saved_batch_is_marked (DeviceManager.name device)); [done | by left].
Qed.

Lemma polled_nodes_are_recorded_as_radio_witness :
  DeviceManager.node_count
    (DeviceManager.poll_device Examples.usb0 Examples.one_entry_unreadable
       Store.empty).1.1
  = Z.of_nat (length (DeviceManager.readable_entries Examples.one_entry_unreadable))
  /\ forall node_id,
       node_id ∈ map fst (DeviceManager.readable_entries Examples.one_entry_unreadable) ->
       exists r,
         Store.nodes
           (DeviceManager.poll_device Examples.usb0 Examples.one_entry_unreadable
              Store.empty).1.2 !! node_id = Some r
         /\ Store.source r = Some "radio"
         /\ Store.source_interface r = Some (DeviceManager.name Examples.usb0).
Proof.
  apply (polled_nodes_are_recorded_as_radio Examples.usb0
           Examples.one_entry_unreadable Store.empty).
  - unfold DeviceManager.connection_or_read_failure.
    intros [H | [H | [H | [H | H]]]]; vm_compute in H; discriminate H.
  - vm_compute. discriminate.
  - reflexivity.
Defined.

(** ** Discovery *)

Section DiscoveryFacts.
Import DeviceManager Discovery.

(** [last_segment] is the end of the string, has no slash in it, and what
    comes before it is empty or ends in a slash. *)
Lemma last_segment_spec (s : string) :
  count_char "/" (last_segment s) = 0%nat
  /\ exists dir,
       s = dir +:+ last_segment s
       /\ (dir = EmptyString \/ exists dir', dir = dir' +:+ "/").
Proof.
  induction s as [| c s IH]; [split; [done | by exists EmptyString; split; [| left]] |].
  cbn [last_segment].
  destruct (0 <? count_char "/" s)%nat eqn:Hmore.
  - destruct IH as (Hnone & dir & Hs & Hdir). split; [done |].
    exists (String c dir). split.
    { change (String c dir +:+ last_segment s) with (String c (dir +:+ last_segment s)).
      by rewrite <- Hs. }
    right. destruct Hdir as [-> | (dir' & ->)].
    + apply Nat.ltb_lt in Hmore. rewrite Hs in Hmore.
      change (EmptyString +:+ last_segment s) with (last_segment s) in Hmore. lia.
    + by exists (String c dir').
  - apply Nat.ltb_ge in Hmore.
    destruct (Ascii.eqb c "/") eqn:Hc.
    + apply Ascii.eqb_eq in Hc as ->. split; [lia |].
      exists "/"%string. split; [done |]. right. by exists EmptyString.
    + split; [cbn [count_char]; rewrite Hc; lia |].
      exists EmptyString. split; [done | by left].
Qed.

Lemma dict_get_set_eq {V} (k : string) (v : V) (d : Dict.t V) :
  Dict.get k (Dict.set k v d) = Some v.
Proof.
  induction d as [| [k' v'] d IH]; cbn [Dict.set Dict.get].
  - by rewrite bool_decide_eq_true_2.
  - destruct (decide (k = k')) as [<- | Hne].
    + rewrite (bool_decide_eq_true_2 (k = k)) by done. cbn [Dict.get].
      by rewrite bool_decide_eq_true_2.
    + rewrite (bool_decide_eq_false_2 (k = k')) by done. cbn [Dict.get].
      by rewrite (bool_decide_eq_false_2 (k = k')).
Qed.

Lemma dict_get_set_ne {V} (k k' : string) (v : V) (d : Dict.t V) :
  k <> k' -> Dict.get k (Dict.set k' v d) = Dict.get k d.
Proof.
  intros Hne. induction d as [| [k0 v0] d IH]; cbn [Dict.set Dict.get].
  - by rewrite bool_decide_eq_false_2.
  - destruct (decide (k' = k0)) as [<- | Hne0].
    + rewrite (bool_decide_eq_true_2 (k' = k')) by done. cbn [Dict.get].
      by rewrite !(bool_decide_eq_false_2 (k = k')).
    + rewrite (bool_decide_eq_false_2 (k' = k0)) by done. cbn [Dict.get].
      by rewrite IH.
Qed.

Lemma dict_get_keys {V} (k : string) (d : Dict.t V) :
  k ∈ Dict.keys d <-> is_Some (Dict.get k d).
Proof.
  unfold Dict.keys. induction d as [| [k' v'] d IH]; cbn [map fst Dict.get].
  - split; [intros Hin; by apply elem_of_nil in Hin | by intros [? ?]].
  - destruct (decide (k = k')) as [<- | Hne].
    + rewrite bool_decide_eq_true_2 by done. split; [eauto | by left].
    + rewrite bool_decide_eq_false_2 by done. rewrite <- IH.
      split; [intros Hin; by apply elem_of_cons in Hin as [| ] | by right].
Qed.

Lemma register_port_app clock (reg : registry) port :
  exists added, register_port clock reg port = reg ++ added
    /\ forall x, x ∈ added ->
         x.1 = port /\ (port ∉ Dict.keys reg)
         /\ x.2 = new_device (clock port) "serial" port
                    (Some ("USB-" +:+ last_segment port)).
Proof.
  unfold register_port. case_bool_decide as Hin.
  - exists []. split; [by rewrite app_nil_r | intros x Hx; by apply elem_of_nil in Hx].
  - eexists [_]. split.
    + rewrite <- (app_nil_r reg) at 1. by rewrite dict_set_app.
    + intros x Hx. apply list_elem_of_singleton in Hx as ->. done.
Qed.

Lemma register_port_keys clock (reg : registry) port :
  port ∈ Dict.keys (register_port clock reg port)
  /\ (NoDup (Dict.keys reg) -> NoDup (Dict.keys (register_port clock reg port))).
Proof.
  unfold register_port. case_bool_decide as Hin; [done |]. split.
  - apply dict_get_keys. rewrite dict_get_set_eq. eauto.
  - apply dict_set_nodup.
Qed.

Lemma register_port_get clock (reg : registry) port addr d :
  Dict.get addr reg = Some d -> Dict.get addr (register_port clock reg port) = Some d.
Proof.
  intros Hget. unfold register_port. case_bool_decide as Hin; [done |].
  rewrite dict_get_set_ne; [done |]. intros <-. apply Hin, dict_get_keys. eauto.
Qed.

Lemma register_ports_get clock ports (reg : registry) addr d :
  Dict.get addr reg = Some d ->
  Dict.get addr (fold_left (register_port clock) ports reg) = Some d.
Proof.
  revert reg. induction ports as [| port ports IH]; intros reg Hget; cbn [fold_left];
    [done |].
  by apply IH, register_port_get.
Qed.

(** The registry after the loop over the ports. *)
Lemma register_ports_spec clock ports (reg : registry) :
  let out := fold_left (register_port clock) ports reg in
  reg `prefix_of` out
  /\ (forall x, x ∈ out ->
        x ∈ reg
        \/ ((x.1 ∉ Dict.keys reg) /\ x.1 ∈ ports
            /\ x.2 = new_device (clock x.1) "serial" x.1
                       (Some ("USB-" +:+ last_segment x.1))))
  /\ (forall port, port ∈ ports -> port ∈ Dict.keys out)
  /\ (NoDup (Dict.keys reg) -> NoDup (Dict.keys out)).
Proof.
  cbn zeta. revert reg.
  induction ports as [| port ports IH]; intros reg; cbn [fold_left].
  - split; [done |]. split; [by left |]. split; [| done].
    intros port Hin. by apply elem_of_nil in Hin.
  - destruct (IH (register_port clock reg port)) as (Hpre & Hnew & Hall & Hnd).
    destruct (register_port_app clock reg port) as (added & Hreg & Hadded).
    destruct (register_port_keys clock reg port) as [Hkey Hnd'].
    split; [| split; [| split]].
    + etrans; [| exact Hpre]. rewrite Hreg. by apply prefix_app_r.
    + intros x Hx. destruct (Hnew x Hx) as [Hin | (Hk & Hp & Hd)].
      * rewrite Hreg in Hin. apply elem_of_app in Hin as [Hin | Hin]; [by left |].
        destruct (Hadded x Hin) as (Hx1 & Hk & Hd). right.
        rewrite Hx1. split; [done |]. split; [by left | done].
      * right. split; [| split; [by right | done]].
        intros Hin. apply Hk. rewrite Hreg. unfold Dict.keys.
        rewrite map_app. apply elem_of_app. by left.
    + intros q Hq. apply elem_of_cons in Hq as [-> | Hq]; [| by apply Hall].
      apply dict_get_keys in Hkey as [d Hd].
      apply dict_get_keys. rewrite (register_ports_get _ _ _ _ _ Hd). eauto.
    + intros H. by apply Hnd, Hnd'.
Qed.

End DiscoveryFacts.

(** X19. Serial discovery only adds. [discover_usb_devices] leaves every
    registered device in its place with its state; a device it adds has a
    port that [findPorts()] returned and that was not registered, and is a
    fresh serial device named ["USB-"] followed by the part of the port after
    its last slash; every port returned is registered afterwards and is in
    the set that is returned; the addresses stay distinct; a second
    discovery of the same ports changes nothing; and when [findPorts()]
    raises, nothing is registered and the set is empty. *)
Theorem usb_discovery_only_adds (findPorts : DeviceManager.outcome (list string))
    (clock clock' : string -> Q) (reg : DeviceManager.registry) :
  let out := Discovery.discover_usb_devices findPorts clock reg in
  reg `prefix_of` out.1
  /\ (forall addr d,
        (addr, d) ∈ out.1 ->
        (addr, d) ∈ reg
        \/ ((addr ∉ Dict.keys reg)
            /\ (exists ports, findPorts = DeviceManager.Returns ports /\ addr ∈ ports)
            /\ d = DeviceManager.new_device (clock addr) "serial" addr
                     (Some ("USB-" +:+ Discovery.last_segment addr))
            /\ DeviceManager.name d = "USB-" +:+ Discovery.last_segment addr
            /\ DeviceManager.count_char "/" (Discovery.last_segment addr) = 0%nat
            /\ exists dir,
                 addr = dir +:+ Discovery.last_segment addr
                 /\ (dir = EmptyString \/ exists dir', dir = dir' +:+ "/")))
  /\ (forall ports port,
        findPorts = DeviceManager.Returns ports -> port ∈ ports ->
        port ∈ Dict.keys out.1 /\ port ∈ out.2)
  /\ (NoDup (Dict.keys reg) -> NoDup (Dict.keys out.1))
  /\ (Discovery.discover_usb_devices findPorts clock' out.1).1 = out.1
  /\ (findPorts = DeviceManager.Raises -> out = (reg, ∅)).
Proof.
  cbn zeta. unfold Discovery.discover_usb_devices.
  destruct findPorts as [ports |]; cbn [fst snd].
  - destruct (register_ports_spec clock ports reg) as (Hpre & Hnew & Hall & Hnd).
    cbn zeta in *.
    split; [done |]. split; [| split; [| split; [done |]]].
    + intros addr d Hin. destruct (Hnew _ Hin) as [Hreg | (Hk & Hp & Hd)]; [by left |].
      cbn [fst snd] in *. right. split; [done |]. split; [by exists ports |].
      split; [done |]. split; [by rewrite Hd |]. apply last_segment_spec.
    + intros ports' port Heq Hp. injection Heq as <-.
      split; [by apply Hall | by apply elem_of_list_to_set].
    + split; [| done].
      assert (Hsame : forall l (r : DeviceManager.registry),
                (forall q, q ∈ l -> q ∈ Dict.keys r) ->
                fold_left (Discovery.register_port clock') l r = r).
      { induction l as [| q l IH]; intros r Hk; cbn [fold_left]; [done |].
        unfold Discovery.register_port at 2.
        rewrite bool_decide_eq_true_2 by (apply Hk; by left).
        apply IH. intros q' Hq'. apply Hk. by right. }
      by apply Hsame.
  - split; [done |]. split; [by left |]. split; [done |]. by repeat split.
Qed.

Lemma usb_discovery_only_adds_witness :
  NoDup (Dict.keys
           (Discovery.discover_usb_devices
              (DeviceManager.Returns ["/dev/ttyUSB0"; "/dev/ttyACM1"]) (fun _ => 2000%Q)
              [("/dev/ttyUSB0", Examples.healthy)]).1)
  /\ (Discovery.discover_usb_devices
        (DeviceManager.Returns ["/dev/ttyUSB0"; "/dev/ttyACM1"]) (fun _ => 2000%Q)
        [("/dev/ttyUSB0", Examples.healthy)]).1
     = [("/dev/ttyUSB0", Examples.healthy);
        ("/dev/ttyACM1",
         DeviceManager.new_device 2000 "serial" "/dev/ttyACM1" (Some "USB-ttyACM1"))].
Proof.
  split; [| reflexivity].
  apply (usb_discovery_only_adds
           (DeviceManager.Returns ["/dev/ttyUSB0"; "/dev/ttyACM1"]) (fun _ => 2000%Q)
           (fun _ => 2000%Q) [("/dev/ttyUSB0", Examples.healthy)]).
  apply (bool_decide_unpack _). vm_compute. exact I.
Defined.

Section RediscoveryFacts.
Import DeviceManager Discovery.

Lemma register_ports_fresh clock ports (reg : registry) port :
  port ∉ Dict.keys reg -> port ∈ ports ->
  Dict.get port (fold_left (register_port clock) ports reg)
  = Some (new_device (clock port) "serial" port (Some ("USB-" +:+ last_segment port))).
Proof.
  revert reg. induction ports as [| q ports IH]; intros reg Hout Hin; cbn [fold_left].
  - by apply elem_of_nil in Hin.
  - destruct (decide (q = port)) as [-> | Hne].
    + apply register_ports_get. unfold register_port.
      rewrite bool_decide_eq_false_2 by done. apply dict_get_set_eq.
    + apply IH.
      * destruct (register_port_app clock reg q) as (added & -> & Hadded).
        unfold Dict.keys. rewrite map_app. intros Hc.
        apply elem_of_app in Hc as [Hc | Hc]; [done |].
        apply list_elem_of_In, in_map_iff in Hc as (x & Hx1 & Hx).
        apply list_elem_of_In in Hx. destruct (Hadded x Hx) as (Hq & _). congruence.
      * apply elem_of_cons in Hin as [-> | Hin]; done.
Qed.

End RediscoveryFacts.

(** X20. Removal is not final. A serial device that [cleanup_dead_devices]
    removes for its failures and that [findPorts()] still lists is
    registered again by the next discovery, as a fresh device: no failure,
    no node, not primary. *)
Theorem dead_device_is_rediscovered (cfg : DeviceManager.config)
    (reg : DeviceManager.registry) (ports : list string) (clock : string -> Q)
    (port : string) (d : DeviceManager.DeviceInfo) :
  (port, d) ∈ reg ->
  DeviceManager.max_fail_count cfg <= DeviceManager.fail_count d ->
  port ∈ ports ->
  Dict.get port (DeviceManager.cleanup_dead_devices cfg reg) = None
  /\ exists d',
       Dict.get port
         (Discovery.discover_usb_devices (DeviceManager.Returns ports) clock
            (DeviceManager.cleanup_dead_devices cfg reg)).1 = Some d'
       /\ DeviceManager.fail_count d' = 0
       /\ DeviceManager.node_count d' = 0
       /\ DeviceManager.is_primary d' = false
       /\ DeviceManager.type d' = "serial".
Proof.
  intros Hin Hdead Hport.
  assert (Hgone : Dict.get port (DeviceManager.cleanup_dead_devices cfg reg) = None).
  { apply dict_get_absent. intros d'.
    unfold DeviceManager.cleanup_dead_devices. rewrite elem_of_deleted. cbn [fst].
    intros [_ Hkeep]. apply Hkeep. apply elem_of_to_remove. eauto. }
  split; [done |]. eexists. split.
  - cbn [Discovery.discover_usb_devices fst]. apply register_ports_fresh; [| done].
    intros Hk. apply dict_get_keys in Hk as [d' Hd']. congruence.
  - done.
Qed.

Lemma dead_device_is_rediscovered_witness :
  Dict.get "/dev/ttyUSB0"
    (DeviceManager.cleanup_dead_devices
       {| DeviceManager.max_fail_count := 2;
          DeviceManager.primary_failover_threshold := 3;
          DeviceManager.standby_poll_divisor := 5 |}
       [("/dev/ttyUSB0",
         DeviceManager.mark_failure 1300 (DeviceManager.mark_failure 1200 Examples.usb0))])
  = None
  /\ exists d',
       Dict.get "/dev/ttyUSB0"
         (Discovery.discover_usb_devices (DeviceManager.Returns ["/dev/ttyUSB0"])
            (fun _ => 2000%Q)
            (DeviceManager.cleanup_dead_devices
               {| DeviceManager.max_fail_count := 2;
                  DeviceManager.primary_failover_threshold := 3;
                  DeviceManager.standby_poll_divisor := 5 |}
               [("/dev/ttyUSB0",
                 DeviceManager.mark_failure 1300
                   (DeviceManager.mark_failure 1200 Examples.usb0))])).1 = Some d'
       /\ DeviceManager.fail_count d' = 0
       /\ DeviceManager.node_count d' = 0
       /\ DeviceManager.is_primary d' = false
       /\ DeviceManager.type d' = "serial".
Proof.
  apply (dead_device_is_rediscovered _ _ _ _ _
           (DeviceManager.mark_failure 1300 (DeviceManager.mark_failure 1200 Examples.usb0))).
  - by left.
  - vm_compute. discriminate.
  - by left.
Defined.

(** ** What a record never loses *)

Section MemoryFacts.
Import Store Reading.

Lemma remembers_refl r : remembers r r.
Proof. unfold remembers. apply Forall2_same_length_lookup_2; [done |]. congruence. Qed.

Lemma remembers_trans r1 r2 r3 : remembers r1 r2 -> remembers r2 r3 -> remembers r1 r3.
Proof.
  unfold remembers. intros H12 H23.
  eapply Forall2_trans; [| exact H12 | exact H23]. cbn. auto.
Qed.

Lemma forgets_nothing_refl st : forgets_nothing st st.
Proof. intros target r Hr. exists r. split; [done | apply remembers_refl]. Qed.

Lemma forgets_nothing_trans st1 st2 st3 :
  forgets_nothing st1 st2 -> forgets_nothing st2 st3 -> forgets_nothing st1 st3.
Proof.
  intros H12 H23 target r Hr.
  destruct (H12 target r Hr) as (r2 & Hr2 & Hm2).
  destruct (H23 target r2 Hr2) as (r3 & Hr3 & Hm3).
  exists r3. split; [done | by eapply remembers_trans].
Qed.

Ltac column :=
  let Hwas := fresh in
  intros Hwas; cbn in *;
  repeat match goal with
         | |- context [Sql.coalesce ?a _] => is_var a; destruct a; cbn in *
         | |- context [match ?a with Some _ => _ | None => _ end] =>
             is_var a; destruct a; cbn in *
         | |- context [bool_decide ?P] => destruct (bool_decide P); cbn in *
         end;
  done.

Lemma bus_on_conflict_remembers e excluded old :
  is_Some (source_interface excluded) ->
  is_Some (last_mqtt_contact excluded) ->
  remembers old (Collector.on_conflict e excluded old).
Proof.
  intros [i Hi] [t Ht].
  unfold remembers, known, Collector.on_conflict, Sql.greatest.
  destruct excluded, old. cbn in *. subst.
  repeat (constructor; [column |]). constructor.
Qed.

Lemma set_sensor_flags_remembers hp he ha r :
  remembers r (Collector.set_sensor_flags hp he ha r).
Proof.
  unfold remembers, known, Collector.set_sensor_flags.
  destruct r. cbn in *.
  repeat (constructor; [column |]). constructor.
Qed.

Lemma poll_on_conflict_remembers e excluded old :
  is_Some (last_radio_contact excluded) ->
  remembers old (DeviceManager.on_conflict e excluded old).
Proof.
  intros [t Ht]. unfold remembers, known, DeviceManager.on_conflict.
  destruct excluded, old. cbn in *. subst.
  repeat (constructor; [column |]). constructor.
Qed.

Lemma update_node_forgets_nothing e node_id node_num data topic st :
  forgets_nothing st (Collector.update_node e node_id node_num data topic st).
Proof.
  unfold Collector.update_node.
  destruct (db_up e); [| apply forgets_nothing_refl].
  destruct (Collector.update_node_tx e node_id node_num data topic st)
    as [st' |] eqn:Htx; [| apply forgets_nothing_refl].
  cbn [default from_option id]. intros target r Hr.
  apply update_node_tx_nodes in Htx as (battery & volt & Hn). cbn zeta in Hn.
  destruct (decide (node_id = target)) as [-> | Hne].
  - rewrite Hr in Hn. destruct Hn as [-> | (hp & he & ha & ->)].
    + rewrite lookup_insert_eq. eexists. split; [done |].
      apply bus_on_conflict_remembers; cbn; eauto.
    + rewrite lookup_alter_eq, lookup_insert_eq. cbn [fmap option_fmap option_map].
      eexists. split; [done |].
      eapply remembers_trans; [| apply set_sensor_flags_remembers].
      apply bus_on_conflict_remembers; cbn; eauto.
  - exists r. split; [| apply remembers_refl].
    destruct Hn as [-> | (hp & he & ha & ->)].
    + by rewrite lookup_insert_ne.
    + by rewrite lookup_alter_ne, lookup_insert_ne.
Qed.

Lemma save_node_forgets_nothing e node st :
  forgets_nothing st (DeviceManager.save_node e node st).
Proof.
  intros target r Hr. rewrite save_node_nodes. cbn zeta.
  destruct (decide (DeviceManager.n_node_id node = target)) as [<- | Hne].
  - rewrite lookup_insert_eq, Hr. eexists. split; [done |].
    apply poll_on_conflict_remembers. cbn. eauto.
  - rewrite lookup_insert_ne by done. exists r. split; [done | apply remembers_refl].
Qed.

Lemma save_node_data_forgets_nothing e batch st :
  forgets_nothing st (DeviceManager.save_node_data e batch st).
Proof.
  unfold DeviceManager.save_node_data.
  destruct batch as [| node0 batch0]; [apply forgets_nothing_refl |].
  destruct (db_up e); [| apply forgets_nothing_refl].
  generalize (node0 :: batch0). clear. intros batch. revert st.
  induction batch as [| node batch IH]; intros st; cbn [fold_left].
  - apply forgets_nothing_refl.
  - eapply forgets_nothing_trans; [apply save_node_forgets_nothing | apply IH].
Qed.

End MemoryFacts.

(** X21. A record never loses what it knows. Through any sequence of bus
    updates and polled batches, a node record stays in the store and every
    column of it that holds a value keeps holding one (the value may
    change): name, hardware, role, position, metrics, provenance, contact
    times and sensor flags are overwritten by newer values but never set
    back to NULL. *)
Theorem ingestion_never_empties_a_column (ops : list Reading.ingest) (st : Store.t)
    (target : string) (r : Store.NodeRecord) :
  Store.nodes st !! target = Some r ->
  exists r',
    Store.nodes (fold_left Reading.ingest_step ops st) !! target = Some r'
    /\ Reading.remembers r r'.
Proof.
  revert st r. induction ops as [| op ops IH]; intros st r Hr; cbn [fold_left].
  - exists r. split; [done | apply remembers_refl].
  - assert (Hstep : Reading.forgets_nothing st (Reading.ingest_step st op)).
    { destruct op; cbn [Reading.ingest_step].
      - apply update_node_forgets_nothing.
      - apply save_node_data_forgets_nothing. }
    destruct (Hstep target r Hr) as (r1 & Hr1 & Hm1).
    destruct (IH _ _ Hr1) as (r' & Hr' & Hm'). exists r'.
    split; [done | by eapply remembers_trans].
Qed.

Lemma ingestion_never_empties_a_column_witness :
  exists r r',
    Store.nodes Examples.fixed_self_report !! "!0000002a" = Some r
    /\ Store.nodes
         (fold_left Reading.ingest_step
            [Reading.FromBus Examples.later "!0000002a" 42
               (Examples.heard_on_bus (61 # 1) (11 # 1)) "msh/EU_868/2/e/LongFast";
             Reading.FromPoll Examples.later
               [Examples.polled None None None None false false]]
            Examples.fixed_self_report)
       !! "!0000002a" = Some r'
    /\ Reading.remembers r r'.
Proof.
  assert (Hr : exists r, Store.nodes Examples.fixed_self_report !! "!0000002a" = Some r)
    by (vm_compute; eauto).
  destruct Hr as [r Hr].
  destruct (ingestion_never_empties_a_column
              [Reading.FromBus Examples.later "!0000002a" 42
                 (Examples.heard_on_bus (61 # 1) (11 # 1)) "msh/EU_868/2/e/LongFast";
               Reading.FromPoll Examples.later
                 [Examples.polled None None None None false false]]
              Examples.fixed_self_report "!0000002a" r Hr)
    as (r' & Hr' & Hm).
  by exists r, r'.
Defined.
